(** * Pulse scoring and fusion engine: a shallow embedding

    The development follows the TypeScript sources of the pulse library:

    - [lib/pulse/types.ts]          the data model,
    - [lib/pulse/calculations.ts]   [PulseCalculator], the pure score functions,
    - [lib/pulse/community.ts]      [CommunityDataService],
    - [lib/pulse/services/google-service.ts] and [lib/ai/google-live-busyness.ts],
      the two busyness services,
    - [lib/pulse/engine.ts]         [PulseEngine] and [PulseBatchUpdateService].

    Conventions of the embedding.

    - A TypeScript [number] is a rational [Q]: arithmetic is exact, and the
      values NaN and the infinities are left out (the one place where the
      code can produce NaN from its tables, the mean sentiment, is an
      [option]).  Every comparison of the source is a boolean test on
      [Q]; equality of scores is [==].  A bound that exact arithmetic
      meets with no margin is stated with room for the rounding of
      binary floating point.
    - Row counts, identifiers and timestamps (milliseconds) are [Z].
    - A value that may be [null] or [undefined] is an [option].
    - A call that may throw returns a [result]; code that reads and writes
      the database threads a [Store] through a small state-and-exception
      monad.
    - Async functions that run together under [Promise.all] are [Task]s:
      each advances from one [await] to the next, in an order of
      completion that the environment gives. *)

From Stdlib Require Import QArith Qround Qminmax ZArith Lia Lqa List Bool.
From stdpp Require Import gmap strings list.

Local Open Scope Q_scope.

(** ** Numbers *)

Definition Qgeb (a b : Q) : bool := Qle_bool b a.
Definition Qgtb (a b : Q) : bool := negb (Qle_bool a b).
Definition Qltb (a b : Q) : bool := negb (Qle_bool b a).
Definition Qleb (a b : Q) : bool := Qle_bool a b.

Infix ">=?" := Qgeb (at level 70, no associativity) : Q_scope.
Infix ">?" := Qgtb (at level 70, no associativity) : Q_scope.
Infix "<?" := Qltb (at level 70, no associativity) : Q_scope.
Infix "<=?" := Qleb (at level 70, no associativity) : Q_scope.
Infix "=?" := Qeq_bool (at level 70, no associativity) : Q_scope.

(** [Math.min], [Math.max] and [Math.round] (halves go up). *)
Definition Math_min (a b : Q) : Q := if a <=? b then a else b.
Definition Math_max (a b : Q) : Q := if a <=? b then b else a.
Definition Math_round (x : Q) : Z := Qfloor (x + (1 # 2)).

(** ** Data model ([types.ts]) *)

Inductive VenueDataSource := SPREE | COMMUNITY | GOOGLE | ESTIMATED.

Inductive CheckInTrend := surging | increasing | stable | decreasing.

Record VenueMetrics := {
  venueId : Z;
  activeCheckIns : Q;
  checkInsLast30Min : Q;
  checkInsLastHour : Q;
  checkInTrend : CheckInTrend;
  reportedWaitTime : option Q;
  recentRatings : Q;
  recentSentiment : Q;
  vibePhotosCount : Q;
  dayOfWeek : Q;
  hourOfDay : Q;
  isSpecialEvent : bool
}.

(** ** [PulseCalculator] ([calculations.ts]) *)

Module PulseCalculator.

Definition calculateActivityScore (activeCheckIns : Q) : Q :=
  if activeCheckIns >=? 100 then 9.0
  else if activeCheckIns >=? 75 then 8.5
  else if activeCheckIns >=? 50 then 8.0
  else if activeCheckIns >=? 30 then 7.0
  else if activeCheckIns >=? 20 then 6.5
  else if activeCheckIns >=? 15 then 6.0
  else if activeCheckIns >=? 10 then 5.5
  else if activeCheckIns >=? 5 then 5.0
  else if activeCheckIns >=? 2 then 4.5
  else if activeCheckIns >? 0 then 4.0
  else 3.0.

Definition calculateMomentumBoost (trend : CheckInTrend) : Q :=
  match trend with
  | surging => 1.0
  | increasing => 0.5
  | stable => 0
  | decreasing => - 0.5
  end.

Definition calculateVibeBoost (sentiment photoCount : Q) : Q :=
  let boost := 0 in
  let boost :=
    if sentiment >? 0.7 then boost + 0.5
    else if sentiment >? 0.3 then boost + 0.3
    else if sentiment >? 0 then boost + 0.1
    else boost in
  let boost :=
    if photoCount >=? 10 then boost + 0.5
    else if photoCount >=? 5 then boost + 0.3
    else if photoCount >=? 2 then boost + 0.2
    else if photoCount >? 0 then boost + 0.1
    else boost in
  Math_min 1.0 boost.

(** [!waitTime] holds for [null] and for [0]. *)
Definition calculateWaitTimeBoost (waitTime : option Q) : Q :=
  match waitTime with
  | None => 0
  | Some waitTime =>
      if waitTime =? 0 then 0
      else if waitTime >=? 45 then 2.0
      else if waitTime >=? 30 then 1.5
      else if waitTime >=? 20 then 1.0
      else if waitTime >=? 10 then 0.7
      else if waitTime >=? 5 then 0.5
      else 0
  end.

Definition timeModifier (hour dayOfWeek : Q) : Q :=
  if ((dayOfWeek >=? 4) || (dayOfWeek =? 0)) && ((hour >=? 22) || (hour <=? 2))
  then 1.15
  else if (hour >=? 20) || (hour <=? 0) then 1.1
  else if (dayOfWeek >=? 1) && (dayOfWeek <=? 5) && (hour >=? 17) && (hour <=? 19)
  then 1.05
  else if (dayOfWeek >=? 1) && (dayOfWeek <=? 3) && ((hour >=? 23) || (hour <=? 1))
  then 0.9
  else if (hour >=? 6) && (hour <? 17) then 0.7
  else if (hour >=? 3) && (hour <? 6) then 0.5
  else 1.0.

Definition applyTimeModifiers (basePulse hour dayOfWeek : Q) : Q :=
  basePulse * timeModifier hour dayOfWeek.

(** The score before the final clamp and rounding. *)
Definition rawPulse (metrics : VenueMetrics) : Q :=
  let pulse := calculateActivityScore (activeCheckIns metrics) in
  let pulse := pulse + calculateMomentumBoost (checkInTrend metrics) in
  let pulse :=
    pulse + calculateVibeBoost (recentSentiment metrics) (vibePhotosCount metrics) in
  let pulse := pulse + calculateWaitTimeBoost (reportedWaitTime metrics) in
  let pulse := applyTimeModifiers pulse (hourOfDay metrics) (dayOfWeek metrics) in
  if isSpecialEvent metrics then pulse * 1.2 else pulse.

(** [Math.round(finalPulse * 10) / 10] of the clamped score. *)
Definition roundedPulse (pulse : Q) : Q :=
  let finalPulse := Math_min 10 (Math_max 0 pulse) in
  inject_Z (Math_round (finalPulse * 10)) / 10.

Definition calculateFromMetrics (metrics : VenueMetrics) : Q :=
  roundedPulse (rawPulse metrics).

Definition convertGoogleToSpree (googleBusyness : Q) : Q :=
  if googleBusyness >=? 90 then 9.5
  else if googleBusyness >=? 80 then 8.5 + (googleBusyness - 80) / 20
  else if googleBusyness >=? 70 then 7.5 + (googleBusyness - 70) / 20
  else if googleBusyness >=? 60 then 7.0 + (googleBusyness - 60) / 40
  else if googleBusyness >=? 50 then 6.5 + (googleBusyness - 50) / 40
  else if googleBusyness >=? 40 then 6.0 + (googleBusyness - 40) / 40
  else if googleBusyness >=? 30 then 5.5 + (googleBusyness - 30) / 40
  else if googleBusyness >=? 20 then 5.0 + (googleBusyness - 20) / 40
  else if googleBusyness >=? 10 then 4.0 + (googleBusyness - 10) / 20
  else if googleBusyness >? 0 then 3.0 + googleBusyness / 10
  else 3.0.

Inductive ConfidenceSource := src_spree | src_community | src_google.

Definition sourceConfidence (dataSource : ConfidenceSource) : Q :=
  match dataSource with
  | src_spree => 0.9
  | src_community => 0.7
  | src_google => 0.6
  end.

Definition quantityAdjusted (baseConfidence dataPoints : Q) : Q :=
  if dataPoints >=? 20 then baseConfidence + 0.1
  else if dataPoints >=? 10 then baseConfidence + 0.05
  else if dataPoints <? 3 then baseConfidence - 0.2
  else baseConfidence.

Definition freshnessAdjusted (baseConfidence dataAge : Q) : Q :=
  if dataAge <? 15 then baseConfidence + 0.05
  else if dataAge >? 60 then baseConfidence - 0.1
  else if dataAge >? 120 then baseConfidence - 0.2
  else baseConfidence.

Definition calculateConfidence
    (dataPoints dataAge : Q) (dataSource : ConfidenceSource) : Q :=
  let baseConfidence := sourceConfidence dataSource in
  let baseConfidence := quantityAdjusted baseConfidence dataPoints in
  let baseConfidence := freshnessAdjusted baseConfidence dataAge in
  Math_min 1 (Math_max 0.1 baseConfidence).

End PulseCalculator.


(** ** Community data model ([types.ts], [COMMUNITY_TABLES_SQL]) *)

Inductive VibeLevel := dead | chill | busy | packed.

Inductive CrowdEstimate := crowd0 | crowd25 | crowd50 | crowd75 | crowd100.

#[global] Instance VibeLevel_eq_dec : EqDecision VibeLevel.
Proof. solve_decision. Defined.

Definition VibeLevel_eqb (a b : VibeLevel) : bool :=
  match a, b with
  | dead, dead | chill, chill | busy, busy | packed, packed => true
  | _, _ => false
  end.

(** What a caller submits.  The optional [created_at] of the interface is
    overwritten on insertion and is left out. *)
Record QuickVibeReport := {
  venue_id : Z;
  user_id : string;
  vibe_level : VibeLevel;
  wait_time_minutes : option Z;
  crowd_estimate : option CrowdEstimate
}.

Record AnonymousPing := {
  ping_venue_id : Z;
  device_id : string
}.

(** Rows of [community_vibe_reports], [anonymous_pings] and
    [social_signals]; [vibe_level] is a nullable column. *)
Record VibeReportRow := {
  row_venue_id : Z;
  row_user_id : string;
  row_vibe_level : option VibeLevel;
  row_wait_time_minutes : option Z;
  row_crowd_estimate : option CrowdEstimate;
  row_created_at : Z
}.

Record PingRow := {
  pr_venue_id : Z;
  pr_device_id : string;
  pr_created_at : Z
}.

Record SocialSignalRow := {
  sig_venue_id : Z;
  sig_signal_type : string;
  sig_created_at : Z
}.

Record UserPointsRow := {
  up_user_id : string;
  up_points : Z;
  up_source_type : string;
  up_timestamp : Z
}.

Record CommunityConsensus := {
  vibeReports : Z;
  consensusVibe : option VibeLevel;
  vibeScores : list (VibeLevel * Z);
  averageWaitTime : option Q;
  anonymousPings : Z;
  uniqueDevices : Z;
  socialSignals : Z;
  dataPoints : Z
}.

(** ** Venues, scores and the database *)

Record VenueRecord := {
  rec_id : Z;
  rec_name : string;
  google_place_id : option string;
  spree_onboarded : bool;
  is_active : bool;
  pulse : Q;
  pulse_confidence : option Q;
  pulse_data_source : option VenueDataSource;
  pulse_updated_at : option Z
}.

Record PulseBreakdown := {
  checkIns : option Q;
  googleBusy : option Q;
  communityReports : option Z;
  waitTime : option Q;
  vibeScore : option Q
}.

Record PulseData := {
  value : Q;
  confidence : Q;
  dataSource : VenueDataSource;
  lastUpdated : Z;
  breakdown : option PulseBreakdown
}.

Inductive RelativeLevel := low | below_average | average | above_average | high.

Inductive BusynessTrend := trend_decreasing | trend_stable | trend_increasing.

(** [GoogleBusynessData]; its [lastUpdated] and [confidence] are renamed
    [fetchedAt] and [sampleConfidence]. *)
Record GoogleBusynessData := {
  currentBusyness : Q;
  usualBusyness : Q;
  relativeLevel : RelativeLevel;
  trend : BusynessTrend;
  fetchedAt : Z;
  sampleConfidence : Q
}.

Record CalculationLogRow := {
  log_venue_id : Z;
  calculated_pulse : Q;
  log_data_source : VenueDataSource;
  log_confidence : Q;
  log_metrics : option VenueMetrics
}.

Record PulseHistoryRow := {
  hist_venue_id : Z;
  pulse_value : Q;
  hist_confidence : Q;
  data_sources : list VenueDataSource
}.

(** The tables that the engine, the community service and the batch job
    read and write, and the progress lines of the batch job on the
    console ([console.log]; the lines of [console.error] and
    [console.warn] are not kept).  [venues] is keyed by its primary key;
    the other tables are kept in insertion order.  The cache table of the
    busyness service, which that service alone reads and writes, is not
    part of the store: it is modelled with the service, further down. *)
Record Store := {
  venues : gmap Z VenueRecord;
  community_vibe_reports : list VibeReportRow;
  anonymous_pings : list PingRow;
  social_signals : list SocialSignalRow;
  user_points : list UserPointsRow;
  pulse_calculations_log : list CalculationLogRow;
  pulse_history : list PulseHistoryRow;
  console : list (Z * Z)
}.

(** ** Failures and effects *)

Inductive Error :=
| VenueNotFound (venueId : Z)
| RateLimited
| DatabaseError
| ProviderError.

Inductive result (A : Type) :=
| Ok (a : A)
| Throw (e : Error).
Arguments Ok {A} a.
Arguments Throw {A} e.

(** Database calls that the model lets fail by throwing. *)
Inductive DbCall :=
| InsertCalculationLog (venueId : Z)
| UpdateVenuePulse (venueId : Z)
| InsertPulseHistory (venueId : Z).

(** Everything outside the tables: the clock, the collaborators whose code
    is not modelled, and the injected faults.

    - [now] is [Date.now()] in milliseconds, [hours] and [day] are
      [getHours()] and [getDay()] of the same instant;
    - [getVenueMetrics] stands for the queries of
      [PulseEngine.getVenueMetrics], [getBusyness] for the answer of
      [GoogleBusynessService.getBusyness], whose effect on its cache
      table is outside the store; either may throw;
    - [throws c] tells whether the database call [c] throws;
    - [rejects row] tells whether inserting [row] into
      [community_vibe_reports] returns an error;
    - [completions i] is the order in which the awaits of the batch that
      starts at index [i] complete, each entry naming a member of the
      batch by its position. *)
Record Env := {
  now : Z;
  hours : Q;
  day : Q;
  getVenueMetrics : Z -> result VenueMetrics;
  getBusyness : string -> result (option GoogleBusynessData);
  throws : DbCall -> bool;
  rejects : VibeReportRow -> bool;
  completions : nat -> list nat
}.

Definition M (A : Type) : Type := Store -> result A * Store.

Definition ret {A} (a : A) : M A := fun s => (Ok a, s).

Definition throw {A} (e : Error) : M A := fun s => (Throw e, s).

Definition bind {A B} (m : M A) (k : A -> M B) : M B :=
  fun s =>
    match m s with
    | (Ok a, s') => k a s'
    | (Throw e, s') => (Throw e, s')
    end.

(** [try { m } catch (error) { handler error }]: the writes made before the
    throw stay. *)
Definition try_catch {A} (m : M A) (handler : Error -> M A) : M A :=
  fun s =>
    match m s with
    | (Ok a, s') => (Ok a, s')
    | (Throw e, s') => handler e s'
    end.

Definition gets {A} (f : Store -> A) : M A := fun s => (Ok (f s), s).

Definition modify (f : Store -> Store) : M unit := fun s => (Ok tt, f s).

Definition lift {A} (r : result A) : M A := fun s => (r, s).

Notation "'do' x <- m ; k" := (bind m (fun x => k))
  (at level 10, x name, m at level 100, k at level 200).
Notation "'run' m ; k" := (bind m (fun _ => k))
  (at level 10, m at level 100, k at level 200).

(** *** Async functions that run together

    Between two awaits an async function runs without interruption.  A
    [Task] is such a function at rest: it has returned, or it waits for a
    step on the tables and resumes with the outcome of the step, a value
    or a thrown error. *)
Inductive Task (A : Type) : Type :=
| Done (a : A)
| Await {X : Type} (step : M X) (resume : result X -> Task A).
Arguments Done {A} a.
Arguments Await {A X} step resume.

Fixpoint andThen {A B} (t : Task A) (f : A -> Task B) : Task B :=
  match t with
  | Done a => f a
  | Await step resume => Await step (fun r => andThen (resume r) f)
  end.

(** [await step], with what it yields or throws. *)
Definition await {X} (step : M X) : Task (result X) := Await step Done.

(** Sequencing inside a [try] block: a thrown error skips the rest. *)
Definition tryThen {A B} (t : Task (result A)) (f : A -> Task (result B))
    : Task (result B) :=
  andThen t (fun r =>
               match r with
               | Ok a => f a
               | Throw e => Done (Throw e)
               end).

(** [try { t } catch (error) { return handler error }] *)
Definition catching {A} (t : Task (result A)) (handler : Error -> A) : Task A :=
  andThen t (fun r =>
               Done match r with
                    | Ok a => a
                    | Throw e => handler e
                    end).

(** A task awaited on its own. *)
Fixpoint runTask {A} (t : Task A) (s : Store) : A * Store :=
  match t with
  | Done a => (a, s)
  | Await step resume => let '(r, s') := step s in runTask (resume r) s'
  end.

(** One completion: the member [n] of the pool, when it is waiting, has
    its step done and runs on to its next [await]. *)
Definition complete {A} (n : nat) (pool : list (Task A)) (s : Store)
    : list (Task A) * Store :=
  match pool !! n with
  | Some (Await step resume) =>
      let '(r, s') := step s in (<[n := resume r]> pool, s')
  | _ => (pool, s)
  end.

Fixpoint completeAll {A} (order : list nat) (pool : list (Task A)) (s : Store)
    : list (Task A) * Store :=
  match order with
  | [] => (pool, s)
  | n :: order' => let '(pool', s') := complete n pool s in completeAll order' pool' s'
  end.

(** What is still pending is completed member by member. *)
Fixpoint settle {A} (pool : list (Task A)) (s : Store) : list A * Store :=
  match pool with
  | [] => ([], s)
  | t :: pool' =>
      let '(a, s1) := runTask t s in
      let '(rest, s2) := settle pool' s1 in
      (a :: rest, s2)
  end.

(** [await Promise.all(pool)] for members that never reject: their awaits
    complete in the order [order], then the rest; the results come in the
    order of the pool. *)
Definition promiseAll {A} (order : list nat) (pool : list (Task A)) : M (list A) :=
  fun s =>
    let '(pool', s1) := completeAll order pool s in
    let '(results, s2) := settle pool' s1 in
    (Ok results, s2).

Definition Zlen {A} (l : list A) : Z := Z.of_nat (length l).

(** [.single()]: the row when the query matches exactly one, [null]
    otherwise. *)
Definition single {A} (rows : list A) : option A :=
  match rows with
  | [row] => Some row
  | _ => None
  end.

(** ** [CommunityDataService] ([community.ts]) *)

Module CommunityDataService.

Definition insertVibeReport (row : VibeReportRow) (s : Store) : Store :=
  {| venues := venues s;
     community_vibe_reports := community_vibe_reports s ++ [row];
     anonymous_pings := anonymous_pings s;
     social_signals := social_signals s;
     user_points := user_points s;
     pulse_calculations_log := pulse_calculations_log s;
     pulse_history := pulse_history s;
     console := console s |}.

Definition insertPing (row : PingRow) (s : Store) : Store :=
  {| venues := venues s;
     community_vibe_reports := community_vibe_reports s;
     anonymous_pings := anonymous_pings s ++ [row];
     social_signals := social_signals s;
     user_points := user_points s;
     pulse_calculations_log := pulse_calculations_log s;
     pulse_history := pulse_history s;
     console := console s |}.

Definition insertUserPoints (row : UserPointsRow) (s : Store) : Store :=
  {| venues := venues s;
     community_vibe_reports := community_vibe_reports s;
     anonymous_pings := anonymous_pings s;
     social_signals := social_signals s;
     user_points := user_points s ++ [row];
     pulse_calculations_log := pulse_calculations_log s;
     pulse_history := pulse_history s;
     console := console s |}.

(** The rows of one participant for one venue created at or after
    [since]. *)
Definition recentReportsBy
    (venueId : Z) (userId : string) (since : Z) (s : Store) : list VibeReportRow :=
  filter (fun r => row_venue_id r = venueId /\ row_user_id r = userId
                   /\ (since <= row_created_at r)%Z)
         (community_vibe_reports s).

Definition recentPingsBy
    (venueId : Z) (deviceId : string) (since : Z) (s : Store) : list PingRow :=
  filter (fun r => pr_venue_id r = venueId /\ pr_device_id r = deviceId
                   /\ (since <= pr_created_at r)%Z)
         (anonymous_pings s).

Definition awardPoints (env : Env) (userId : string) (points : Z) : M unit :=
  modify (insertUserPoints
            {| up_user_id := userId; up_points := points;
               up_source_type := "community"; up_timestamp := now env |}).

(** Only writes a line to the console. *)
Definition queuePulseUpdate (venueId : Z) : M unit := ret tt.

(** [{ ...report, created_at: new Date().toISOString() }] *)
Definition vibeReportRow (report : QuickVibeReport) (createdAt : Z) : VibeReportRow :=
  {| row_venue_id := venue_id report;
     row_user_id := user_id report;
     row_vibe_level := Some (vibe_level report);
     row_wait_time_minutes := wait_time_minutes report;
     row_crowd_estimate := crowd_estimate report;
     row_created_at := createdAt |}.

Definition submitVibeReport (env : Env) (report : QuickVibeReport) : M unit :=
  let oneHourAgo := (now env - 60 * 60 * 1000)%Z in
  do existing <-
    gets (fun s =>
            single (recentReportsBy (venue_id report) (user_id report) oneHourAgo s));
  match existing with
  | Some _ => throw RateLimited
  | None =>
      let row := vibeReportRow report (now env) in
      if rejects env row then throw DatabaseError
      else
        run modify (insertVibeReport row);
        run awardPoints env (user_id report) 5;
        queuePulseUpdate (venue_id report)
  end.

Definition submitAnonymousPing (env : Env) (ping : AnonymousPing) : M unit :=
  let oneHourAgo := (now env - 60 * 60 * 1000)%Z in
  do existing <-
    gets (fun s =>
            single (recentPingsBy (ping_venue_id ping) (device_id ping) oneHourAgo s));
  match existing with
  | Some _ => ret tt
  | None =>
      modify (insertPing
                {| pr_venue_id := ping_venue_id ping;
                   pr_device_id := device_id ping;
                   pr_created_at := now env |})
  end.

(** The object literal [{ dead: 0, chill: 0, busy: 0, packed: 0 }]; its
    entries are enumerated in this order. *)
Definition emptyScores : list (VibeLevel * Z) :=
  [(dead, 0%Z); (chill, 0%Z); (busy, 0%Z); (packed, 0%Z)].

(** [vibeScores[vibe]++] *)
Fixpoint increment (vibe : VibeLevel) (scores : list (VibeLevel * Z))
    : list (VibeLevel * Z) :=
  match scores with
  | [] => []
  | (v, count) :: rest =>
      if VibeLevel_eqb v vibe then (v, (count + 1)%Z) :: rest
      else (v, count) :: increment vibe rest
  end.

Record Tally := {
  tally_scores : list (VibeLevel * Z);
  totalWaitTime : Z;
  waitTimeReports : Z
}.

(** One turn of [vibeReports.forEach]. *)
Definition tallyReport (acc : Tally) (report : VibeReportRow) : Tally :=
  let scores :=
    match row_vibe_level report with
    | Some vibe => increment vibe (tally_scores acc)
    | None => tally_scores acc
    end in
  match row_wait_time_minutes report with
  | Some w =>
      if (w =? 0)%Z then
        {| tally_scores := scores; totalWaitTime := totalWaitTime acc;
           waitTimeReports := waitTimeReports acc |}
      else
        {| tally_scores := scores; totalWaitTime := (totalWaitTime acc + w)%Z;
           waitTimeReports := (waitTimeReports acc + 1)%Z |}
  | None =>
      {| tally_scores := scores; totalWaitTime := totalWaitTime acc;
         waitTimeReports := waitTimeReports acc |}
  end.

Definition tally (vibeReports : list VibeReportRow) : Tally :=
  fold_left tallyReport vibeReports
    {| tally_scores := emptyScores; totalWaitTime := 0; waitTimeReports := 0 |}.

Definition sumScores (scores : list (VibeLevel * Z)) : Z :=
  fold_left (fun a b => (a + b)%Z) (map snd scores) 0%Z.

(** One turn of [Object.entries(vibeScores).forEach], on the pair
    [(consensusVibe, maxVotes)]. *)
Definition consensusStep (totalVibeReports : Z)
    (acc : option VibeLevel * Z) (entry : VibeLevel * Z) : option VibeLevel * Z :=
  let '(vibe, count) := entry in
  if (count >? snd acc)%Z
     && (inject_Z count >=? inject_Z totalVibeReports * 0.3)
  then (Some vibe, count)
  else acc.

Definition findConsensus (scores : list (VibeLevel * Z)) : option VibeLevel :=
  let totalVibeReports := sumScores scores in
  fst (fold_left (consensusStep totalVibeReports) scores (None, 0%Z)).

Definition getConsensus
    (env : Env) (venueId : Z) (minutesBack : Z) (s : Store) : CommunityConsensus :=
  let since := (now env - minutesBack * 60 * 1000)%Z in
  let vibeReports :=
    filter (fun r => row_venue_id r = venueId /\ (since <= row_created_at r)%Z)
           (community_vibe_reports s) in
  let pings :=
    filter (fun r => pr_venue_id r = venueId /\ (since <= pr_created_at r)%Z)
           (anonymous_pings s) in
  let socialSignals :=
    filter (fun r => sig_venue_id r = venueId /\ (since <= sig_created_at r)%Z)
           (social_signals s) in
  let t := tally vibeReports in
  let vibeScores := tally_scores t in
  let totalVibeReports := sumScores vibeScores in
  let uniqueDevices : gset string := list_to_set (map pr_device_id pings) in
  {| vibeReports := totalVibeReports;
     consensusVibe := findConsensus vibeScores;
     vibeScores := vibeScores;
     averageWaitTime :=
       if (waitTimeReports t >? 0)%Z
       then Some (inject_Z (totalWaitTime t) / inject_Z (waitTimeReports t))
       else None;
     anonymousPings := Zlen pings;
     uniqueDevices := Z.of_nat (size uniqueDevices);
     socialSignals := Zlen socialSignals;
     dataPoints := (totalVibeReports + Zlen pings + Zlen socialSignals)%Z |}.

Record Influence := {
  influence : Q;
  adjustment : Q
}.

Definition calculateInfluence (consensus : CommunityConsensus) : Influence :=
  if (dataPoints consensus <? 3)%Z then {| influence := 0; adjustment := 0 |}
  else
    let influence := Math_min 0.4 (inject_Z (dataPoints consensus) / 20) in
    let influence :=
      match consensusVibe consensus with
      | Some _ =>
          if (vibeReports consensus >=? 5)%Z then Math_min 0.6 (influence + 0.2)
          else influence
      | None => influence
      end in
    let adjustment :=
      match consensusVibe consensus with
      | Some packed => 2
      | Some busy => 1
      | Some chill => 0
      | Some dead => - 2
      | None => 0
      end in
    let adjustment :=
      match averageWaitTime consensus with
      | Some w =>
          if w =? 0 then adjustment
          else if w >=? 30 then adjustment + 1
          else if w >=? 15 then adjustment + 0.5
          else adjustment
      | None => adjustment
      end in
    let adjustment :=
      if (uniqueDevices consensus >=? 20)%Z then adjustment + 0.5 else adjustment in
    let adjustment :=
      if (socialSignals consensus >=? 5)%Z then adjustment + 0.3 else adjustment in
    let adjustment := Math_max (- 2) (Math_min 2 adjustment) in
    {| influence := influence; adjustment := adjustment |}.

End CommunityDataService.

(** ** The busyness services *)

(** Division that makes a zero divisor visible. *)
Definition checkedDiv (a b : Q) : option Q :=
  if b =? 0 then None else Some (a / b).

Definition levelOfRatio (ratio : Q) : RelativeLevel :=
  if ratio <? 0.5 then low
  else if ratio <? 0.8 then below_average
  else if ratio <? 1.2 then average
  else if ratio <? 1.5 then above_average
  else high.

(** [lib/pulse/services/google-service.ts] *)
Module GoogleBusynessService.

Definition calculateTrend (current usual : Q) : BusynessTrend :=
  let difference := current - usual in
  if difference >? 10 then trend_increasing
  else if difference <? - 10 then trend_decreasing
  else trend_stable.

(** [usual > 0 ? current / usual : 1] *)
Definition relativeRatio (current usual : Q) : option Q :=
  if usual >? 0 then checkedDiv current usual else Some 1.

Definition calculateRelativeLevel (current usual : Q) : option RelativeLevel :=
  levelOfRatio <$> relativeRatio current usual.

End GoogleBusynessService.

(** [lib/ai/google-live-busyness.ts] *)
Module GoogleLiveBusynessService.

Definition getBusynessLevel (current usual : Q) : option RelativeLevel :=
  if usual =? 0 then Some average
  else levelOfRatio <$> checkedDiv current usual.

End GoogleLiveBusynessService.

(** ** [PulseEngine] ([engine.ts]) *)

Module PulseEngine.

Definition getVenue (venueId : Z) : M (option VenueRecord) :=
  gets (fun s => venues s !! venueId).

Definition insertCalculationLog (row : CalculationLogRow) (s : Store) : Store :=
  {| venues := venues s;
     community_vibe_reports := community_vibe_reports s;
     anonymous_pings := anonymous_pings s;
     social_signals := social_signals s;
     user_points := user_points s;
     pulse_calculations_log := pulse_calculations_log s ++ [row];
     pulse_history := pulse_history s;
     console := console s |}.

Definition logCalculation
    (env : Env) (venueId : Z) (pulse : PulseData) (metrics : option VenueMetrics)
    : M unit :=
  if throws env (InsertCalculationLog venueId) then throw DatabaseError
  else
    modify (insertCalculationLog
              {| log_venue_id := venueId;
                 calculated_pulse := value pulse;
                 log_data_source := dataSource pulse;
                 log_confidence := confidence pulse;
                 log_metrics := metrics |}).

Definition getDefaultPulse (env : Env) : PulseData :=
  {| value := 5.0;
     confidence := 0.3;
     dataSource := ESTIMATED;
     lastUpdated := now env;
     breakdown := None |}.

(** [x || undefined] on an optional number. *)
Definition orUndefined (x : option Q) : option Q :=
  match x with
  | Some q => if q =? 0 then None else Some q
  | None => None
  end.

Definition calculateSpreePulse (env : Env) (venue : VenueRecord) : M PulseData :=
  do metrics <- lift (getVenueMetrics env (rec_id venue));
  let calcResult := PulseCalculator.calculateFromMetrics metrics in
  let pulse :=
    {| value := calcResult;
       confidence := 0.95;
       dataSource := SPREE;
       lastUpdated := now env;
       breakdown :=
         Some {| checkIns := Some (activeCheckIns metrics);
                 googleBusy := None;
                 communityReports := None;
                 waitTime := orUndefined (reportedWaitTime metrics);
                 vibeScore := Some (recentSentiment metrics) |} |} in
  run logCalculation env (rec_id venue) pulse (Some metrics);
  ret pulse.

(** The four local variables of [calculateNonPartnerPulse]. *)
Record Estimate := {
  basePulse : Q;
  est_confidence : Q;
  est_dataSource : VenueDataSource;
  est_googleBusy : Q
}.

Definition initialEstimate : Estimate :=
  {| basePulse := 5.0; est_confidence := 0.5;
     est_dataSource := ESTIMATED; est_googleBusy := 0 |}.

(** Step 1: the Google sample, when the venue has a place id and the
    sample reports a positive level; a throwing service is ignored. *)
Definition applyGoogle (env : Env) (venue : VenueRecord) (e : Estimate) : Estimate :=
  match google_place_id venue with
  | Some placeId =>
      if String.eqb placeId "" then e
      else
        match getBusyness env placeId with
        | Ok (Some googleData) =>
            if currentBusyness googleData >? 0 then
              {| basePulse :=
                   PulseCalculator.convertGoogleToSpree (currentBusyness googleData);
                 est_confidence := 0.6;
                 est_dataSource := GOOGLE;
                 est_googleBusy := currentBusyness googleData |}
            else e
        | Ok None => e
        | Throw _ => e
        end
  | None => e
  end.

(** Step 2: the community consensus. *)
Definition applyCommunity (communityData : CommunityConsensus) (e : Estimate)
    : Estimate :=
  if (dataPoints communityData >=? 3)%Z then
    let i := CommunityDataService.calculateInfluence communityData in
    let influence := CommunityDataService.influence i in
    let adjustment := CommunityDataService.adjustment i in
    if influence >? 0 then
      {| basePulse :=
           basePulse e * (1 - influence) + (basePulse e + adjustment) * influence;
         est_confidence := Math_min 0.8 (est_confidence e + influence * 0.3);
         est_dataSource :=
           if (dataPoints communityData >=? 10)%Z then COMMUNITY
           else est_dataSource e;
         est_googleBusy := est_googleBusy e |}
    else e
  else e.

(** Step 3 and the returned object. *)
Definition finishEstimate
    (env : Env) (communityData : CommunityConsensus) (e : Estimate) : PulseData :=
  let basePulse :=
    PulseCalculator.applyTimeModifiers (basePulse e) (hours env) (day env) in
  {| value := PulseCalculator.roundedPulse basePulse;
     confidence := est_confidence e;
     dataSource := est_dataSource e;
     lastUpdated := now env;
     breakdown :=
       Some {| checkIns := None;
               googleBusy := Some (est_googleBusy e);
               communityReports := Some (dataPoints communityData);
               waitTime := None;
               vibeScore := None |} |}.

Definition calculateNonPartnerPulse (env : Env) (venue : VenueRecord) : M PulseData :=
  let e := applyGoogle env venue initialEstimate in
  do communityData <-
    gets (CommunityDataService.getConsensus env (rec_id venue) 60);
  let e := applyCommunity communityData e in
  ret (finishEstimate env communityData e).

Definition calculatePulse (env : Env) (venueId : Z) : M PulseData :=
  try_catch
    (do venue <- getVenue venueId;
     match venue with
     | None => throw (VenueNotFound venueId)
     | Some venue =>
         if spree_onboarded venue then calculateSpreePulse env venue
         else calculateNonPartnerPulse env venue
     end)
    (fun error => ret (getDefaultPulse env)).

End PulseEngine.

(** ** [PulseBatchUpdateService] ([engine.ts]) *)

Module PulseBatchUpdateService.

(** A row of [select('id, name, spree_onboarded')]. *)
Record VenueSummary := {
  sum_id : Z;
  sum_name : string;
  sum_spree_onboarded : bool
}.

Record UpdateResult := {
  success : bool;
  res_venueId : Z;
  res_name : string;
  res_pulse : Q;
  res_dataSource : VenueDataSource
}.

Record HotVenue := {
  hot_id : Z;
  hot_name : string;
  hot_pulse : Q
}.

Record BatchSummary := {
  total : Z;
  updated : Z;
  failed : Z;
  hotVenues : list HotVenue
}.

Definition summary (v : VenueRecord) : VenueSummary :=
  {| sum_id := rec_id v; sum_name := rec_name v;
     sum_spree_onboarded := spree_onboarded v |}.

(** The active venues, partners first; within each group the rows come
    in the enumeration order of the table. *)
Definition selectActiveVenues (s : Store) : list VenueSummary :=
  let rows := filter (fun v => is_active v = true) (snd <$> map_to_list (venues s)) in
  summary <$> (filter (fun v => spree_onboarded v = true) rows
               ++ filter (fun v => spree_onboarded v = false) rows).

Definition writePulse (pulse : PulseData) (v : VenueRecord) : VenueRecord :=
  {| rec_id := rec_id v;
     rec_name := rec_name v;
     google_place_id := google_place_id v;
     spree_onboarded := spree_onboarded v;
     is_active := is_active v;
     pulse := value pulse;
     pulse_confidence := Some (confidence pulse);
     pulse_data_source := Some (dataSource pulse);
     pulse_updated_at := Some (lastUpdated pulse) |}.

Definition setVenues (f : gmap Z VenueRecord -> gmap Z VenueRecord) (s : Store)
    : Store :=
  {| venues := f (venues s);
     community_vibe_reports := community_vibe_reports s;
     anonymous_pings := anonymous_pings s;
     social_signals := social_signals s;
     user_points := user_points s;
     pulse_calculations_log := pulse_calculations_log s;
     pulse_history := pulse_history s;
     console := console s |}.

Definition insertHistory (row : PulseHistoryRow) (s : Store) : Store :=
  {| venues := venues s;
     community_vibe_reports := community_vibe_reports s;
     anonymous_pings := anonymous_pings s;
     social_signals := social_signals s;
     user_points := user_points s;
     pulse_calculations_log := pulse_calculations_log s;
     pulse_history := pulse_history s ++ [row];
     console := console s |}.

Definition logProgress (done all : Z) (s : Store) : Store :=
  {| venues := venues s;
     community_vibe_reports := community_vibe_reports s;
     anonymous_pings := anonymous_pings s;
     social_signals := social_signals s;
     user_points := user_points s;
     pulse_calculations_log := pulse_calculations_log s;
     pulse_history := pulse_history s;
     console := console s ++ [(done, all)] |}.

(** [update({...}).eq('id', venueId)] on [venues]. *)
Definition updateVenuePulse (env : Env) (venueId : Z) (pulse : PulseData) : M unit :=
  if throws env (UpdateVenuePulse venueId) then throw DatabaseError
  else modify (setVenues (alter (writePulse pulse) venueId)).

Definition insertPulseHistory (env : Env) (venueId : Z) (pulse : PulseData) : M unit :=
  if throws env (InsertPulseHistory venueId) then throw DatabaseError
  else
    modify (insertHistory
              {| hist_venue_id := venueId;
                 pulse_value := value pulse;
                 hist_confidence := confidence pulse;
                 data_sources := [dataSource pulse] |}).

(** The [try] block of [batch.map(async (venue) => ...)]: the evaluation
    of one venue, with its three awaits.  [calculatePulse] is one step:
    it reads the row of its own venue, which no other member of the batch
    writes, and the community tables, which no member writes, and it
    writes at most one row of the log. *)
Definition evaluation (env : Env) (venue : VenueSummary) : Task (result UpdateResult) :=
  tryThen (await (PulseEngine.calculatePulse env (sum_id venue))) (fun pulse =>
  tryThen (await (updateVenuePulse env (sum_id venue) pulse)) (fun _ =>
  tryThen (await (insertPulseHistory env (sum_id venue) pulse)) (fun _ =>
  Done (Ok {| success := true;
              res_venueId := sum_id venue;
              res_name := sum_name venue;
              res_pulse := value pulse;
              res_dataSource := dataSource pulse |})))).

(** The whole callback, with its [catch]: it never rejects. *)
Definition updateOne (env : Env) (venue : VenueSummary) : Task UpdateResult :=
  catching
    (evaluation env venue)
    (fun error =>
       {| success := false;
          res_venueId := sum_id venue;
          res_name := sum_name venue;
          res_pulse := 0;
          res_dataSource := ESTIMATED |}).

(** The evaluation of one venue awaited on its own. *)
Definition evaluate (env : Env) (venue : VenueSummary) : M UpdateResult :=
  runTask (evaluation env venue).

Definition batchSize : nat := 10.

(** [venues.slice(i, j)] *)
Definition slice {A} (l : list A) (i j : nat) : list A := take (j - i) (drop i l).

(** The [for] loop over the batches, with the loop variable [i] and the
    accumulated [results].  The members of a batch are started together
    and awaited by [Promise.all]; their awaits complete in the order
    [completions env i], so the rows they insert land in the order of
    completion, not in the order of the batch.  The loop makes at most
    one turn per venue, which [fuel] bounds. *)
Fixpoint batchLoop (env : Env) (fuel : nat) (venues : list VenueSummary)
    (i : nat) (results : list UpdateResult) : M (list UpdateResult) :=
  match fuel with
  | O => ret results
  | S fuel' =>
      if (i <? length venues)%nat then
        let batch := slice venues i (i + batchSize) in
        do batchResults <- promiseAll (completions env i) (updateOne env <$> batch);
        let results := results ++ batchResults in
        run modify (logProgress (Z.min (Z.of_nat (i + batchSize)) (Zlen venues))
                                (Zlen venues));
        batchLoop env fuel' venues (i + batchSize) results
      else ret results
  end.

(** [sort((a, b) => b.pulse - a.pulse)], a stable sort. *)
Fixpoint insertHot (v : HotVenue) (l : list HotVenue) : list HotVenue :=
  match l with
  | [] => [v]
  | w :: l' =>
      if hot_pulse w >? hot_pulse v then w :: insertHot v l' else v :: w :: l'
  end.

Definition sortHot (l : list HotVenue) : list HotVenue := foldr insertHot [] l.

Definition isHot (r : UpdateResult) : bool := success r && (res_pulse r >=? 7).

Definition toHot (r : UpdateResult) : HotVenue :=
  {| hot_id := res_venueId r; hot_name := res_name r; hot_pulse := res_pulse r |}.

Definition summarize (venues : list VenueSummary) (results : list UpdateResult)
    : BatchSummary :=
  let updated := Zlen (List.filter success results) in
  let failed := Zlen (List.filter (fun r => negb (success r)) results) in
  let hotVenues := sortHot (toHot <$> List.filter isHot results) in
  {| total := Zlen venues; updated := updated; failed := failed;
     hotVenues := hotVenues |}.

Definition updateAllVenues (env : Env) : M BatchSummary :=
  do venues <- gets selectActiveVenues;
  match venues with
  | [] => ret {| total := 0; updated := 0; failed := 0; hotVenues := [] |}
  | _ =>
      do results <- batchLoop env (length venues) venues 0 [];
      ret (summarize venues results)
  end.

Definition updateVenue (env : Env) (venueId : Z) : M PulseData :=
  do pulse <- PulseEngine.calculatePulse env venueId;
  run updateVenuePulse env venueId pulse;
  ret pulse.

End PulseBatchUpdateService.

(** ** The exported API ([index.ts]) *)

Module Pulse.

Definition calculate (env : Env) (venueId : Z) : M PulseData :=
  PulseEngine.calculatePulse env venueId.

Definition updateAll (env : Env) : M PulseBatchUpdateService.BatchSummary :=
  PulseBatchUpdateService.updateAllVenues env.

Definition updateVenue (env : Env) (venueId : Z) : M PulseData :=
  PulseBatchUpdateService.updateVenue env venueId.

Definition submitVibeReport (env : Env) (report : QuickVibeReport) : M unit :=
  CommunityDataService.submitVibeReport env report.

Definition submitPing (env : Env) (ping : AnonymousPing) : M unit :=
  CommunityDataService.submitAnonymousPing env ping.

Definition getCommunityConsensus (env : Env) (venueId : Z) (minutesBack : option Z)
    : M CommunityConsensus :=
  gets (CommunityDataService.getConsensus env venueId (default 60%Z minutesBack)).

End Pulse.


(** ** The telemetry queries of [PulseEngine.getVenueMetrics] ([engine.ts]) *)

Record CheckinRow := {
  checkin_venue_id : Z;
  checkin_created_at : Z;
  checked_out_at : option Z
}.

Record StatusLogRow := {
  status_venue_id : Z;
  line_time_minutes : option Z;
  status_created_at : Z
}.

Record RatingRow := {
  rating_venue_id : Z;
  vibe_check : option string;
  rating_created_at : Z
}.

Record VibePhotoRow := {
  photo_venue_id : Z;
  photo_status : string;
  photo_created_at : Z
}.

Record EventRow := {
  event_venue_id : Z;
  starts_at : Z
}.

(** The five tables that [getVenueMetrics] reads. *)
Record Telemetry := {
  checkins : list CheckinRow;
  venue_status_logs : list StatusLogRow;
  venue_ratings : list RatingRow;
  vibe_photos : list VibePhotoRow;
  events : list EventRow
}.

Module PulseEngineMetrics.

(** [.order('created_at', { ascending: false }).limit(1).single()]: a row
    with the greatest date, the first such in the order of the table. *)
Fixpoint latestLog (rows : list StatusLogRow) : option StatusLogRow :=
  match rows with
  | [] => None
  | r :: rest =>
      match latestLog rest with
      | Some r' =>
          if (status_created_at r <? status_created_at r')%Z then Some r' else Some r
      | None => Some r
      end
  end.

(** The members that every JavaScript object inherits.  Looking one of
    them up in [sentimentMap] yields a function or an object, not a
    number. *)
Definition inheritedMembers : list string :=
  [ "constructor"; "toString"; "toLocaleString"; "valueOf"; "hasOwnProperty";
    "isPrototypeOf"; "propertyIsEnumerable"; "__proto__"; "__defineGetter__";
    "__defineSetter__"; "__lookupGetter__"; "__lookupSetter__" ]%string.

(** [sentimentMap[r.vibe_check || 'mid'] || 0] when it is a number. *)
Definition sentimentOf (vibeCheck : option string) : option Q :=
  let key :=
    match vibeCheck with
    | Some k => if String.eqb k "" then "mid"%string else k
    | None => "mid"%string
    end in
  if String.eqb key "fire" then Some 1
  else if String.eqb key "good" then Some 0.5
  else if String.eqb key "mid" then Some (- 0.5)
  else if String.eqb key "dead" then Some (- 1)
  else if bool_decide (key ∈ inheritedMembers) then None
  else Some 0.

(** The callback of [ratings.reduce((sum, r) => sum + ..., 0)]: once a
    term is not a number the sum is a string, and stays one. *)
Definition addSentiment (sum : option Q) (r : RatingRow) : option Q :=
  match sum, sentimentOf (vibe_check r) with
  | Some sum, Some x => Some (sum + x)
  | _, _ => None
  end.

Definition sumSentiment (ratings : list RatingRow) : option Q :=
  fold_left addSentiment ratings (Some 0).

(** The mean sentiment of the ratings, 0 without ratings; [None] when it
    is NaN, the quotient of a string by the number of ratings. *)
Definition meanSentiment (ratings : list RatingRow) : option Q :=
  match ratings with
  | [] => Some 0
  | _ =>
      match sumSentiment ratings with
      | Some sum => Some (sum / inject_Z (Zlen ratings))
      | None => None
      end
  end.

Definition trendOf (checkInsLast30Min checkInsLastHour previousHour : Q)
    : CheckInTrend :=
  if checkInsLast30Min >? checkInsLastHour * 0.6 then surging
  else if checkInsLastHour >? previousHour * 1.2 then increasing
  else if checkInsLastHour <? previousHour * 0.8 then decreasing
  else stable.

(** The metrics of a venue.  [recentSentiment] is the mean sentiment when
    that is a number; NaN has no counterpart in [Q], and what is proved
    of the field is proved for a mean that is a number. *)
Definition getVenueMetrics (env : Env) (db : Telemetry) (venueId : Z) : VenueMetrics :=
  let thirtyMinAgo := (now env - 30 * 60 * 1000)%Z in
  let oneHourAgo := (now env - 60 * 60 * 1000)%Z in
  let twoHoursAgo := (now env - 2 * 60 * 60 * 1000)%Z in
  let checkIns :=
    filter (fun c => checkin_venue_id c = venueId
                     /\ (twoHoursAgo <= checkin_created_at c)%Z)
           (checkins db) in
  let activeCheckIns :=
    inject_Z (Zlen (filter (fun c => checked_out_at c = None) checkIns)) in
  let checkInsLast30Min :=
    inject_Z (Zlen (filter (fun c => (thirtyMinAgo <= checkin_created_at c)%Z)
                           checkIns)) in
  let checkInsLastHour :=
    inject_Z (Zlen (filter (fun c => (oneHourAgo <= checkin_created_at c)%Z)
                           checkIns)) in
  let previousHour :=
    inject_Z (Zlen (filter (fun c => (checkin_created_at c < oneHourAgo)%Z)
                           checkIns)) in
  let checkInTrend := trendOf checkInsLast30Min checkInsLastHour previousHour in
  let statusLog :=
    latestLog (filter (fun l => status_venue_id l = venueId
                                /\ (oneHourAgo <= status_created_at l)%Z)
                      (venue_status_logs db)) in
  let ratings :=
    filter (fun r => rating_venue_id r = venueId
                     /\ (oneHourAgo <= rating_created_at r)%Z)
           (venue_ratings db) in
  let recentSentiment := default 0 (meanSentiment ratings) in
  let vibePhotosCount :=
    Zlen (filter (fun p => photo_venue_id p = venueId
                           /\ photo_status p = "approved"%string
                           /\ (oneHourAgo <= photo_created_at p)%Z)
                 (vibe_photos db)) in
  let events :=
    filter (fun e => event_venue_id e = venueId
                     /\ (now env <= starts_at e)%Z
                     /\ (starts_at e <= now env + 4 * 60 * 60 * 1000)%Z)
           (events db) in
  {| venueId := venueId;
     activeCheckIns := activeCheckIns;
     checkInsLast30Min := checkInsLast30Min;
     checkInsLastHour := checkInsLastHour;
     checkInTrend := checkInTrend;
     reportedWaitTime :=
       match statusLog with
       | Some l =>
           match line_time_minutes l with
           | Some w => if (w =? 0)%Z then None else Some (inject_Z w)
           | None => None
           end
       | None => None
       end;
     recentRatings := inject_Z (Zlen ratings);
     recentSentiment := recentSentiment;
     vibePhotosCount := inject_Z vibePhotosCount;
     dayOfWeek := day env;
     hourOfDay := hours env;
     isSpecialEvent := (Zlen events >? 0)%Z |}.

End PulseEngineMetrics.

(** ** The SerpAPI answer and the busyness cache *)

Record PopularDay := {
  popular_day : string;
  popular_data : option (list Q)
}.

Record PlaceResults := {
  current_popularity : option Q;
  populartimes : option (list PopularDay)
}.

(** The parsed answer: whether [data.error] is set, and [data.place_results]. *)
Record SerpResponse := {
  has_error : bool;
  place_results : option PlaceResults
}.

(** What a busyness service needs from outside: its API key, the clock
    ([Date.now()], the name of the weekday, the hour) and the answer of
    SerpAPI for a place id, which may throw. *)
Record GoogleContext := {
  apiKey : string;
  clockNow : Z;
  currentDay : string;
  currentHour : nat;
  fetchJson : string -> result SerpResponse
}.

Record CacheRow := {
  busyness_data : GoogleBusynessData;
  fetched_at : Z
}.

(** [x || 0] on an optional number. *)
Definition orZero (x : option Q) : Q :=
  match x with
  | Some q => q
  | None => 0
  end.

(** The usual level of the current hour: 50 unless today's entry has a
    non-zero value for the hour. *)
Definition usualFor (ctx : GoogleContext) (placeInfo : option PlaceResults) : Q :=
  match placeInfo with
  | Some info =>
      match populartimes info with
      | Some days =>
          match List.find (fun d => String.eqb (popular_day d) (currentDay ctx)) days with
          | Some todayData =>
              match popular_data todayData with
              | Some data =>
                  match data !! currentHour ctx with
                  | Some usual => if usual =? 0 then 50 else usual
                  | None => 50
                  end
              | None => 50
              end
          | None => 50
          end
      | None => 50
      end
  | None => 50
  end.

Definition cacheExpiry : Z := 5 * 60 * 1000.

(** [lib/pulse/services/google-service.ts]: the cache, keyed by place id,
    and the requests sent to SerpAPI. *)
Module GoogleBusynessServiceCache.

Record State := {
  google_busyness_cache : gmap string CacheRow;
  requests : list string
}.

Definition fetchFromSerpAPI (ctx : GoogleContext) (placeId : string)
    : option GoogleBusynessData :=
  if String.eqb (apiKey ctx) "" then None
  else
    match fetchJson ctx placeId with
    | Throw _ => None
    | Ok data =>
        if has_error data then None
        else
          match place_results data with
          | None => None
          | Some placeInfo =>
              let currentBusyness := orZero (current_popularity placeInfo) in
              let usualBusyness := usualFor ctx (Some placeInfo) in
              Some
                {| currentBusyness := currentBusyness;
                   usualBusyness := usualBusyness;
                   relativeLevel :=
                     default average
                       (GoogleBusynessService.calculateRelativeLevel
                          currentBusyness usualBusyness);
                   trend :=
                     GoogleBusynessService.calculateTrend currentBusyness usualBusyness;
                   fetchedAt := clockNow ctx;
                   sampleConfidence := if currentBusyness >? 0 then 0.9 else 0.3 |}
          end
    end.

Definition getCachedData (ctx : GoogleContext) (placeId : string) (st : State)
    : option GoogleBusynessData :=
  match google_busyness_cache st !! placeId with
  | None => None
  | Some row =>
      let age := (clockNow ctx - fetched_at row)%Z in
      if (age >? cacheExpiry)%Z then None else Some (busyness_data row)
  end.

(** [upsert] *)
Definition cacheData (ctx : GoogleContext) (placeId : string)
    (data : GoogleBusynessData) (st : State) : State :=
  {| google_busyness_cache :=
       <[placeId := {| busyness_data := data; fetched_at := clockNow ctx |}]>
         (google_busyness_cache st);
     requests := requests st |}.

(** A request is sent when there is a key. *)
Definition noteRequest (ctx : GoogleContext) (placeId : string) (st : State) : State :=
  if String.eqb (apiKey ctx) "" then st
  else {| google_busyness_cache := google_busyness_cache st;
          requests := requests st ++ [placeId] |}.

Definition getBusyness (ctx : GoogleContext) (placeId : string) (st : State)
    : option GoogleBusynessData * State :=
  match getCachedData ctx placeId st with
  | Some cached => (Some cached, st)
  | None =>
      let freshData := fetchFromSerpAPI ctx placeId in
      let st := noteRequest ctx placeId st in
      match freshData with
      | Some data => (Some data, cacheData ctx placeId data st)
      | None => (None, st)
      end
  end.

End GoogleBusynessServiceCache.

(** [lib/ai/google-live-busyness.ts]: the trend, the parsing of the
    answer, the cache keyed by venue id and the log. *)
Module GoogleLiveBusynessFetch.

Record BusynessLogRow := {
  log_venue : Z;
  google_busyness : Q;
  google_usual : Q;
  google_trend : BusynessTrend;
  spree_pulse : Q;
  log_timestamp : Z
}.

Record State := {
  live_cache : gmap Z CacheRow;
  google_busyness_log : list BusynessLogRow;
  live_requests : list string
}.

(** [current] is [placeInfo?.current_popularity], which may be undefined. *)
Definition calculateTrend (current : option Q) (usual : Q) : BusynessTrend :=
  match current with
  | None => trend_stable
  | Some current =>
      if (current =? 0) || (usual =? 0) then trend_stable
      else
        let difference := current - usual in
        if difference >? 10 then trend_increasing
        else if difference <? - 10 then trend_decreasing
        else trend_stable
  end.

(** The object built by [fetchFromSerpAPI] from the parsed answer. *)
Definition parseBusyness (ctx : GoogleContext) (data : SerpResponse)
    : GoogleBusynessData :=
  let placeInfo := place_results data in
  let popularity :=
    match placeInfo with
    | Some info => current_popularity info
    | None => None
    end in
  let currentBusyness := orZero popularity in
  let usualBusyness := usualFor ctx placeInfo in
  let trend := calculateTrend popularity usualBusyness in
  {| currentBusyness := currentBusyness;
     usualBusyness := usualBusyness;
     relativeLevel :=
       default average
         (GoogleLiveBusynessService.getBusynessLevel currentBusyness usualBusyness);
     trend := trend;
     fetchedAt := clockNow ctx;
     sampleConfidence := if currentBusyness >? 0 then 0.9 else 0.3 |}.

Definition fetchFromSerpAPI (ctx : GoogleContext) (placeId : string)
    : result GoogleBusynessData :=
  match fetchJson ctx placeId with
  | Throw e => Throw e
  | Ok data => Ok (parseBusyness ctx data)
  end.

Definition getCachedBusyness (ctx : GoogleContext) (venueId : Z) (st : State)
    : option GoogleBusynessData :=
  match live_cache st !! venueId with
  | None => None
  | Some row =>
      let age := (clockNow ctx - fetched_at row)%Z in
      if (age >? cacheExpiry)%Z then None else Some (busyness_data row)
  end.

(** [venueData?.pulse || 0] goes to the log with the sample. *)
Definition logged (ctx : GoogleContext) (venueId : Z) (venue : VenueRecord)
    (googleData : GoogleBusynessData) : BusynessLogRow :=
  {| log_venue := venueId;
     google_busyness := currentBusyness googleData;
     google_usual := usualBusyness googleData;
     google_trend := trend googleData;
     spree_pulse := pulse venue;
     log_timestamp := clockNow ctx |}.

(** [getLiveBusyness], over the [venues] table of the store.  The place
    id is used when it is a non-empty string. *)
Definition getLiveBusyness (ctx : GoogleContext) (venues : gmap Z VenueRecord)
    (venueId : Z) (st : State) : option GoogleBusynessData * State :=
  match getCachedBusyness ctx venueId st with
  | Some cached => (Some cached, st)
  | None =>
      match venues !! venueId with
      | None => (None, st)
      | Some venue =>
          match google_place_id venue with
          | None => (None, st)
          | Some placeId =>
              if String.eqb placeId "" then (None, st)
              else
                let st :=
                  {| live_cache := live_cache st;
                     google_busyness_log := google_busyness_log st;
                     live_requests := live_requests st ++ [placeId] |} in
                match fetchFromSerpAPI ctx placeId with
                | Throw _ => (None, st)
                | Ok liveData =>
                    (Some liveData,
                     {| live_cache :=
                          <[venueId := {| busyness_data := liveData;
                                          fetched_at := clockNow ctx |}]>
                            (live_cache st);
                        google_busyness_log :=
                          google_busyness_log st ++ [logged ctx venueId venue liveData];
                        live_requests := live_requests st |})
                end
          end
      end
  end.

End GoogleLiveBusynessFetch.

(** [GoogleEnhancedPulse] of [lib/ai/google-live-busyness.ts];
    [spreeFactors] is read through its [activeCheckIns] alone. *)
Module GoogleEnhancedPulse.

Record Enhanced := {
  finalPulse : Q;
  googleInfluence : Q;
  enhancedConfidence : Q
}.

Definition calculateGoogleInfluence (googleData : GoogleBusynessData)
    (activeCheckIns : Q) : Q :=
  let influence := 0.3 in
  let influence :=
    if activeCheckIns <? 10 then influence + 0.2
    else if activeCheckIns >? 50 then influence - 0.1
    else influence in
  let influence := influence * sampleConfidence googleData in
  Math_min 0.5 (Math_max 0.1 influence).

Definition convertGoogleToSpree (googleBusyness : Q) : Q :=
  if googleBusyness >=? 80 then 9 + (googleBusyness - 80) / 20
  else if googleBusyness >=? 60 then 7 + (googleBusyness - 60) / 10
  else if googleBusyness >=? 40 then 5 + (googleBusyness - 40) / 10
  else if googleBusyness >=? 20 then 3 + (googleBusyness - 20) / 10
  else googleBusyness / 10.

Definition blendPulseScores (spreePulse : Q) (googleData : GoogleBusynessData)
    (googleInfluence : Q) : Q :=
  let googlePulse := convertGoogleToSpree (currentBusyness googleData) in
  let blendedPulse :=
    spreePulse * (1 - googleInfluence) + googlePulse * googleInfluence in
  let trendAdjustment :=
    match trend googleData with
    | trend_increasing => 0.3
    | trend_decreasing => - 0.3
    | trend_stable => 0
    end in
  let finalPulse := blendedPulse + trendAdjustment in
  Math_min 10 (Math_max 0 finalPulse).

Definition calculateCombinedConfidence (activeCheckIns : Q)
    (googleData : GoogleBusynessData) : Q :=
  let spreeConfidence := Math_min 0.9 (activeCheckIns / 30) in
  let googleConfidence := sampleConfidence googleData in
  spreeConfidence * 0.6 + googleConfidence * 0.4.

(** The body of [calculatePulseWithGoogle] once the sample is known. *)
Definition enhance (googleData : option GoogleBusynessData)
    (spreePulse activeCheckIns : Q) : Enhanced :=
  match googleData with
  | None =>
      {| finalPulse := spreePulse; googleInfluence := 0; enhancedConfidence := 0.7 |}
  | Some data =>
      if sampleConfidence data <? 0.5 then
        {| finalPulse := spreePulse; googleInfluence := 0; enhancedConfidence := 0.7 |}
      else
        let googleInfluence := calculateGoogleInfluence data activeCheckIns in
        let finalPulse := blendPulseScores spreePulse data googleInfluence in
        {| finalPulse := finalPulse;
           googleInfluence := googleInfluence;
           enhancedConfidence := calculateCombinedConfidence activeCheckIns data |}
  end.

Definition calculatePulseWithGoogle (ctx : GoogleContext) (venues : gmap Z VenueRecord)
    (venueId : Z) (spreePulse activeCheckIns : Q) (st : GoogleLiveBusynessFetch.State)
    : Enhanced * GoogleLiveBusynessFetch.State :=
  let '(googleData, st) :=
    GoogleLiveBusynessFetch.getLiveBusyness ctx venues venueId st in
  (enhance googleData spreePulse activeCheckIns, st).

End GoogleEnhancedPulse.
(** ** Vocabulary of the properties *)

(** The reports that [getConsensus] reads: those of the venue created at
    or after the start of the window. *)
Definition reportsInWindow
    (env : Env) (venueId minutesBack : Z) (s : Store) : list VibeReportRow :=
  filter (fun r => row_venue_id r = venueId
                   /\ (now env - minutesBack * 60 * 1000 <= row_created_at r)%Z)
         (community_vibe_reports s).

(** Votes of a label among some reports, and the votes of all labels. *)
Definition votes (vibe : VibeLevel) (reports : list VibeReportRow) : Z :=
  Zlen (filter (fun r => row_vibe_level r = Some vibe) reports).

Definition totalVotes (reports : list VibeReportRow) : Z :=
  (votes dead reports + votes chill reports
   + votes busy reports + votes packed reports)%Z.

(** Position of a label in the enumeration of the tally. *)
Definition rank (vibe : VibeLevel) : nat :=
  match vibe with
  | dead => 0
  | chill => 1
  | busy => 2
  | packed => 3
  end.

(** *** Sample data *)

Definition emptyStore : Store :=
  {| venues := ∅;
     community_vibe_reports := [];
     anonymous_pings := [];
     social_signals := [];
     user_points := [];
     pulse_calculations_log := [];
     pulse_history := [];
     console := [] |}.

Definition withReports (rows : list VibeReportRow) (s : Store) : Store :=
  {| venues := venues s;
     community_vibe_reports := rows;
     anonymous_pings := anonymous_pings s;
     social_signals := social_signals s;
     user_points := user_points s;
     pulse_calculations_log := pulse_calculations_log s;
     pulse_history := pulse_history s;
     console := console s |}.

Definition withVenues (rows : list VenueRecord) (s : Store) : Store :=
  {| venues := list_to_map ((fun v => (rec_id v, v)) <$> rows);
     community_vibe_reports := community_vibe_reports s;
     anonymous_pings := anonymous_pings s;
     social_signals := social_signals s;
     user_points := user_points s;
     pulse_calculations_log := pulse_calculations_log s;
     pulse_history := pulse_history s;
     console := console s |}.

(** A quiet environment at time [t]: no metrics, no busyness sample, no
    failing database call. *)
Definition quietEnv (t : Z) (hour weekday : Q) : Env :=
  {| now := t;
     hours := hour;
     day := weekday;
     getVenueMetrics := fun _ => Throw DatabaseError;
     getBusyness := fun _ => Ok None;
     throws := fun _ => false;
     rejects := fun _ => false;
     completions := fun _ => [] |}.

Definition reportRow (venueId : Z) (user : string) (vibe : VibeLevel) (t : Z)
    : VibeReportRow :=
  {| row_venue_id := venueId;
     row_user_id := user;
     row_vibe_level := Some vibe;
     row_wait_time_minutes := None;
     row_crowd_estimate := None;
     row_created_at := t |}.

(** Ten reports for venue 1: three busy, three chill, two packed, two dead. *)
Definition splitReports : list VibeReportRow :=
  [ reportRow 1 "u0" busy 1000; reportRow 1 "u1" busy 2000;
    reportRow 1 "u2" busy 3000; reportRow 1 "u3" chill 4000;
    reportRow 1 "u4" chill 5000; reportRow 1 "u5" chill 6000;
    reportRow 1 "u6" packed 7000; reportRow 1 "u7" packed 8000;
    reportRow 1 "u8" dead 9000; reportRow 1 "u9" dead 10000 ].

Definition plainVenue (venueId : Z) (venueName : string) (onboarded : bool)
    : VenueRecord :=
  {| rec_id := venueId;
     rec_name := venueName;
     google_place_id := None;
     spree_onboarded := onboarded;
     is_active := true;
     pulse := 5;
     pulse_confidence := None;
     pulse_data_source := None;
     pulse_updated_at := None |}.

(** Venue 1, not onboarded and without a place id, with the ten reports. *)
Definition communityStore : Store :=
  withReports splitReports (withVenues [plainVenue 1 "Venue 1" false] emptyStore).

(** Venue 7 with four reports, all packed. *)
Definition packedStore : Store :=
  withReports
    [ reportRow 7 "a" packed 1000; reportRow 7 "b" packed 2000;
      reportRow 7 "c" packed 3000; reportRow 7 "d" packed 4000 ]
    (withVenues [plainVenue 7 "Venue 7" false] emptyStore).

(** *** The rate limit as an invariant of the reports table *)

Definition sameReporter (r1 r2 : VibeReportRow) : Prop :=
  row_venue_id r1 = row_venue_id r2 /\ row_user_id r1 = row_user_id r2.

(** At time [t] no row is dated after [t], and of two rows of one
    participant for one venue the one inserted later is dated more than
    an hour after the other. *)
Definition spacedReports (t : Z) (s : Store) : Prop :=
  Forall (fun r => (row_created_at r <= t)%Z) (community_vibe_reports s)
  /\ ForallOrdPairs
       (fun r1 r2 =>
          sameReporter r1 r2 -> (row_created_at r1 + 3600000 < row_created_at r2)%Z)
       (community_vibe_reports s).

(** Stores whose reports table has been filled by submissions alone, at
    times that do not decrease, [t] being the time of the last one. *)
Inductive submittedUpTo : Z -> Store -> Prop :=
| submitted_none (t : Z) (s : Store) :
    community_vibe_reports s = [] -> submittedUpTo t s
| submitted_report (t : Z) (s s' : Store) (env : Env) (report : QuickVibeReport)
    (r : result unit) :
    submittedUpTo t s ->
    (t <= now env)%Z ->
    CommunityDataService.submitVibeReport env report s = (r, s') ->
    submittedUpTo (now env) s'
| submitted_other (t : Z) (s s' : Store) :
    submittedUpTo t s ->
    community_vibe_reports s' = community_vibe_reports s ->
    submittedUpTo t s'.

(** The store after an accepted report. *)
Definition afterReport (env : Env) (report : QuickVibeReport) (s : Store) : Store :=
  CommunityDataService.insertUserPoints
    {| up_user_id := user_id report; up_points := 5;
       up_source_type := "community"; up_timestamp := now env |}
    (CommunityDataService.insertVibeReport
       (CommunityDataService.vibeReportRow report (now env)) s).

Definition sampleReport (venueId : Z) (user : string) (vibe : VibeLevel)
    : QuickVibeReport :=
  {| venue_id := venueId; user_id := user; vibe_level := vibe;
     wait_time_minutes := None; crowd_estimate := None |}.

(** *** The batch job *)

(** The evaluation of a venue in the batch fails when one of its two
    writes throws; nothing else can ([evaluate_throws_iff]). *)
Definition evaluationFails (env : Env) (venue : PulseBatchUpdateService.VenueSummary)
    : bool :=
  throws env (UpdateVenuePulse (PulseBatchUpdateService.sum_id venue))
  || throws env (InsertPulseHistory (PulseBatchUpdateService.sum_id venue)).

(** The outcome recorded for a venue. *)
Definition outcomeOf (env : Env) (venue : PulseBatchUpdateService.VenueSummary)
    (r : PulseBatchUpdateService.UpdateResult) : Prop :=
  PulseBatchUpdateService.res_venueId r = PulseBatchUpdateService.sum_id venue
  /\ PulseBatchUpdateService.res_name r = PulseBatchUpdateService.sum_name venue
  /\ PulseBatchUpdateService.success r = negb (evaluationFails env venue).

(** What the evaluation of a venue leaves of the console and of the
    history. *)
Definition sameLogs (s s' : Store) : Prop :=
  console s' = console s /\ pulse_history s' = pulse_history s.

(** The venue ids of the history rows that the evaluation of a venue adds. *)
Definition historyOf (env : Env) (venue : PulseBatchUpdateService.VenueSummary)
    : list Z :=
  if evaluationFails env venue then [] else [PulseBatchUpdateService.sum_id venue].


(** The values taken by the loop variable [i]. *)
Fixpoint batchStarts (fuel i len : nat) : list nat :=
  match fuel with
  | O => []
  | S fuel' =>
      if (i <? len)%nat
      then i :: batchStarts fuel' (i + PulseBatchUpdateService.batchSize) len
      else []
  end.

Definition progressLine (len i : nat) : Z * Z :=
  (Z.min (Z.of_nat (i + PulseBatchUpdateService.batchSize)) (Z.of_nat len),
   Z.of_nat len).

(** Twenty-three active venues, none onboarded. *)
Definition venues23 : Store :=
  withVenues ((fun i => plainVenue (Z.of_nat i) "venue" false) <$> seq 1 23)
             emptyStore.

(** In every round of awaits the last member of a batch completes first. *)
Definition latestFirst : list nat :=
  rev (seq 0 10) ++ rev (seq 0 10) ++ rev (seq 0 10).

(** The update of venue 14 fails; the table enumerates that venue in the
    second batch of [venues23].  The members of a batch complete in the
    order [latestFirst]. *)
Definition faultyEnv : Env :=
  {| now := 60000;
     hours := 21;
     day := 5;
     getVenueMetrics := fun _ => Throw DatabaseError;
     getBusyness := fun _ => Ok None;
     throws := fun c =>
       match c with
       | UpdateVenuePulse venueId => (venueId =? 14)%Z
       | _ => false
       end;
     rejects := fun _ => false;
     completions := fun _ => latestFirst |}.

(** *** A venue with a Google sample *)

Definition sampleBusyness (current usual : Q) (t : Z) : GoogleBusynessData :=
  {| currentBusyness := current;
     usualBusyness := usual;
     relativeLevel := default average
                        (GoogleBusynessService.calculateRelativeLevel current usual);
     trend := GoogleBusynessService.calculateTrend current usual;
     fetchedAt := t;
     sampleConfidence := if current >? 0 then 0.9 else 0.3 |}.

(** The busyness service answers 45 against a usual 50 for every place. *)
Definition googleEnv (t : Z) (hour weekday : Q) : Env :=
  {| now := t;
     hours := hour;
     day := weekday;
     getVenueMetrics := fun _ => Throw DatabaseError;
     getBusyness := fun _ => Ok (Some (sampleBusyness 45 50 t));
     throws := fun _ => false;
     rejects := fun _ => false;
     completions := fun _ => [] |}.

Definition googleVenue : VenueRecord :=
  {| rec_id := 1;
     rec_name := "Venue 1";
     google_place_id := Some "place-1";
     spree_onboarded := false;
     is_active := true;
     pulse := 5;
     pulse_confidence := None;
     pulse_data_source := None;
     pulse_updated_at := None |}.

Definition googleStore : Store :=
  withReports splitReports (withVenues [googleVenue] emptyStore).

(** *** Further vocabulary *)

(** The same metrics with another number of active check-ins, or another
    special-event flag. *)
Definition withActiveCheckIns (a : Q) (m : VenueMetrics) : VenueMetrics :=
  {| venueId := venueId m;
     activeCheckIns := a;
     checkInsLast30Min := checkInsLast30Min m;
     checkInsLastHour := checkInsLastHour m;
     checkInTrend := checkInTrend m;
     reportedWaitTime := reportedWaitTime m;
     recentRatings := recentRatings m;
     recentSentiment := recentSentiment m;
     vibePhotosCount := vibePhotosCount m;
     dayOfWeek := dayOfWeek m;
     hourOfDay := hourOfDay m;
     isSpecialEvent := isSpecialEvent m |}.

Definition withSpecialEvent (b : bool) (m : VenueMetrics) : VenueMetrics :=
  {| venueId := venueId m;
     activeCheckIns := activeCheckIns m;
     checkInsLast30Min := checkInsLast30Min m;
     checkInsLastHour := checkInsLastHour m;
     checkInTrend := checkInTrend m;
     reportedWaitTime := reportedWaitTime m;
     recentRatings := recentRatings m;
     recentSentiment := recentSentiment m;
     vibePhotosCount := vibePhotosCount m;
     dayOfWeek := dayOfWeek m;
     hourOfDay := hourOfDay m;
     isSpecialEvent := b |}.

Definition sampleMetrics : VenueMetrics :=
  {| venueId := 1; activeCheckIns := 12; checkInsLast30Min := 9;
     checkInsLastHour := 12; checkInTrend := surging;
     reportedWaitTime := Some 35; recentRatings := 4; recentSentiment := 0.8;
     vibePhotosCount := 6; dayOfWeek := 2; hourOfDay := 14;
     isSpecialEvent := false |}.

(** The wait times that enter the average: those given and not zero. *)
Definition waitsOf (reports : list VibeReportRow) : list Z :=
  filter (fun w => w <> 0%Z) (omap row_wait_time_minutes reports).

Definition sumZ (l : list Z) : Z := foldr Z.add 0%Z l.

Definition pingsInWindow
    (env : Env) (venueId minutesBack : Z) (s : Store) : list PingRow :=
  filter (fun r => pr_venue_id r = venueId
                   /\ (now env - minutesBack * 60 * 1000 <= pr_created_at r)%Z)
         (anonymous_pings s).

Definition signalsInWindow
    (env : Env) (venueId minutesBack : Z) (s : Store) : list SocialSignalRow :=
  filter (fun r => sig_venue_id r = venueId
                   /\ (now env - minutesBack * 60 * 1000 <= sig_created_at r)%Z)
         (social_signals s).

(** The rate limit of the pings as an invariant of their table. *)
Definition sameDevice (r1 r2 : PingRow) : Prop :=
  pr_venue_id r1 = pr_venue_id r2 /\ pr_device_id r1 = pr_device_id r2.

Definition spacedPings (t : Z) (s : Store) : Prop :=
  Forall (fun r => (pr_created_at r <= t)%Z) (anonymous_pings s)
  /\ ForallOrdPairs
       (fun r1 r2 =>
          sameDevice r1 r2 -> (pr_created_at r1 + 3600000 < pr_created_at r2)%Z)
       (anonymous_pings s).

(** The store after an accepted ping. *)
Definition afterPing (env : Env) (ping : AnonymousPing) (s : Store) : Store :=
  CommunityDataService.insertPing
    {| pr_venue_id := ping_venue_id ping;
       pr_device_id := device_id ping;
       pr_created_at := now env |} s.


(** The Google level that the engine uses for a venue: the current level
    of the sample when the venue has a place id, the service answers and
    the level is positive. *)
Definition googleLevel (env : Env) (venue : VenueRecord) : option Q :=
  match google_place_id venue with
  | Some placeId =>
      if String.eqb placeId "" then None
      else
        match getBusyness env placeId with
        | Ok (Some googleData) =>
            if currentBusyness googleData >? 0
            then Some (currentBusyness googleData)
            else None
        | _ => None
        end
  | None => None
  end.

(** The score of an onboarded venue computed from its metrics. *)
Definition spreePulseOf (env : Env) (metrics : VenueMetrics) : PulseData :=
  {| value := PulseCalculator.calculateFromMetrics metrics;
     confidence := 0.95;
     dataSource := SPREE;
     lastUpdated := now env;
     breakdown :=
       Some {| checkIns := Some (activeCheckIns metrics);
               googleBusy := None;
               communityReports := None;
               waitTime := PulseEngine.orUndefined (reportedWaitTime metrics);
               vibeScore := Some (recentSentiment metrics) |} |}.

(** An onboarded venue whose metrics are the sample metrics. *)
Definition partnerStore : Store :=
  withVenues [plainVenue 3 "Partner" true] emptyStore.

Definition partnerEnv (logFails : bool) : Env :=
  {| now := 60000;
     hours := 14;
     day := 2;
     getVenueMetrics := fun _ => Ok sampleMetrics;
     getBusyness := fun _ => Ok None;
     throws := fun c =>
       match c with
       | InsertCalculationLog _ => logFails
       | _ => false
       end;
     rejects := fun _ => false;
     completions := fun _ => [] |}.

(** Two stores that agree on every table but the calculation log, and on
    the console. *)
Definition sameButLog (s s' : Store) : Prop :=
  venues s' = venues s
  /\ community_vibe_reports s' = community_vibe_reports s
  /\ anonymous_pings s' = anonymous_pings s
  /\ social_signals s' = social_signals s
  /\ user_points s' = user_points s
  /\ pulse_history s' = pulse_history s
  /\ console s' = console s.

(** What the batch job must leave alone in a venue. *)
Definition staticOf (v : VenueRecord) : Z * string * option string * bool * bool :=
  (rec_id v, rec_name v, google_place_id v, spree_onboarded v, is_active v).

(** [s'] has the venues of [s], with the same static columns, and the same
    community tables. *)
Definition keepsVenues (s s' : Store) : Prop :=
  (forall venueId, staticOf <$> venues s' !! venueId = staticOf <$> venues s !! venueId)
  /\ community_vibe_reports s' = community_vibe_reports s
  /\ anonymous_pings s' = anonymous_pings s
  /\ social_signals s' = social_signals s
  /\ user_points s' = user_points s.

(** *** Sample answers of SerpAPI *)

Definition emptyCache : GoogleBusynessServiceCache.State :=
  {| GoogleBusynessServiceCache.google_busyness_cache := ∅;
     GoogleBusynessServiceCache.requests := [] |}.

Definition emptyLive : GoogleLiveBusynessFetch.State :=
  {| GoogleLiveBusynessFetch.live_cache := ∅;
     GoogleLiveBusynessFetch.google_busyness_log := [];
     GoogleLiveBusynessFetch.live_requests := [] |}.

(** A Friday whose hours all have the usual level 40, and the level
    [popularity] now. *)
Definition fridayAnswer (popularity : option Q) : SerpResponse :=
  {| has_error := false;
     place_results :=
       Some {| current_popularity := popularity;
               populartimes :=
                 Some [ {| popular_day := "Friday";
                           popular_data := Some (replicate 24 40) |} ] |} |}.

(** An answer that carries an error and no place. *)
Definition errorAnswer : SerpResponse :=
  {| has_error := true; place_results := None |}.

Definition fridayNight (t : Z) (answer : SerpResponse) : GoogleContext :=
  {| apiKey := "key";
     clockNow := t;
     currentDay := "Friday";
     currentHour := 22;
     fetchJson := fun _ => Ok answer |}.

(** What the live service makes of an answer without place results. *)
Definition blankSample (ctx : GoogleContext) : GoogleBusynessData :=
  {| currentBusyness := 0;
     usualBusyness := 50;
     relativeLevel := low;
     trend := trend_stable;
     fetchedAt := clockNow ctx;
     sampleConfidence := 0.3 |}.

(** The answer of [calculatePulseWithGoogle] without a reliable sample. *)
Definition pureSpree (spreePulse : Q) : GoogleEnhancedPulse.Enhanced :=
  {| GoogleEnhancedPulse.finalPulse := spreePulse;
     GoogleEnhancedPulse.googleInfluence := 0;
     GoogleEnhancedPulse.enhancedConfidence := 0.7 |}.

(** The check-ins of a venue in the last two hours, and the status logs
    of a venue in the last hour. *)
Definition recentCheckIns (env : Env) (db : Telemetry) (venueId : Z) : list CheckinRow :=
  filter (fun c => checkin_venue_id c = venueId
                   /\ (now env - 2 * 60 * 60 * 1000 <= checkin_created_at c)%Z)
         (checkins db).

(** The ratings of a venue in the last hour. *)
Definition recentRatingsOf (env : Env) (db : Telemetry) (venueId : Z) : list RatingRow :=
  filter (fun r => rating_venue_id r = venueId
                   /\ (now env - 60 * 60 * 1000 <= rating_created_at r)%Z)
         (venue_ratings db).

Definition recentLogs (env : Env) (db : Telemetry) (venueId : Z) : list StatusLogRow :=
  filter (fun l => status_venue_id l = venueId
                   /\ (now env - 60 * 60 * 1000 <= status_created_at l)%Z)
         (venue_status_logs db).

Definition sampleTelemetry : Telemetry :=
  {| checkins := [];
     venue_status_logs :=
       [ {| status_venue_id := 3; line_time_minutes := Some 20%Z;
            status_created_at := 3000000 |};
         {| status_venue_id := 3; line_time_minutes := Some 45%Z;
            status_created_at := 3500000 |};
         {| status_venue_id := 4; line_time_minutes := Some 5%Z;
            status_created_at := 3550000 |} ];
     venue_ratings :=
       [ {| rating_venue_id := 3; vibe_check := Some "fire"%string;
            rating_created_at := 3100000 |};
         {| rating_venue_id := 3; vibe_check := Some "good"%string;
            rating_created_at := 3200000 |};
         {| rating_venue_id := 3; vibe_check := Some "dead"%string;
            rating_created_at := 3300000 |};
         {| rating_venue_id := 4; vibe_check := Some "constructor"%string;
            rating_created_at := 3400000 |} ];
     vibe_photos := [];
     events := [] |}.

(** *** What a batch run records

    The score that [calculatePulse] returns for a venue on the store [s];
    nothing that a batch run writes changes it
    ([calculatePulse_unmoved]). *)
Definition scoreOf (env : Env) (s : Store) (venueId : Z) : PulseData :=
  match fst (PulseEngine.calculatePulse env venueId s) with
  | Ok pulse => pulse
  | Throw _ => PulseEngine.getDefaultPulse env
  end.

(** The result recorded for a venue by a batch run that starts on [s]. *)
Definition expectedResult (env : Env) (s : Store)
    (venue : PulseBatchUpdateService.VenueSummary)
    : PulseBatchUpdateService.UpdateResult :=
  if evaluationFails env venue then
    {| PulseBatchUpdateService.success := false;
       PulseBatchUpdateService.res_venueId := PulseBatchUpdateService.sum_id venue;
       PulseBatchUpdateService.res_name := PulseBatchUpdateService.sum_name venue;
       PulseBatchUpdateService.res_pulse := 0;
       PulseBatchUpdateService.res_dataSource := ESTIMATED |}
  else
    let pulse := scoreOf env s (PulseBatchUpdateService.sum_id venue) in
    {| PulseBatchUpdateService.success := true;
       PulseBatchUpdateService.res_venueId := PulseBatchUpdateService.sum_id venue;
       PulseBatchUpdateService.res_name := PulseBatchUpdateService.sum_name venue;
       PulseBatchUpdateService.res_pulse := value pulse;
       PulseBatchUpdateService.res_dataSource := dataSource pulse |}.

(** What holds of a member of a batch at any of its awaits, [owed] being
    the venue ids of the history rows it has still to insert: on a store
    that differs from [s0] by what a batch writes, its next step keeps
    that, leaves the console alone and adds to the history what comes off
    [owed]; at the end the member returns the expected result and owes
    nothing. *)
Fixpoint memberOk (env : Env) (s0 : Store)
    (venue : PulseBatchUpdateService.VenueSummary)
    (t : Task PulseBatchUpdateService.UpdateResult) (owed : list Z) : Prop :=
  match t with
  | Done r => r = expectedResult env s0 venue /\ owed = []
  | Await step resume =>
      forall s,
        keepsVenues s0 s ->
        keepsVenues s0 (snd (step s))
        /\ console (snd (step s)) = console s
        /\ exists added owed',
             hist_venue_id <$> pulse_history (snd (step s))
             = (hist_venue_id <$> pulse_history s) ++ added
             /\ owed = added ++ owed'
             /\ memberOk env s0 venue (resume (fst (step s))) owed'
  end.



(** The progress line of the turn [k] of the loop over [n] venues. *)
Definition progressOfTurn (n k : nat) : Z * Z :=
  (Z.min (10 * (Z.of_nat k + 1)) (Z.of_nat n), Z.of_nat n).

(** *** Samples with waits and with ratings *)

Definition waitRow (venueId : Z) (user : string) (wait : option Z) (t : Z)
    : VibeReportRow :=
  {| row_venue_id := venueId;
     row_user_id := user;
     row_vibe_level := Some busy;
     row_wait_time_minutes := wait;
     row_crowd_estimate := None;
     row_created_at := t |}.

(** Venue 7 with waits of 20 and 40 minutes, a wait of 0 and a report
    without a wait. *)
Definition waitingStore : Store :=
  withReports
    [ waitRow 7 "a" (Some 20%Z) 1000; waitRow 7 "b" (Some 0%Z) 2000;
      waitRow 7 "c" None 3000; waitRow 7 "d" (Some 40%Z) 4000 ]
    (withVenues [plainVenue 7 "Venue 7" false] emptyStore).

(** * Properties *)

(** ** Numeric tests *)

Lemma Qgeb_spec (a b : Q) : reflect (b <= a) (a >=? b).
Proof.
  unfold Qgeb. destruct (Qle_bool b a) eqn:E; constructor.
  - now apply Qle_bool_iff.
  - intros H. apply Qle_bool_iff in H. congruence.
Qed.

Lemma Qleb_spec (a b : Q) : reflect (a <= b) (a <=? b).
Proof. apply Qgeb_spec. Qed.

Lemma Qgtb_spec (a b : Q) : reflect (b < a) (a >? b).
Proof.
  unfold Qgtb. destruct (Qle_bool a b) eqn:E; constructor.
  - apply Qle_bool_iff in E. lra.
  - destruct (Qlt_le_dec b a) as [H|H]; [exact H|].
    apply Qle_bool_iff in H. congruence.
Qed.

Lemma Qltb_spec (a b : Q) : reflect (a < b) (a <? b).
Proof. apply Qgtb_spec. Qed.

Lemma Qeqb_spec (a b : Q) : reflect (a == b) (a =? b).
Proof.
  destruct (Qeq_bool a b) eqn:E; constructor.
  - now apply Qeq_bool_iff.
  - now apply Qeq_bool_neq.
Qed.

(** Case analysis on every numeric test in sight, then linear arithmetic. *)
Ltac qtest :=
  match goal with
  | |- context [?a >=? ?b] => destruct (Qgeb_spec a b)
  | |- context [?a >? ?b] => destruct (Qgtb_spec a b)
  | |- context [?a <? ?b] => destruct (Qltb_spec a b)
  | |- context [?a <=? ?b] => destruct (Qleb_spec a b)
  | |- context [?a =? ?b] => destruct (Qeqb_spec a b)
  | _ : context [?a >=? ?b] |- _ => destruct (Qgeb_spec a b)
  | _ : context [?a >? ?b] |- _ => destruct (Qgtb_spec a b)
  | _ : context [?a <? ?b] |- _ => destruct (Qltb_spec a b)
  | _ : context [?a <=? ?b] |- _ => destruct (Qleb_spec a b)
  | _ : context [?a =? ?b] |- _ => destruct (Qeqb_spec a b)
  end.

(** Linear arithmetic after turning a division by a literal into a product. *)
Ltac qlra :=
  unfold Qdiv in *;
  repeat match goal with
  | |- context [Qinv (Zpos ?p # ?d)] =>
      change (Qinv (Zpos p # d)) with (Zpos d # p)
  | H : context [Qinv (Zpos ?p # ?d)] |- _ =>
      change (Qinv (Zpos p # d)) with (Zpos d # p) in H
  end;
  lra.

Ltac qcases := repeat (qtest; cbv beta iota in *; try qlra).

Lemma Math_min_spec (a b : Q) :
  (a <= b /\ Math_min a b = a) \/ (b < a /\ Math_min a b = b).
Proof. unfold Math_min. qtest; [left | right]; split; auto; lra. Qed.

Lemma Math_max_spec (a b : Q) :
  (a <= b /\ Math_max a b = b) \/ (b < a /\ Math_max a b = a).
Proof. unfold Math_max. qtest; [left | right]; split; auto; lra. Qed.

Lemma Math_round_bounds (x : Q) (lo hi : Z) :
  inject_Z lo <= x -> x <= inject_Z hi -> (lo <= Math_round x <= hi)%Z.
Proof.
  intros Hlo Hhi. unfold Math_round. split.
  - rewrite <- (Qfloor_Z lo). apply Qfloor_resp_le. lra.
  - pose proof (Qfloor_le (x + (1 # 2))) as Hf.
    destruct (Z_lt_le_dec hi (Qfloor (x + (1 # 2)))) as [Hgt|]; [|lia].
    assert (inject_Z (hi + 1) <= inject_Z (Qfloor (x + (1 # 2)))) as Hz
      by (rewrite <- Zle_Qle; lia).
    rewrite inject_Z_plus in Hz. change (inject_Z 1) with 1 in Hz. lra.
Qed.

(** ** The calculator on the documented examples *)

Example calculateActivityScore_12 :
  PulseCalculator.calculateActivityScore 12 = 5.5.
Proof. reflexivity. Qed.

(** Twelve active check-ins, surging, sentiment 0.8, six photos, a 35 minute
    wait, 23h on a Friday: 8.8 before the modifier, 10 after the clamp. *)
Example calculateFromMetrics_friday_night :
  PulseCalculator.calculateFromMetrics
    {| venueId := 1; activeCheckIns := 12; checkInsLast30Min := 9;
       checkInsLastHour := 12; checkInTrend := surging;
       reportedWaitTime := Some 35; recentRatings := 4; recentSentiment := 0.8;
       vibePhotosCount := 6; dayOfWeek := 5; hourOfDay := 23;
       isSpecialEvent := false |} == 10.
Proof. reflexivity. Qed.

Example convertGoogleToSpree_samples :
  PulseCalculator.convertGoogleToSpree 5 == 3.5
  /\ PulseCalculator.convertGoogleToSpree 45 == 6.125
  /\ PulseCalculator.convertGoogleToSpree 100 == 9.5.
Proof. repeat split; reflexivity. Qed.

(** ** Monotonicity of the activity score and of the scale conversion *)

Lemma calculateActivityScore_mono (a b : Q) :
  a <= b ->
  PulseCalculator.calculateActivityScore a <= PulseCalculator.calculateActivityScore b.
Proof.
  intros Hab. unfold PulseCalculator.calculateActivityScore. qcases.
Qed.

Lemma convertGoogleToSpree_mono (a b : Q) :
  a <= b ->
  PulseCalculator.convertGoogleToSpree a <= PulseCalculator.convertGoogleToSpree b.
Proof.
  intros Hab. unfold PulseCalculator.convertGoogleToSpree. qcases.
Qed.

Lemma convertGoogleToSpree_floor (level : Q) :
  level <= 0 -> PulseCalculator.convertGoogleToSpree level = 3.0.
Proof.
  intros H. unfold PulseCalculator.convertGoogleToSpree. qcases. reflexivity.
Qed.

(** C7.  The activity score is monotone non-decreasing in the number of
    active check-ins, the conversion of the 0-100 level is monotone
    non-decreasing in the level, and level 0 converts to exactly 3.0. *)
Theorem activity_and_conversion_monotone (a b : Q) :
  a <= b ->
  PulseCalculator.calculateActivityScore a <= PulseCalculator.calculateActivityScore b
  /\ PulseCalculator.convertGoogleToSpree a <= PulseCalculator.convertGoogleToSpree b
  /\ PulseCalculator.convertGoogleToSpree 0 = 3.0.
Proof.
  intros Hab. split; [|split].
  - now apply calculateActivityScore_mono.
  - now apply convertGoogleToSpree_mono.
  - apply convertGoogleToSpree_floor. lra.
Qed.

Lemma activity_and_conversion_monotone_witness :
  4 <= 12
  /\ PulseCalculator.calculateActivityScore 4 <= PulseCalculator.calculateActivityScore 12
  /\ PulseCalculator.convertGoogleToSpree 4 <= PulseCalculator.convertGoogleToSpree 12
  /\ PulseCalculator.convertGoogleToSpree 0 = 3.0.
Proof.
  assert (H : 4 <= 12) by lra.
  split; [exact H | exact (activity_and_conversion_monotone 4 12 H)].
Defined.

(** ** Clamp and rounding of the score *)

Lemma clamp_bounds (lo hi x : Q) :
  lo <= hi -> lo <= Math_min hi (Math_max lo x) <= hi.
Proof.
  intros H. unfold Math_min, Math_max. qcases.
Qed.

Lemma clamp_max_min (lo hi x : Q) :
  lo <= hi -> lo <= Math_max lo (Math_min hi x) <= hi.
Proof.
  intros H. unfold Math_min, Math_max. qcases.
Qed.

Lemma roundedPulse_tenths (pulse : Q) :
  exists k : Z,
    (0 <= k <= 100)%Z /\ PulseCalculator.roundedPulse pulse = inject_Z k / 10.
Proof.
  unfold PulseCalculator.roundedPulse.
  set (finalPulse := Math_min 10 (Math_max 0 pulse)).
  exists (Math_round (finalPulse * 10)). split; [|reflexivity].
  assert (0 <= finalPulse <= 10) as [H0 H10] by (apply clamp_bounds; lra).
  apply Math_round_bounds.
  - change (inject_Z 0) with 0. nra.
  - change (inject_Z 100) with 100. nra.
Qed.

Lemma tenths_bounds (k : Z) :
  (0 <= k <= 100)%Z -> 0 <= inject_Z k / 10 <= 10.
Proof.
  intros [H0 H100].
  rewrite Zle_Qle in H0, H100.
  change (inject_Z 0) with 0 in H0. change (inject_Z 100) with 100 in H100.
  qlra.
Qed.

Lemma roundedPulse_bounds (pulse : Q) :
  0 <= PulseCalculator.roundedPulse pulse <= 10.
Proof.
  destruct (roundedPulse_tenths pulse) as (k & Hk & ->). now apply tenths_bounds.
Qed.

(** C4.  Whatever the metrics, the score returned by [calculateFromMetrics]
    lies between 0 and 10 and is an integer number of tenths. *)
Theorem calculateFromMetrics_bounded_tenths (metrics : VenueMetrics) :
  0 <= PulseCalculator.calculateFromMetrics metrics <= 10
  /\ exists k : Z,
       (0 <= k <= 100)%Z
       /\ PulseCalculator.calculateFromMetrics metrics = inject_Z k / 10.
Proof.
  unfold PulseCalculator.calculateFromMetrics. split.
  - apply roundedPulse_bounds.
  - apply roundedPulse_tenths.
Qed.

(** ** Confidence and the age of the data *)

Example calculateConfidence_fresh :
  PulseCalculator.calculateConfidence 25 5 PulseCalculator.src_spree == 1.
Proof. reflexivity. Qed.

Example calculateConfidence_two_hours_old :
  PulseCalculator.calculateConfidence 5 121 PulseCalculator.src_community == 0.6.
Proof. reflexivity. Qed.

(** The tests on the age are chained with [else]: past 60 minutes the
    second test succeeds and the third is never evaluated. *)
Lemma freshnessAdjusted_over_60 (baseConfidence dataAge : Q) :
  60 < dataAge ->
  PulseCalculator.freshnessAdjusted baseConfidence dataAge = baseConfidence - 0.1.
Proof.
  intros H. unfold PulseCalculator.freshnessAdjusted. qcases. reflexivity.
Qed.

Lemma quantityAdjusted_range (dataPoints : Q) (dataSource : PulseCalculator.ConfidenceSource) :
  0.4 <= PulseCalculator.quantityAdjusted
           (PulseCalculator.sourceConfidence dataSource) dataPoints <= 1.
Proof.
  unfold PulseCalculator.quantityAdjusted.
  destruct dataSource; cbn [PulseCalculator.sourceConfidence]; qcases.
Qed.

(** Against C3 as stated: at 121 minutes the deduction is not 0.30. *)
Lemma confidence_age_penalties_not_cumulative :
  ~ (forall (dataPoints dataAge : Q) (dataSource : PulseCalculator.ConfidenceSource),
        120 < dataAge ->
        PulseCalculator.calculateConfidence dataPoints dataAge dataSource
        == Math_min 1
             (Math_max 0.1
                (PulseCalculator.quantityAdjusted
                   (PulseCalculator.sourceConfidence dataSource) dataPoints
                 - 0.1 - 0.2))).
Proof.
  intros H.
  specialize (H 5 121 PulseCalculator.src_community).
  assert (Hage : 120 < 121) by reflexivity.
  specialize (H Hage). vm_compute in H. discriminate H.
Qed.

(** C3, amended.  The age rules exclude one another: past 120 minutes one
    single age penalty is deducted before the clamp to [0.1, 1], never
    the sum 0.30 of the two penalties. *)
Theorem confidence_single_age_penalty
    (dataPoints dataAge : Q) (dataSource : PulseCalculator.ConfidenceSource) :
  120 < dataAge ->
  let adjusted :=
    PulseCalculator.quantityAdjusted
      (PulseCalculator.sourceConfidence dataSource) dataPoints in
  let result := PulseCalculator.calculateConfidence dataPoints dataAge dataSource in
  (result == Math_min 1 (Math_max 0.1 (adjusted - 0.1))
   \/ result == Math_min 1 (Math_max 0.1 (adjusted - 0.2)))
  /\ ~ result == Math_min 1 (Math_max 0.1 (adjusted - 0.1 - 0.2)).
Proof.
  intros Hage. cbv zeta.
  pose proof (quantityAdjusted_range dataPoints dataSource) as Hr.
  unfold PulseCalculator.calculateConfidence. cbv zeta.
  rewrite freshnessAdjusted_over_60 by lra.
  revert Hr.
  generalize (PulseCalculator.quantityAdjusted
                (PulseCalculator.sourceConfidence dataSource) dataPoints).
  intros adjusted Hr. split.
  - left. reflexivity.
  - unfold Math_min, Math_max.
    repeat (qtest; cbv beta iota in * ); intros Heq; qlra.
Qed.

Lemma confidence_single_age_penalty_witness :
  120 < 121
  /\ ~ PulseCalculator.calculateConfidence 5 121 PulseCalculator.src_community
       == Math_min 1
            (Math_max 0.1
               (PulseCalculator.quantityAdjusted
                  (PulseCalculator.sourceConfidence PulseCalculator.src_community) 5
                - 0.1 - 0.2)).
Proof.
  assert (Hage : 120 < 121) by reflexivity.
  split; [exact Hage|].
  exact (proj2 (confidence_single_age_penalty 5 121 PulseCalculator.src_community Hage)).
Defined.

(** ** Relative busyness *)

Lemma checkedDiv_nonzero (a b : Q) : ~ b == 0 -> checkedDiv a b = Some (a / b).
Proof. intros H. unfold checkedDiv. qtest; [contradiction | reflexivity]. Qed.

(** Neither service ever evaluates a division by zero. *)
Lemma relative_level_defined (current usual : Q) :
  is_Some (GoogleBusynessService.calculateRelativeLevel current usual)
  /\ is_Some (GoogleLiveBusynessService.getBusynessLevel current usual).
Proof.
  unfold GoogleBusynessService.calculateRelativeLevel,
    GoogleBusynessService.relativeRatio,
    GoogleLiveBusynessService.getBusynessLevel.
  split.
  - destruct (Qgtb_spec usual 0) as [H|H]; [|eexists; reflexivity].
    rewrite checkedDiv_nonzero by lra. eexists; reflexivity.
  - destruct (Qeqb_spec usual 0) as [H|H]; [eexists; reflexivity|].
    rewrite checkedDiv_nonzero by assumption. eexists; reflexivity.
Qed.

(** C10.  When the usual level of the hour is 0, whatever the current
    level, the first service takes the ratio to be 1, both services
    answer [average], and no division is evaluated. *)
Theorem relative_level_zero_usual (current usual : Q) :
  usual == 0 ->
  GoogleBusynessService.relativeRatio current usual = Some 1
  /\ GoogleBusynessService.calculateRelativeLevel current usual = Some average
  /\ GoogleLiveBusynessService.getBusynessLevel current usual = Some average.
Proof.
  intros H.
  assert (Hratio : GoogleBusynessService.relativeRatio current usual = Some 1).
  { unfold GoogleBusynessService.relativeRatio.
    destruct (Qgtb_spec usual 0); [lra | reflexivity]. }
  split; [exact Hratio | split].
  - unfold GoogleBusynessService.calculateRelativeLevel. rewrite Hratio. reflexivity.
  - unfold GoogleLiveBusynessService.getBusynessLevel.
    destruct (Qeqb_spec usual 0); [reflexivity | contradiction].
Qed.

Lemma relative_level_zero_usual_witness :
  0 == 0
  /\ GoogleBusynessService.relativeRatio 37 0 = Some 1
  /\ GoogleBusynessService.calculateRelativeLevel 37 0 = Some average
  /\ GoogleLiveBusynessService.getBusynessLevel 37 0 = Some average.
Proof.
  assert (H : 0 == 0) by reflexivity.
  split; [exact H | exact (relative_level_zero_usual 37 0 H)].
Defined.

(** ** The consensus of the vibe reports *)

Lemma votes_cons (vibe : VibeLevel) (r : VibeReportRow) (reports : list VibeReportRow) :
  votes vibe (r :: reports)
  = ((if decide (row_vibe_level r = Some vibe) then 1 else 0) + votes vibe reports)%Z.
Proof.
  unfold votes, Zlen. rewrite filter_cons.
  destruct (decide (row_vibe_level r = Some vibe)); cbn [length]; lia.
Qed.

Lemma votes_nonneg (vibe : VibeLevel) (reports : list VibeReportRow) :
  (0 <= votes vibe reports)%Z.
Proof. unfold votes, Zlen. lia. Qed.

Lemma tally_scores_from (reports : list VibeReportRow) :
  forall (acc : CommunityDataService.Tally) (d c b p : Z),
    CommunityDataService.tally_scores acc
    = [(dead, d); (chill, c); (busy, b); (packed, p)] ->
    CommunityDataService.tally_scores
      (fold_left CommunityDataService.tallyReport reports acc)
    = [(dead, (d + votes dead reports)%Z); (chill, (c + votes chill reports)%Z);
       (busy, (b + votes busy reports)%Z); (packed, (p + votes packed reports)%Z)].
Proof.
  induction reports as [|r reports IH]; intros acc d c b p Hacc.
  - cbn [fold_left]. rewrite Hacc. unfold votes, Zlen. cbn.
    now rewrite !Z.add_0_r.
  - cbn [fold_left]. rewrite !votes_cons.
    assert (Hstep : exists d' c' b' p',
               CommunityDataService.tally_scores
                 (CommunityDataService.tallyReport acc r)
               = [(dead, d'); (chill, c'); (busy, b'); (packed, p')]
               /\ d' = (d + if decide (row_vibe_level r = Some dead) then 1 else 0)%Z
               /\ c' = (c + if decide (row_vibe_level r = Some chill) then 1 else 0)%Z
               /\ b' = (b + if decide (row_vibe_level r = Some busy) then 1 else 0)%Z
               /\ p' = (p + if decide (row_vibe_level r = Some packed) then 1 else 0)%Z).
    { unfold CommunityDataService.tallyReport. rewrite Hacc.
      destruct (row_vibe_level r) as [[]|];
        destruct (row_wait_time_minutes r) as [w|];
        try destruct (w =? 0)%Z;
        cbn; do 4 eexists; (split; [reflexivity|]);
        repeat split; repeat case_decide; try congruence; lia. }
    destruct Hstep as (d' & c' & b' & p' & Hscores & -> & -> & -> & ->).
    rewrite (IH _ _ _ _ _ Hscores). now rewrite <- !Z.add_assoc.
Qed.

Lemma tally_scores_votes (reports : list VibeReportRow) :
  CommunityDataService.tally_scores (CommunityDataService.tally reports)
  = [(dead, votes dead reports); (chill, votes chill reports);
     (busy, votes busy reports); (packed, votes packed reports)].
Proof.
  unfold CommunityDataService.tally.
  now rewrite (tally_scores_from reports _ 0 0 0 0)%Z.
Qed.

(** The test [count >= totalVibeReports * 0.3] on whole numbers. *)
Lemma threshold_test (count totalVibeReports : Z) :
  (inject_Z count >=? inject_Z totalVibeReports * 0.3)
  = (3 * totalVibeReports <=? 10 * count)%Z.
Proof.
  destruct (Qgeb_spec (inject_Z count) (inject_Z totalVibeReports * 0.3)) as [H|H];
    destruct (Z.leb_spec (3 * totalVibeReports) (10 * count)) as [H'|H'];
    try reflexivity; exfalso.
  - unfold Qle, inject_Z in H. cbn in H. lia.
  - apply H. unfold Qle, inject_Z. cbn. lia.
Qed.

Ltac ztest :=
  match goal with
  | |- context [(?a >? ?b)%Z] =>
      lazymatch b with
      | context [if _ then _ else _] => fail
      | _ => rewrite (Z.gtb_ltb a b); destruct (Z.ltb_spec b a)
      end
  | |- context [(?a <=? ?b)%Z] => destruct (Z.leb_spec a b)
  end.

Ltac each_label H :=
  pose proof (H dead); pose proof (H chill); pose proof (H busy); pose proof (H packed).

(** The loop over the four entries: the label kept is the first one, in
    the order dead, chill, busy, packed, whose count is the largest,
    provided that count is positive and reaches three tenths of the total. *)
Lemma findConsensus_first_maximum (n : VibeLevel -> Z) (vibe : VibeLevel) :
  (forall l, 0 <= n l)%Z ->
  CommunityDataService.findConsensus
    [(dead, n dead); (chill, n chill); (busy, n busy); (packed, n packed)]
  = Some vibe
  <-> (0 < n vibe)%Z
      /\ (forall other, n other <= n vibe)%Z
      /\ (3 * (n dead + n chill + n busy + n packed) <= 10 * n vibe)%Z
      /\ (forall other, (rank other < rank vibe)%nat -> n other < n vibe)%Z.
Proof.
  intros Hpos. each_label Hpos.
  unfold CommunityDataService.findConsensus, CommunityDataService.sumScores.
  cbn [map snd fold_left]. rewrite !Z.add_0_l.
  unfold CommunityDataService.consensusStep.
  rewrite !threshold_test.
  repeat (ztest; cbn [andb fst snd] in *).
  all: split;
    [ intros Heq; try discriminate Heq;
      injection Heq as <-;
      (split; [lia | split; [intros []; lia | split; [lia |]]]);
      intros []; cbn [rank]; lia
    | intros (Hvibe & Hmax & Hshare & Hfirst);
      each_label Hmax; each_label Hfirst;
      destruct vibe; cbn [rank] in *; first [reflexivity | exfalso; lia] ].
Qed.

(** Against C2 as stated: with three busy, three chill, two packed and two
    dead reports the two leaders tie, and the consensus is [chill]. *)
Lemma consensus_of_tie_is_not_null :
  consensusVibe
    (CommunityDataService.getConsensus
       (quietEnv 60000 21 5) 1 60 (withReports splitReports emptyStore))
  = Some chill
  /\ votes busy splitReports = 3%Z /\ votes chill splitReports = 3%Z
  /\ votes packed splitReports = 2%Z /\ votes dead splitReports = 2%Z
  /\ consensusVibe
       (CommunityDataService.getConsensus
          (quietEnv 60000 21 5) 1 60 (withReports splitReports emptyStore))
     <> None.
Proof. vm_compute. repeat split; discriminate. Qed.

Lemma getConsensus_consensusVibe (env : Env) (venueId minutesBack : Z) (s : Store) :
  let reports := reportsInWindow env venueId minutesBack s in
  consensusVibe (CommunityDataService.getConsensus env venueId minutesBack s)
  = CommunityDataService.findConsensus
      [(dead, votes dead reports); (chill, votes chill reports);
       (busy, votes busy reports); (packed, votes packed reports)].
Proof.
  intros reports.
  unfold CommunityDataService.getConsensus. cbn [consensusVibe].
  fold (reportsInWindow env venueId minutesBack s). fold reports.
  now rewrite tally_scores_votes.
Qed.

(** C2, amended.  The consensus is a label exactly when that label has at
    least one vote, no label has more votes, its votes are at least 30% of
    all votes, and every label before it in the order dead, chill, busy,
    packed has strictly fewer votes: among tied leaders the first in that
    order is the consensus. *)
Theorem consensus_first_maximum
    (env : Env) (venueId minutesBack : Z) (s : Store) (vibe : VibeLevel) :
  let reports := reportsInWindow env venueId minutesBack s in
  consensusVibe (CommunityDataService.getConsensus env venueId minutesBack s)
  = Some vibe
  <-> (0 < votes vibe reports)%Z
      /\ (forall other, votes other reports <= votes vibe reports)%Z
      /\ (3 * totalVotes reports <= 10 * votes vibe reports)%Z
      /\ (forall other,
            (rank other < rank vibe)%nat ->
            votes other reports < votes vibe reports)%Z.
Proof.
  intros reports. rewrite getConsensus_consensusVibe. fold reports.
  apply (findConsensus_first_maximum (fun l => votes l reports)).
  intros l. apply votes_nonneg.
Qed.

(** The consensus is null exactly when no label qualifies. *)
Lemma consensus_null
    (env : Env) (venueId minutesBack : Z) (s : Store) :
  let reports := reportsInWindow env venueId minutesBack s in
  consensusVibe (CommunityDataService.getConsensus env venueId minutesBack s) = None
  <-> forall vibe,
        (votes vibe reports = 0)%Z
        \/ (exists other, votes vibe reports < votes other reports)%Z
        \/ (10 * votes vibe reports < 3 * totalVotes reports)%Z.
Proof.
  intros reports. split.
  - intros Hnone vibe.
    pose proof (votes_nonneg vibe reports) as Hv.
    destruct (Z.eq_dec (votes vibe reports) 0%Z) as [|Hnz]; [now left|].
    destruct (Z_lt_le_dec (10 * votes vibe reports) (3 * totalVotes reports))
      as [|Hshare]; [now right; right|].
    right; left.
    (* some label has as many votes and comes first *)
    destruct (consensusVibe
                (CommunityDataService.getConsensus env venueId minutesBack s))
      eqn:Hc; [discriminate|].
    assert (Hno : forall l,
               ~ ((0 < votes l reports)%Z
                  /\ (forall other, votes other reports <= votes l reports)%Z
                  /\ (3 * totalVotes reports <= 10 * votes l reports)%Z
                  /\ (forall other, (rank other < rank l)%nat ->
                                    votes other reports < votes l reports)%Z)).
    { intros l Hl. rewrite getConsensus_consensusVibe in Hc. fold reports in Hc.
      apply (findConsensus_first_maximum (fun l => votes l reports)) in Hl;
        [congruence | intros l'; apply votes_nonneg]. }
    unfold totalVotes in *.
    pose proof (votes_nonneg dead reports). pose proof (votes_nonneg chill reports).
    pose proof (votes_nonneg busy reports). pose proof (votes_nonneg packed reports).
    destruct (Z_lt_le_dec (votes vibe reports) (votes dead reports));
      [now exists dead|].
    destruct (Z_lt_le_dec (votes vibe reports) (votes chill reports));
      [now exists chill|].
    destruct (Z_lt_le_dec (votes vibe reports) (votes busy reports));
      [now exists busy|].
    destruct (Z_lt_le_dec (votes vibe reports) (votes packed reports));
      [now exists packed|].
    exfalso.
    (* [vibe] is a maximum; the first maximum qualifies *)
    destruct (Z_lt_le_dec (votes dead reports) (votes vibe reports)) as [Hd|Hd].
    2:{ apply (Hno dead). repeat split; try lia.
        - intros []; lia.
        - intros []; cbn [rank]; lia. }
    destruct (Z_lt_le_dec (votes chill reports) (votes vibe reports)) as [Hc'|Hc'].
    2:{ apply (Hno chill). repeat split; try lia.
        - intros []; lia.
        - intros []; cbn [rank]; lia. }
    destruct (Z_lt_le_dec (votes busy reports) (votes vibe reports)) as [Hb|Hb].
    2:{ apply (Hno busy). repeat split; try lia.
        - intros []; lia.
        - intros []; cbn [rank]; lia. }
    apply (Hno packed). destruct vibe; try lia. repeat split; try lia.
    + intros []; lia.
    + intros []; cbn [rank]; lia.
  - intros Hall.
    destruct (consensusVibe
                (CommunityDataService.getConsensus env venueId minutesBack s))
      as [l|] eqn:Hc; [exfalso|reflexivity].
    rewrite getConsensus_consensusVibe in Hc. fold reports in Hc.
    apply (findConsensus_first_maximum (fun l => votes l reports)) in Hc;
      [|intros l'; apply votes_nonneg].
    destruct Hc as (Hpos & Hmax & Hshare & _).
    fold (totalVotes reports) in Hshare.
    destruct (Hall l) as [H0 | [[other Hother] | Hlow]]; try lia.
    specialize (Hmax other). lia.
Qed.

(** ** The engine: one venue *)

Lemma try_catch_ret_never_throws {A} (m : M A) (fallback : A) (s : Store) :
  exists a s', try_catch m (fun _ => ret fallback) s = (Ok a, s').
Proof.
  unfold try_catch, ret. destruct (m s) as [[a|e] s']; eauto.
Qed.

(** The engine catches every failure of its own. *)
Lemma calculatePulse_never_throws (env : Env) (venueId : Z) (s : Store) :
  exists pulse s', PulseEngine.calculatePulse env venueId s = (Ok pulse, s').
Proof. apply try_catch_ret_never_throws. Qed.

Example calculate_unknown_venue :
  Pulse.calculate (quietEnv 0 21 5) 42 emptyStore
  = (Ok (PulseEngine.getDefaultPulse (quietEnv 0 21 5)), emptyStore).
Proof. reflexivity. Qed.

(** Against C1 as stated: the call for an unknown venue does not fail. *)
Lemma calculate_unknown_venue_does_not_fail :
  ~ (forall (env : Env) (venueId : Z) (s : Store),
        venues s !! venueId = None ->
        exists s', Pulse.calculate env venueId s = (Throw (VenueNotFound venueId), s')).
Proof.
  intros H.
  destruct (H (quietEnv 0 21 5) 42%Z emptyStore) as [s' Hs'].
  - reflexivity.
  - rewrite calculate_unknown_venue in Hs'. discriminate Hs'.
Qed.

(** C1, amended.  For a venue id that resolves to no venue, the error
    raised inside [calculatePulse] is caught there: the caller receives
    the default score (5.0, confidence 0.3, estimated) and the store is
    unchanged. *)
Theorem calculate_unknown_venue_default (env : Env) (venueId : Z) (s : Store) :
  venues s !! venueId = None ->
  Pulse.calculate env venueId s = (Ok (PulseEngine.getDefaultPulse env), s)
  /\ value (PulseEngine.getDefaultPulse env) = 5.0
  /\ confidence (PulseEngine.getDefaultPulse env) = 0.3
  /\ dataSource (PulseEngine.getDefaultPulse env) = ESTIMATED.
Proof.
  intros Hnone. split; [|repeat split].
  unfold Pulse.calculate, PulseEngine.calculatePulse, try_catch, bind,
    PulseEngine.getVenue, gets.
  rewrite Hnone. reflexivity.
Qed.

Lemma calculate_unknown_venue_default_witness :
  venues emptyStore !! 42%Z = None
  /\ Pulse.calculate (quietEnv 0 21 5) 42 emptyStore
     = (Ok (PulseEngine.getDefaultPulse (quietEnv 0 21 5)), emptyStore).
Proof.
  assert (H : venues emptyStore !! 42%Z = None) by reflexivity.
  split; [exact H|].
  exact (proj1 (calculate_unknown_venue_default (quietEnv 0 21 5) 42 emptyStore H)).
Defined.

(** ** The engine: blending the community consensus *)

Lemma applyGoogle_cases (env : Env) (venue : VenueRecord) (e : PulseEngine.Estimate) :
  PulseEngine.applyGoogle env venue e = e
  \/ (PulseEngine.est_dataSource (PulseEngine.applyGoogle env venue e) = GOOGLE
      /\ PulseEngine.est_confidence (PulseEngine.applyGoogle env venue e) = 0.6).
Proof.
  unfold PulseEngine.applyGoogle.
  destruct (google_place_id venue) as [placeId|]; [|now left].
  destruct (String.eqb placeId ""); [now left|].
  destruct (getBusyness env placeId) as [[googleData|]|]; try now left.
  destruct (currentBusyness googleData >? 0); [right; split; reflexivity | now left].
Qed.

Lemma applyGoogle_initial (env : Env) (venue : VenueRecord) :
  let e := PulseEngine.applyGoogle env venue PulseEngine.initialEstimate in
  PulseEngine.est_dataSource e <> COMMUNITY
  /\ (PulseEngine.est_confidence e = 0.5 \/ PulseEngine.est_confidence e = 0.6).
Proof.
  cbv zeta.
  destruct (applyGoogle_cases env venue PulseEngine.initialEstimate) as [->|[-> ->]].
  - split; [discriminate | now left].
  - split; [discriminate | now right].
Qed.

(** With three data points or more the weight is at least 0.15. *)
Lemma calculateInfluence_weight (consensus : CommunityConsensus) :
  (3 <= dataPoints consensus)%Z ->
  0.15 <= CommunityDataService.influence
            (CommunityDataService.calculateInfluence consensus) <= 0.6.
Proof.
  intros H. unfold CommunityDataService.calculateInfluence.
  destruct (Z.ltb_spec (dataPoints consensus) 3) as [|_]; [lia|].
  cbn [CommunityDataService.influence].
  assert (Hq : 3 <= inject_Z (dataPoints consensus)).
  { change 3 with (inject_Z 3). rewrite <- Zle_Qle. exact H. }
  unfold Math_min.
  destruct (consensusVibe consensus);
    [destruct (vibeReports consensus >=? 5)%Z|]; qcases.
Qed.

Lemma calculateInfluence_adjustment (consensus : CommunityConsensus) :
  - 2 <= CommunityDataService.adjustment
           (CommunityDataService.calculateInfluence consensus) <= 2.
Proof.
  unfold CommunityDataService.calculateInfluence.
  destruct (dataPoints consensus <? 3)%Z; cbn [CommunityDataService.adjustment].
  - lra.
  - apply clamp_max_min. lra.
Qed.

(** Four reports, all packed, for a venue without a place id: four data
    points, consensus packed, weight 0.2, adjustment 2; at 21h on a
    Friday the score is 5.9, above the neutral 5.0. *)
Example consensus_all_packed :
  let consensus :=
    CommunityDataService.getConsensus (quietEnv 60000 21 5) 7 60 packedStore in
  dataPoints consensus = 4%Z
  /\ consensusVibe consensus = Some packed
  /\ CommunityDataService.influence
       (CommunityDataService.calculateInfluence consensus) == 0.2
  /\ CommunityDataService.adjustment
       (CommunityDataService.calculateInfluence consensus) == 2.
Proof. vm_compute. repeat split; reflexivity. Qed.

Example calculate_all_packed :
  exists pulse s,
    Pulse.calculate (quietEnv 60000 21 5) 7 packedStore = (Ok pulse, s)
    /\ value pulse == 5.9 /\ confidence pulse == 0.56 /\ dataSource pulse = ESTIMATED.
Proof. vm_compute. do 2 eexists. repeat split; reflexivity. Qed.

(** The same venue with a place id and a Google level of 45: the Google
    step gives base 6.125, confidence 0.6 and source GOOGLE; the ten
    reports (consensus chill, weight 0.6, adjustment 0) then raise the
    confidence to 0.78 and turn the source to COMMUNITY. *)
Example calculate_google_then_community :
  exists pulse s,
    Pulse.calculate (googleEnv 60000 21 5) 1 googleStore = (Ok pulse, s)
    /\ value pulse == 6.7 /\ confidence pulse == 0.78
    /\ dataSource pulse = COMMUNITY.
Proof. vm_compute. do 2 eexists. repeat split; reflexivity. Qed.

(** C5.  On the path of a venue that is not onboarded, when the consensus
    has at least three data points and the weight [w] is positive, the
    base becomes [base * (1 - w) + (base + adjustment) * w], the
    confidence rises to [min(0.8, confidence + w * 0.3)], and the source
    is COMMUNITY exactly when there are at least ten data points, also
    when the Google sample has set the base. *)
Theorem community_blend (env : Env) (venue : VenueRecord) (s : Store) :
  let e := PulseEngine.applyGoogle env venue PulseEngine.initialEstimate in
  let communityData := CommunityDataService.getConsensus env (rec_id venue) 60 s in
  let w :=
    CommunityDataService.influence
      (CommunityDataService.calculateInfluence communityData) in
  let adjustment :=
    CommunityDataService.adjustment
      (CommunityDataService.calculateInfluence communityData) in
  (3 <= dataPoints communityData)%Z ->
  0 < w ->
  exists pulse,
    PulseEngine.calculateNonPartnerPulse env venue s = (Ok pulse, s)
    /\ value pulse
       = PulseCalculator.roundedPulse
           (PulseCalculator.applyTimeModifiers
              (PulseEngine.basePulse e * (1 - w)
               + (PulseEngine.basePulse e + adjustment) * w)
              (hours env) (day env))
    /\ confidence pulse = Math_min 0.8 (PulseEngine.est_confidence e + w * 0.3)
    /\ PulseEngine.est_confidence e < confidence pulse
    /\ (dataSource pulse = COMMUNITY <-> (10 <= dataPoints communityData)%Z).
Proof.
  intros e communityData w adjustment Hpoints Hw.
  unfold PulseEngine.calculateNonPartnerPulse, bind, gets, ret.
  fold e. fold communityData.
  eexists. split; [reflexivity|].
  unfold PulseEngine.finishEstimate, PulseEngine.applyCommunity.
  fold w. fold adjustment.
  destruct (Z.geb_spec (dataPoints communityData) 3) as [_|]; [|lia].
  destruct (Qgtb_spec w 0) as [_|]; [|contradiction].
  cbn [value confidence dataSource PulseEngine.basePulse
       PulseEngine.est_confidence PulseEngine.est_dataSource].
  pose proof (applyGoogle_initial env venue) as [Hsrc Hconf].
  fold e in Hsrc, Hconf.
  pose proof (calculateInfluence_weight communityData Hpoints) as Hrange.
  fold w in Hrange.
  split; [reflexivity | split; [reflexivity | split]].
  - unfold Math_min. destruct Hconf as [-> | ->]; qcases.
  - destruct (Z.geb_spec (dataPoints communityData) 10).
    + split; [lia | reflexivity].
    + split; [intros Heq; contradiction | lia].
Qed.

Lemma community_blend_witness :
  exists pulse,
    PulseEngine.calculateNonPartnerPulse
      (quietEnv 60000 21 5) (plainVenue 1 "Venue 1" false) communityStore
    = (Ok pulse, communityStore)
    /\ dataSource pulse = COMMUNITY.
Proof.
  assert (Hpoints :
            (3 <= dataPoints
                    (CommunityDataService.getConsensus
                       (quietEnv 60000 21 5)
                       (rec_id (plainVenue 1 "Venue 1" false)) 60 communityStore))%Z)
    by (vm_compute; discriminate).
  assert (Hw :
            0 < CommunityDataService.influence
                  (CommunityDataService.calculateInfluence
                     (CommunityDataService.getConsensus
                        (quietEnv 60000 21 5)
                        (rec_id (plainVenue 1 "Venue 1" false)) 60 communityStore)))
    by (vm_compute; reflexivity).
  destruct (community_blend (quietEnv 60000 21 5) (plainVenue 1 "Venue 1" false)
              communityStore Hpoints Hw)
    as (pulse & Hrun & _ & _ & _ & Hsource).
  exists pulse. split; [exact Hrun|].
  apply Hsource. vm_compute; discriminate.
Defined.

(** ** Rate limiting of the vibe reports *)

Example second_report_after_59_minutes :
  let first := sampleReport 1 "ana" busy in
  let second := sampleReport 1 "ana" packed in
  let s1 := afterReport (quietEnv 0 21 5) first emptyStore in
  CommunityDataService.submitVibeReport (quietEnv 0 21 5) first emptyStore
  = (Ok tt, s1)
  /\ CommunityDataService.submitVibeReport (quietEnv (59 * 60000) 21 5) second s1
     = (Throw RateLimited, s1).
Proof. split; reflexivity. Qed.

Example second_report_after_61_minutes :
  let first := sampleReport 1 "ana" busy in
  let second := sampleReport 1 "ana" packed in
  let s1 := afterReport (quietEnv 0 21 5) first emptyStore in
  CommunityDataService.submitVibeReport (quietEnv (61 * 60000) 22 5) second s1
  = (Ok tt, afterReport (quietEnv (61 * 60000) 22 5) second s1).
Proof. reflexivity. Qed.

Lemma filter_none {A} (P : A -> Prop) `{forall x, Decision (P x)} (l : list A) :
  (forall x, x ∈ l -> ~ P x) -> filter P l = [].
Proof.
  intros Hall. destruct (filter P l) as [|x l'] eqn:Hf; [reflexivity|].
  assert (Hx : x ∈ filter P l) by (rewrite Hf; left).
  apply list_elem_of_filter in Hx as [HP Hin]. now apply Hall in Hin.
Qed.

(** The three outcomes of a submission. *)
Lemma submitVibeReport_cases (env : Env) (report : QuickVibeReport) (s : Store) :
  let recent :=
    CommunityDataService.recentReportsBy
      (venue_id report) (user_id report) (now env - 3600000) s in
  CommunityDataService.submitVibeReport env report s
  = match single recent with
    | Some _ => (Throw RateLimited, s)
    | None =>
        if rejects env (CommunityDataService.vibeReportRow report (now env))
        then (Throw DatabaseError, s)
        else (Ok tt, afterReport env report s)
    end.
Proof.
  cbv zeta. unfold CommunityDataService.submitVibeReport, bind, gets.
  change (60 * 60 * 1000)%Z with 3600000%Z.
  destruct (single _); [reflexivity|].
  destruct (rejects env _); reflexivity.
Qed.

(** Under the invariant at most one row of a participant falls in the
    trailing hour. *)
Lemma recent_at_most_one (rows : list VibeReportRow) (venueId : Z) (userId : string)
    (t : Z) :
  Forall (fun r => (row_created_at r <= t)%Z) rows ->
  ForallOrdPairs
    (fun r1 r2 =>
       sameReporter r1 r2 -> (row_created_at r1 + 3600000 < row_created_at r2)%Z)
    rows ->
  (length
     (filter (fun r => row_venue_id r = venueId /\ row_user_id r = userId
                       /\ (t - 3600000 <= row_created_at r)%Z) rows) <= 1)%nat.
Proof.
  intros Hpast Hspaced.
  induction Hspaced as [|r rows Hr Hrows IH]; [cbn; lia|].
  apply Forall_cons in Hpast as [Hrt Hpast].
  rewrite filter_cons. case_decide as Hin; [|now apply IH].
  rewrite filter_none; [cbn; lia|].
  intros r' Hr' (Hv & Hu & Ht).
  rewrite Forall_forall in Hr, Hpast.
  assert (row_created_at r + 3600000 < row_created_at r')%Z.
  { apply Hr; [exact Hr'|]. unfold sameReporter. destruct Hin as (-> & -> & _). auto. }
  specialize (Hpast r' Hr'). cbn in Hpast. lia.
Qed.

(** So an accepted report means no row at all in the trailing hour. *)
Lemma accepted_means_none (env : Env) (report : QuickVibeReport) (s s' : Store) :
  spacedReports (now env) s ->
  CommunityDataService.submitVibeReport env report s = (Ok tt, s') ->
  s' = afterReport env report s
  /\ CommunityDataService.recentReportsBy
       (venue_id report) (user_id report) (now env - 3600000) s = [].
Proof.
  intros [Hpast Hspaced] Hrun.
  rewrite submitVibeReport_cases in Hrun. cbv zeta in Hrun.
  pose proof (recent_at_most_one _ (venue_id report) (user_id report) _ Hpast Hspaced)
    as Hlen.
  fold (CommunityDataService.recentReportsBy
          (venue_id report) (user_id report) (now env - 3600000) s) in Hlen.
  destruct (CommunityDataService.recentReportsBy _ _ _ s) as [|r [|r' rest]].
  - cbn in Hrun. destruct (rejects env _); [discriminate|].
    injection Hrun as <-. auto.
  - cbn in Hrun. discriminate.
  - cbn in Hlen. lia.
Qed.

Lemma ForallOrdPairs_snoc {A} (R : A -> A -> Prop) (l : list A) (x : A) :
  ForallOrdPairs R l -> Forall (fun y => R y x) l -> ForallOrdPairs R (l ++ [x]).
Proof.
  intros Hl Hx. induction Hl as [|a l Ha Hl IH]; cbn.
  - constructor; constructor.
  - apply Forall_cons in Hx as [Hax Hx]. constructor.
    + apply Forall_app. split; [exact Ha | constructor; [exact Hax | constructor]].
    + now apply IH.
Qed.

(** The invariant holds of an empty table and is kept by every
    submission, whatever its outcome, as long as the clock does not go
    back. *)
Lemma spacedReports_empty (t : Z) : spacedReports t emptyStore.
Proof. split; constructor. Qed.

Lemma spacedReports_later (t t' : Z) (s : Store) :
  (t <= t')%Z -> spacedReports t s -> spacedReports t' s.
Proof.
  intros Ht [Hpast Hspaced]. split; [|exact Hspaced].
  eapply Forall_impl; [exact Hpast|]. cbn. intros; lia.
Qed.

Lemma submitVibeReport_keeps_spacing
    (env : Env) (report : QuickVibeReport) (s s' : Store) (t : Z) (r : result unit) :
  spacedReports t s ->
  (t <= now env)%Z ->
  CommunityDataService.submitVibeReport env report s = (r, s') ->
  spacedReports (now env) s'.
Proof.
  intros Hinv Ht Hrun.
  apply (spacedReports_later t (now env)) in Hinv; [|exact Ht].
  destruct r as [[]|e].
  - destruct (accepted_means_none env report s s' Hinv Hrun) as [-> Hnone].
    destruct Hinv as [Hpast Hspaced]. split; cbn.
    + apply Forall_app. split; [exact Hpast|]. constructor; [cbn; lia | constructor].
    + apply ForallOrdPairs_snoc; [exact Hspaced|].
      rewrite Forall_forall. intros r Hr [Hv Hu]. cbn in Hv, Hu |- *.
      destruct (Z_lt_le_dec (row_created_at r + 3600000) (now env)) as [|Hge];
        [assumption|exfalso].
      eapply (filter_nil_not_elem_of _ _ r Hnone); [|exact Hr].
      cbn. repeat split; [assumption | assumption | lia].
  - rewrite submitVibeReport_cases in Hrun. cbv zeta in Hrun.
    destruct (single _); [injection Hrun as _ <-; exact Hinv|].
    destruct (rejects env _); [injection Hrun as _ <-; exact Hinv | discriminate].
Qed.

(** Every table filled by submissions alone satisfies the invariant. *)
Lemma submittedUpTo_spaced (t : Z) (s : Store) :
  submittedUpTo t s -> spacedReports t s.
Proof.
  induction 1 as [t s Hempty | t s s' env report r _ IH Ht Hrun | t s s' _ IH Hsame].
  - unfold spacedReports. rewrite Hempty. split; constructor.
  - exact (submitVibeReport_keeps_spacing env report s s' t r IH Ht Hrun).
  - unfold spacedReports in *. now rewrite Hsame.
Qed.



(** ** The batch job *)

Lemma filter_partition_length {A} (f : A -> bool) (l : list A) :
  (Zlen (List.filter f l) + Zlen (List.filter (fun x => negb (f x)) l))%Z = Zlen l.
Proof.
  unfold Zlen. induction l as [|x l IH]; [reflexivity|].
  cbn [List.filter]. destruct (f x); cbn [negb length]; lia.
Qed.

(** With one unit of fuel per venue the batches cover the list. *)
Lemma batches_cover {A} (l : list A) (fuel : nat) :
  forall i : nat,
    (length l - i <= fuel)%nat ->
    concat ((fun i => PulseBatchUpdateService.slice l i
                        (i + PulseBatchUpdateService.batchSize))
            <$> batchStarts fuel i (length l))
    = drop i l.
Proof.
  induction fuel as [|fuel IH]; intros i Hfuel; cbn [batchStarts].
  - cbn. symmetry. apply drop_ge. lia.
  - destruct (Nat.ltb_spec i (length l)) as [Hlt|Hge].
    + cbn [fmap list_fmap concat]. change (list_fmap ?f ?l) with (f <$> l).
      rewrite IH by (unfold PulseBatchUpdateService.batchSize; lia).
      unfold PulseBatchUpdateService.slice.
      replace (i + PulseBatchUpdateService.batchSize - i)%nat
        with PulseBatchUpdateService.batchSize by lia.
      rewrite <- drop_drop. apply take_drop.
    + cbn. symmetry. apply drop_ge. lia.
Qed.

(** The loop makes one turn per started group of ten venues. *)
Lemma batchStarts_length (fuel : nat) :
  forall i len : nat,
    (len - i <= fuel)%nat ->
    length (batchStarts fuel i len) = ((len - i + 9) / 10)%nat.
Proof.
  induction fuel as [|fuel IH]; intros i len Hfuel; cbn [batchStarts].
  - replace (len - i)%nat with 0%nat by lia. reflexivity.
  - destruct (Nat.ltb_spec i len) as [Hlt|Hge].
    + cbn [length]. rewrite IH by (unfold PulseBatchUpdateService.batchSize; lia).
      unfold PulseBatchUpdateService.batchSize.
      destruct (le_lt_dec 10 (len - i)) as [Hbig|Hsmall].
      * replace (len - i + 9)%nat with (1 * 10 + (len - (i + 10) + 9))%nat by lia.
        rewrite Nat.div_add_l by lia. lia.
      * replace (len - (i + 10))%nat with 0%nat by lia.
        assert (H1 : ((len - i + 9) / 10 = 1)%nat).
        { symmetry. apply Nat.div_unique with (r := (len - i - 1)%nat); lia. }
        rewrite H1. reflexivity.
    + replace (len - i)%nat with 0%nat by lia. reflexivity.
Qed.

(** The sort only reorders, and orders by decreasing score. *)
Lemma insertHot_permutation (v : PulseBatchUpdateService.HotVenue)
    (l : list PulseBatchUpdateService.HotVenue) :
  Permutation (PulseBatchUpdateService.insertHot v l) (v :: l).
Proof.
  induction l as [|w l IH]; cbn; [reflexivity|].
  destruct (PulseBatchUpdateService.hot_pulse w >? PulseBatchUpdateService.hot_pulse v).
  - rewrite IH. apply perm_swap.
  - reflexivity.
Qed.

Lemma sortHot_permutation (l : list PulseBatchUpdateService.HotVenue) :
  Permutation (PulseBatchUpdateService.sortHot l) l.
Proof.
  induction l as [|v l IH]; cbn; [reflexivity|].
  rewrite insertHot_permutation. now constructor.
Qed.



Lemma keepsVenues_refl (s : Store) : keepsVenues s s.
Proof. repeat split. Qed.

Lemma keepsVenues_trans (s1 s2 s3 : Store) :
  keepsVenues s1 s2 -> keepsVenues s2 s3 -> keepsVenues s1 s3.
Proof.
  intros (Hv1 & Hr1 & Hp1 & Hs1 & Hu1) (Hv2 & Hr2 & Hp2 & Hs2 & Hu2).
  split; [intros venueId; now rewrite Hv2, Hv1|].
  repeat split; congruence.
Qed.

(** A completion in the tail of a pool. *)
Lemma complete_further {A} (n : nat) (t : Task A) (pool : list (Task A)) (s : Store) :
  complete (S n) (t :: pool) s
  = let '(pool', s') := complete n pool s in (t :: pool', s').
Proof.
  unfold complete. cbn [lookup list_lookup].
  change (list_lookup n pool) with (pool !! n).
  destruct (pool !! n) as [[a|X step resume]|]; try reflexivity.
  destruct (step s) as [r s']. reflexivity.
Qed.

Section BatchJob.

Context (env : Env).

Lemma calculatePulse_sameLogs (venueId : Z) (s s' : Store)
    (r : result PulseData) :
  PulseEngine.calculatePulse env venueId s = (r, s') -> sameLogs s s'.
Proof.
  unfold PulseEngine.calculatePulse, try_catch, bind, PulseEngine.getVenue, gets.
  destruct (venues s !! venueId) as [venue|]; cbn.
  - destruct (spree_onboarded venue).
    + unfold PulseEngine.calculateSpreePulse, bind, lift.
      destruct (getVenueMetrics env (rec_id venue)) as [metrics|e]; cbn.
      * unfold PulseEngine.logCalculation.
        destruct (throws env _); cbn; intros [= _ <-]; split; reflexivity.
      * intros [= _ <-]; split; reflexivity.
    + unfold PulseEngine.calculateNonPartnerPulse, bind, gets, ret.
      intros [= _ <-]; split; reflexivity.
  - intros [= _ <-]; split; reflexivity.
Qed.

(** [calculatePulse] writes to the log alone. *)
Lemma calculatePulse_keepsVenues (venueId : Z) (s s' : Store)
    (r : result PulseData) :
  PulseEngine.calculatePulse env venueId s = (r, s') -> keepsVenues s s'.
Proof.
  unfold PulseEngine.calculatePulse, try_catch, bind, PulseEngine.getVenue, gets.
  destruct (venues s !! venueId) as [venue|]; cbn.
  - destruct (spree_onboarded venue).
    + unfold PulseEngine.calculateSpreePulse, bind, lift.
      destruct (getVenueMetrics env (rec_id venue)) as [metrics|e]; cbn.
      * unfold PulseEngine.logCalculation.
        destruct (throws env _); cbn; intros [= _ <-]; repeat split.
      * intros [= _ <-]; repeat split.
    + unfold PulseEngine.calculateNonPartnerPulse, bind, gets, ret.
      intros [= _ <-]; repeat split.
  - intros [= _ <-]; repeat split.
Qed.

(** The score of a venue depends on the columns of its row that a batch
    run leaves alone and on the community tables: it is the same on two
    stores that agree on them. *)
Lemma calculatePulse_unmoved (venueId : Z) (s s' : Store) :
  keepsVenues s s' ->
  fst (PulseEngine.calculatePulse env venueId s')
  = fst (PulseEngine.calculatePulse env venueId s).
Proof.
  intros (Hv & Hr & Hp & Hs & _). specialize (Hv venueId).
  unfold PulseEngine.calculatePulse, try_catch, bind, PulseEngine.getVenue, gets.
  destruct (venues s' !! venueId) as [v'|], (venues s !! venueId) as [v|];
    cbn in Hv; try discriminate; [|reflexivity].
  injection Hv as Hid Hname Hplace Honboarded Hactive. cbn.
  rewrite Honboarded. destruct (spree_onboarded v).
  - unfold PulseEngine.calculateSpreePulse, bind, lift. rewrite Hid.
    destruct (getVenueMetrics env (rec_id v)) as [metrics|e]; cbn; [|reflexivity].
    unfold PulseEngine.logCalculation.
    destruct (throws env _); reflexivity.
  - unfold PulseEngine.calculateNonPartnerPulse, bind, gets, ret.
    unfold PulseEngine.applyGoogle, CommunityDataService.getConsensus.
    rewrite Hid, Hplace, Hr, Hp, Hs. reflexivity.
Qed.

Lemma calculatePulse_score (venueId : Z) (s0 s : Store) :
  keepsVenues s0 s ->
  exists s',
    PulseEngine.calculatePulse env venueId s = (Ok (scoreOf env s0 venueId), s')
    /\ keepsVenues s0 s' /\ sameLogs s s'.
Proof.
  intros Hkeep.
  destruct (calculatePulse_never_throws env venueId s) as (pulse & s' & Hrun).
  exists s'. pose proof (calculatePulse_unmoved venueId s0 s Hkeep) as Hsame.
  unfold scoreOf. rewrite <- Hsame, Hrun. cbn [fst].
  split; [reflexivity|]. split.
  - apply (keepsVenues_trans s0 s s'); [exact Hkeep|].
    exact (calculatePulse_keepsVenues venueId s s' _ Hrun).
  - exact (calculatePulse_sameLogs venueId s s' _ Hrun).
Qed.

(** The evaluation throws exactly when one of its writes does. *)
Lemma evaluate_throws_iff (venue : PulseBatchUpdateService.VenueSummary)
    (s : Store) :
  (exists e s', PulseBatchUpdateService.evaluate env venue s = (Throw e, s'))
  <-> evaluationFails env venue = true.
Proof.
  unfold PulseBatchUpdateService.evaluate, PulseBatchUpdateService.evaluation,
    evaluationFails, tryThen, await.
  cbn [andThen runTask].
  destruct (calculatePulse_never_throws env (PulseBatchUpdateService.sum_id venue) s)
    as (pulse & s1 & ->).
  cbn [andThen runTask].
  unfold PulseBatchUpdateService.updateVenuePulse,
    PulseBatchUpdateService.insertPulseHistory.
  destruct (throws env (UpdateVenuePulse _)); cbn.
  - split; [reflexivity | intros _; eauto].
  - destruct (throws env (InsertPulseHistory _)); cbn.
    + split; [reflexivity | intros _; eauto].
    + split; [intros (e & s' & [=]) | discriminate].
Qed.

Context (s0 : Store).

Lemma updateOne_memberOk (venue : PulseBatchUpdateService.VenueSummary) :
  memberOk env s0 venue (PulseBatchUpdateService.updateOne env venue) (historyOf env venue).
Proof.
  unfold PulseBatchUpdateService.updateOne, PulseBatchUpdateService.evaluation,
    catching, tryThen, await.
  cbn [andThen memberOk]. intros s Hkeep.
  destruct (calculatePulse_score (PulseBatchUpdateService.sum_id venue) s0 s Hkeep)
    as (s1 & -> & Hkeep1 & Hconsole1 & Hhistory1).
  cbn [fst snd]. split; [exact Hkeep1|]. split; [exact Hconsole1|].
  exists [], (historyOf env venue). rewrite Hhistory1, app_nil_r.
  split; [reflexivity|]. split; [reflexivity|].
  cbn [andThen memberOk]. clear s s1 Hkeep Hkeep1 Hconsole1 Hhistory1.
  intros s Hkeep.
  unfold PulseBatchUpdateService.updateVenuePulse.
  destruct (throws env (UpdateVenuePulse (PulseBatchUpdateService.sum_id venue)))
    eqn:Hupdate.
  { cbn. split; [exact Hkeep|]. split; [reflexivity|].
    exists [], []. rewrite app_nil_r.
    unfold historyOf, expectedResult, evaluationFails. rewrite Hupdate.
    repeat split. }
  cbn [modify fst snd]. split.
  { apply (keepsVenues_trans s0 s); [exact Hkeep|].
    split; [|repeat split]. intros venueId. cbn.
    rewrite lookup_alter. case_decide as Hid; [|reflexivity].
    subst venueId.
    destruct (venues s !! PulseBatchUpdateService.sum_id venue); reflexivity. }
  split; [reflexivity|].
  exists [], (historyOf env venue).
  cbn [pulse_history PulseBatchUpdateService.setVenues]. rewrite app_nil_r.
  split; [reflexivity|]. split; [reflexivity|].
  cbn [andThen memberOk]. clear s Hkeep. intros s Hkeep.
  unfold PulseBatchUpdateService.insertPulseHistory.
  destruct (throws env (InsertPulseHistory (PulseBatchUpdateService.sum_id venue)))
    eqn:Hinsert.
  { cbn. split; [exact Hkeep|]. split; [reflexivity|].
    exists [], []. rewrite app_nil_r.
    unfold historyOf, expectedResult, evaluationFails. rewrite Hupdate, Hinsert.
    repeat split. }
  cbn [modify fst snd]. split.
  { apply (keepsVenues_trans s0 s); [exact Hkeep|]. repeat split. }
  split; [reflexivity|].
  exists [PulseBatchUpdateService.sum_id venue], [].
  cbn [pulse_history PulseBatchUpdateService.insertHistory].
  rewrite fmap_app. cbn.
  unfold historyOf, expectedResult, evaluationFails. rewrite Hupdate, Hinsert.
  repeat split.
Qed.

(** A member awaited to its end. *)
Lemma runTask_memberOk (venue : PulseBatchUpdateService.VenueSummary)
    (t : Task PulseBatchUpdateService.UpdateResult) :
  forall (owed : list Z) (s : Store),
    memberOk env s0 venue t owed ->
    keepsVenues s0 s ->
    fst (runTask t s) = expectedResult env s0 venue
    /\ keepsVenues s0 (snd (runTask t s))
    /\ console (snd (runTask t s)) = console s
    /\ hist_venue_id <$> pulse_history (snd (runTask t s))
       = (hist_venue_id <$> pulse_history s) ++ owed.
Proof.
  induction t as [r | X step resume IH]; intros owed s Hok Hkeep.
  - destruct Hok as [-> ->]. cbn. rewrite app_nil_r. auto.
  - cbn [memberOk] in Hok.
    destruct (Hok s Hkeep) as (Hkeep1 & Hconsole1 & added & owed' & Hadded & -> & Hnext).
    cbn [runTask]. destruct (step s) as [x s1]. cbn [fst snd] in *.
    destruct (IH x owed' s1 Hnext Hkeep1) as (Hr & Hkeep2 & Hconsole2 & Hhistory2).
    split; [exact Hr|]. split; [exact Hkeep2|]. split; [congruence|].
    rewrite Hhistory2, Hadded, app_assoc. reflexivity.
Qed.

(** One completion in a pool whose members are all sound. *)
Lemma complete_memberOk (n : nat) :
  forall (batch : list PulseBatchUpdateService.VenueSummary)
         (pool : list (Task PulseBatchUpdateService.UpdateResult))
         (oweds : list (list Z)) (s : Store),
    Forall3 (memberOk env s0) batch pool oweds ->
    keepsVenues s0 s ->
    exists added oweds',
      Forall3 (memberOk env s0) batch (fst (complete n pool s)) oweds'
      /\ keepsVenues s0 (snd (complete n pool s))
      /\ console (snd (complete n pool s)) = console s
      /\ hist_venue_id <$> pulse_history (snd (complete n pool s))
         = (hist_venue_id <$> pulse_history s) ++ added
      /\ Permutation (concat oweds) (added ++ concat oweds').
Proof.
  induction n as [|n IH]; intros batch pool oweds s Hpool Hkeep.
  - destruct Hpool as [|venue t owed batch pool oweds Ht Hpool].
    { exists [], []. cbn. rewrite app_nil_r.
      split; [constructor|]. split; [exact Hkeep|]. split; [reflexivity|].
      split; reflexivity. }
    destruct t as [r | X step resume].
    { exists [], (owed :: oweds). cbn. rewrite app_nil_r.
      split; [now constructor|]. split; [exact Hkeep|]. split; [reflexivity|].
      split; reflexivity. }
    unfold complete. cbn [lookup list_lookup].
    cbn [memberOk] in Ht.
    destruct (Ht s Hkeep) as (Hkeep1 & Hconsole1 & added & owed' & Hadded & -> & Hnext).
    destruct (step s) as [x s1]. cbn [fst snd] in *.
    exists added, (owed' :: oweds). cbn [insert list_insert concat].
    split; [now constructor|]. split; [exact Hkeep1|]. split; [exact Hconsole1|].
    split; [exact Hadded|]. now rewrite app_assoc.
  - destruct Hpool as [|venue t owed batch pool oweds Ht Hpool].
    { exists [], []. cbn. rewrite app_nil_r.
      split; [constructor|]. split; [exact Hkeep|]. split; [reflexivity|].
      split; reflexivity. }
    rewrite complete_further.
    destruct (IH batch pool oweds s Hpool Hkeep)
      as (added & oweds' & Hpool' & Hkeep' & Hconsole' & Hadded & Hperm).
    destruct (complete n pool s) as [pool' s']. cbn [fst snd] in *.
    exists added, (owed :: oweds'). cbn [concat].
    split; [now constructor|]. split; [exact Hkeep'|]. split; [exact Hconsole'|].
    split; [exact Hadded|].
    rewrite Hperm, !app_assoc. apply Permutation_app_tail, Permutation_app_comm.
Qed.

Lemma completeAll_memberOk (order : list nat) :
  forall (batch : list PulseBatchUpdateService.VenueSummary)
         (pool : list (Task PulseBatchUpdateService.UpdateResult))
         (oweds : list (list Z)) (s : Store),
    Forall3 (memberOk env s0) batch pool oweds ->
    keepsVenues s0 s ->
    exists added oweds',
      Forall3 (memberOk env s0) batch (fst (completeAll order pool s)) oweds'
      /\ keepsVenues s0 (snd (completeAll order pool s))
      /\ console (snd (completeAll order pool s)) = console s
      /\ hist_venue_id <$> pulse_history (snd (completeAll order pool s))
         = (hist_venue_id <$> pulse_history s) ++ added
      /\ Permutation (concat oweds) (added ++ concat oweds').
Proof.
  induction order as [|n order IH]; intros batch pool oweds s Hpool Hkeep.
  - exists [], oweds. cbn. rewrite app_nil_r. auto.
  - cbn [completeAll].
    destruct (complete_memberOk n batch pool oweds s Hpool Hkeep)
      as (added1 & oweds1 & Hpool1 & Hkeep1 & Hconsole1 & Hadded1 & Hperm1).
    destruct (complete n pool s) as [pool1 s1]. cbn [fst snd] in *.
    destruct (IH batch pool1 oweds1 s1 Hpool1 Hkeep1)
      as (added2 & oweds2 & Hpool2 & Hkeep2 & Hconsole2 & Hadded2 & Hperm2).
    exists (added1 ++ added2), oweds2.
    split; [exact Hpool2|]. split; [exact Hkeep2|]. split; [congruence|].
    split; [rewrite Hadded2, Hadded1, app_assoc; reflexivity|].
    rewrite Hperm1, Hperm2, app_assoc. reflexivity.
Qed.

Lemma settle_memberOk (batch : list PulseBatchUpdateService.VenueSummary)
    (pool : list (Task PulseBatchUpdateService.UpdateResult))
    (oweds : list (list Z)) :
  Forall3 (memberOk env s0) batch pool oweds ->
  forall s : Store,
    keepsVenues s0 s ->
    fst (settle pool s) = expectedResult env s0 <$> batch
    /\ keepsVenues s0 (snd (settle pool s))
    /\ console (snd (settle pool s)) = console s
    /\ hist_venue_id <$> pulse_history (snd (settle pool s))
       = (hist_venue_id <$> pulse_history s) ++ concat oweds.
Proof.
  induction 1 as [|venue t owed batch pool oweds Ht _ IH]; intros s Hkeep.
  - cbn. rewrite app_nil_r. auto.
  - cbn [settle concat].
    destruct (runTask_memberOk venue t owed s Ht Hkeep)
      as (Hr & Hkeep1 & Hconsole1 & Hhistory1).
    destruct (runTask t s) as [r s1]. cbn [fst snd] in *.
    destruct (IH s1 Hkeep1) as (Hrs & Hkeep2 & Hconsole2 & Hhistory2).
    destruct (settle pool s1) as [rs s2]. cbn [fst snd] in *.
    split; [cbn; congruence|]. split; [exact Hkeep2|]. split; [congruence|].
    rewrite Hhistory2, Hhistory1, app_assoc. reflexivity.
Qed.

(** A batch awaited by [Promise.all], whatever the order of completion:
    the results are the expected ones, in the order of the batch; the
    history rows of the members that succeed are added in some order. *)
Lemma promiseAll_updateOne (order : list nat)
    (batch : list PulseBatchUpdateService.VenueSummary) (s : Store) :
  keepsVenues s0 s ->
  exists s' added,
    promiseAll order (PulseBatchUpdateService.updateOne env <$> batch) s
    = (Ok (expectedResult env s0 <$> batch), s')
    /\ keepsVenues s0 s'
    /\ console s' = console s
    /\ hist_venue_id <$> pulse_history s' = (hist_venue_id <$> pulse_history s) ++ added
    /\ Permutation added (concat (historyOf env <$> batch)).
Proof.
  intros Hkeep.
  assert (Hpool : Forall3 (memberOk env s0) batch
                    (PulseBatchUpdateService.updateOne env <$> batch)
                    (historyOf env <$> batch)).
  { induction batch as [|venue batch IH]; cbn; constructor;
      [apply updateOne_memberOk | exact IH]. }
  destruct (completeAll_memberOk order batch _ _ s Hpool Hkeep)
    as (added1 & oweds1 & Hpool1 & Hkeep1 & Hconsole1 & Hadded1 & Hperm1).
  unfold promiseAll.
  destruct (completeAll order (PulseBatchUpdateService.updateOne env <$> batch) s)
    as [pool1 s1]. cbn [fst snd] in *.
  destruct (settle_memberOk batch pool1 oweds1 Hpool1 s1 Hkeep1)
    as (Hrs & Hkeep2 & Hconsole2 & Hhistory2).
  destruct (settle pool1 s1) as [rs s2]. cbn [fst snd] in *.
  exists s2, (added1 ++ concat oweds1). rewrite Hrs.
  split; [reflexivity|]. split; [exact Hkeep2|]. split; [congruence|].
  split; [rewrite Hhistory2, Hadded1, app_assoc; reflexivity|].
  now rewrite Hperm1.
Qed.

Lemma batchLoop_outcomes (venues : list PulseBatchUpdateService.VenueSummary)
    (fuel : nat) :
  forall (i : nat) (results : list PulseBatchUpdateService.UpdateResult) (s : Store),
  keepsVenues s0 s ->
  let starts := batchStarts fuel i (length venues) in
  let batches :=
    concat ((fun i => PulseBatchUpdateService.slice venues i
                        (i + PulseBatchUpdateService.batchSize)) <$> starts) in
  exists s' added,
    PulseBatchUpdateService.batchLoop env fuel venues i results s
    = (Ok (results ++ (expectedResult env s0 <$> batches)), s')
    /\ keepsVenues s0 s'
    /\ console s' = console s ++ (progressLine (length venues) <$> starts)
    /\ hist_venue_id <$> pulse_history s' = (hist_venue_id <$> pulse_history s) ++ added
    /\ Permutation added (concat (historyOf env <$> batches)).
Proof.
  induction fuel as [|fuel IH]; intros i results s Hkeep; cbv zeta.
  - exists s, []. cbn. rewrite !app_nil_r. auto.
  - cbn [PulseBatchUpdateService.batchLoop batchStarts].
    destruct (i <? length venues)%nat.
    + set (batch := PulseBatchUpdateService.slice venues i
                      (i + PulseBatchUpdateService.batchSize)).
      destruct (promiseAll_updateOne (completions env i) batch s Hkeep)
        as (s1 & added1 & Hrun1 & Hkeep1 & Hconsole1 & Hadded1 & Hperm1).
      unfold bind at 1. rewrite Hrun1.
      unfold bind at 1, modify at 1.
      assert (Hkeep1' :
                keepsVenues s0
                  (PulseBatchUpdateService.logProgress
                     (Z.min (Z.of_nat (i + PulseBatchUpdateService.batchSize))
                            (Zlen venues))
                     (Zlen venues) s1)).
      { destruct Hkeep1 as (Hv & Hrest). split; [exact Hv | exact Hrest]. }
      destruct (IH (i + PulseBatchUpdateService.batchSize)%nat
                  (results ++ (expectedResult env s0 <$> batch)) _ Hkeep1')
        as (s2 & added2 & Hrun2 & Hkeep2 & Hconsole2 & Hadded2 & Hperm2).
      exists s2, (added1 ++ added2). rewrite Hrun2.
      cbn [fmap list_fmap concat]. change (list_fmap ?f ?l) with (f <$> l).
      split; [now rewrite fmap_app, app_assoc|]. split; [exact Hkeep2|].
      split.
      * rewrite Hconsole2. cbn [console PulseBatchUpdateService.logProgress].
        rewrite Hconsole1, <- app_assoc. reflexivity.
      * split.
        -- rewrite Hadded2. cbn [pulse_history PulseBatchUpdateService.logProgress].
           rewrite Hadded1, app_assoc. reflexivity.
        -- rewrite fmap_app, concat_app. now apply Permutation_app.
    + exists s, []. cbn. rewrite !app_nil_r. auto.
Qed.

End BatchJob.

Section BatchSummary.

Context (env : Env).

Lemma expectedResult_outcome (s : Store) (venue : PulseBatchUpdateService.VenueSummary) :
  outcomeOf env venue (expectedResult env s venue).
Proof.
  unfold outcomeOf, expectedResult.
  destruct (evaluationFails env venue); repeat split.
Qed.

Lemma outcomes_counts (venues : list PulseBatchUpdateService.VenueSummary)
    (results : list PulseBatchUpdateService.UpdateResult) :
  Forall2 (outcomeOf env) venues results ->
  Zlen (List.filter PulseBatchUpdateService.success results)
  = Zlen (List.filter (fun v => negb (evaluationFails env v)) venues)
  /\ Zlen (List.filter (fun r => negb (PulseBatchUpdateService.success r)) results)
     = Zlen (List.filter (evaluationFails env) venues).
Proof.
  unfold Zlen. induction 1 as [|v r venues results (_ & _ & Hs) _ [IHu IHf]].
  - split; reflexivity.
  - cbn [List.filter]. rewrite Hs.
    destruct (evaluationFails env v); cbn [negb length]; lia.
Qed.

Lemma history_of_venues (venues : list PulseBatchUpdateService.VenueSummary) :
  concat (historyOf env <$> venues)
  = PulseBatchUpdateService.sum_id
      <$> List.filter (fun v => negb (evaluationFails env v)) venues.
Proof.
  induction venues as [|v venues IH]; [reflexivity|].
  cbn [fmap list_fmap concat List.filter]. change (list_fmap ?f ?l) with (f <$> l).
  rewrite IH. unfold historyOf. destruct (evaluationFails env v); reflexivity.
Qed.

Lemma outcome_of_some_venue (venues : list PulseBatchUpdateService.VenueSummary)
    (results : list PulseBatchUpdateService.UpdateResult)
    (r : PulseBatchUpdateService.UpdateResult) :
  Forall2 (outcomeOf env) venues results ->
  In r results ->
  exists v, In v venues /\ outcomeOf env v r.
Proof.
  induction 1 as [|v r' venues results Hout _ IH]; cbn; [tauto|].
  intros [<- | Hin].
  - exists v. auto.
  - destruct (IH Hin) as (v' & Hv' & Hout'). exists v'. auto.
Qed.

(** The batch job never throws.  It records the expected result of every
    fetched venue, logs one progress line per batch, and adds one history
    row per venue evaluated with success, in the order in which the
    members of the batches complete. *)
Lemma updateAllVenues_run (s : Store) :
  let venues := PulseBatchUpdateService.selectActiveVenues s in
  exists s' added,
    PulseBatchUpdateService.updateAllVenues env s
    = (Ok (PulseBatchUpdateService.summarize venues (expectedResult env s <$> venues)),
       s')
    /\ keepsVenues s s'
    /\ console s'
       = console s
         ++ (progressLine (length venues)
             <$> batchStarts (length venues) 0 (length venues))
    /\ hist_venue_id <$> pulse_history s' = (hist_venue_id <$> pulse_history s) ++ added
    /\ Permutation added
         (PulseBatchUpdateService.sum_id
          <$> List.filter (fun v => negb (evaluationFails env v)) venues).
Proof.
  intros venues.
  unfold PulseBatchUpdateService.updateAllVenues, bind, gets. fold venues.
  destruct venues as [|v venues'] eqn:Hvenues.
  - exists s, []. cbn. rewrite !app_nil_r.
    split; [reflexivity|]. split; [apply keepsVenues_refl | auto].
  - rewrite <- Hvenues.
    destruct (batchLoop_outcomes env s venues (length venues) 0 [] s
                (keepsVenues_refl s))
      as (s' & added & Hrun & Hkeep & Hconsole & Hadded & Hperm).
    rewrite batches_cover in Hrun, Hperm by lia.
    rewrite drop_0 in Hrun, Hperm. rewrite history_of_venues in Hperm.
    exists s', added. rewrite Hrun. cbn [app]. unfold ret. auto.
Qed.

Lemma updateAllVenues_outcomes (s : Store) :
  let venues := PulseBatchUpdateService.selectActiveVenues s in
  exists results s',
    PulseBatchUpdateService.updateAllVenues env s
    = (Ok (PulseBatchUpdateService.summarize venues results), s')
    /\ Forall2 (outcomeOf env) venues results
    /\ console s'
       = console s
         ++ (progressLine (length venues)
             <$> batchStarts (length venues) 0 (length venues))
    /\ exists added,
         hist_venue_id <$> pulse_history s'
         = (hist_venue_id <$> pulse_history s) ++ added
         /\ Permutation added
              (PulseBatchUpdateService.sum_id
               <$> List.filter (fun v => negb (evaluationFails env v)) venues).
Proof.
  intros venues.
  destruct (updateAllVenues_run s)
    as (s' & added & Hrun & _ & Hconsole & Hadded & Hperm).
  fold venues in Hrun, Hconsole, Hperm.
  exists (expectedResult env s <$> venues), s'.
  split; [exact Hrun|]. split; [|split; [exact Hconsole | eauto]].
  clear. induction venues as [|v venues IH]; cbn; constructor;
    [apply expectedResult_outcome | exact IH].
Qed.

End BatchSummary.

(** C9.  The batch job returns a summary in which [total] is the number
    of fetched venues, [updated] and [failed] count the venues evaluated
    with and without success, so that [total = updated + failed], and
    every hot venue is a venue evaluated with success whose score is at
    least 7. *)
Theorem updateAll_counts_partition (env : Env) (s : Store) :
  let venues := PulseBatchUpdateService.selectActiveVenues s in
  exists summary s',
    Pulse.updateAll env s = (Ok summary, s')
    /\ PulseBatchUpdateService.total summary = Zlen venues
    /\ PulseBatchUpdateService.total summary
       = (PulseBatchUpdateService.updated summary
          + PulseBatchUpdateService.failed summary)%Z
    /\ PulseBatchUpdateService.updated summary
       = Zlen (List.filter (fun v => negb (evaluationFails env v)) venues)
    /\ PulseBatchUpdateService.failed summary
       = Zlen (List.filter (evaluationFails env) venues)
    /\ forall h,
         In h (PulseBatchUpdateService.hotVenues summary) ->
         7 <= PulseBatchUpdateService.hot_pulse h
         /\ exists v,
              In v venues
              /\ PulseBatchUpdateService.sum_id v = PulseBatchUpdateService.hot_id h
              /\ PulseBatchUpdateService.sum_name v = PulseBatchUpdateService.hot_name h
              /\ evaluationFails env v = false.
Proof.
  intros venues.
  destruct (updateAllVenues_outcomes env s) as (results & s' & Hrun & Hout & _ & _).
  fold venues in Hrun, Hout.
  exists (PulseBatchUpdateService.summarize venues results), s'.
  split; [exact Hrun|].
  destruct (outcomes_counts env venues results Hout) as [Hupdated Hfailed].
  cbn [PulseBatchUpdateService.summarize PulseBatchUpdateService.total
       PulseBatchUpdateService.updated PulseBatchUpdateService.failed
       PulseBatchUpdateService.hotVenues].
  split; [reflexivity|]. split.
  { rewrite filter_partition_length. unfold Zlen.
    now rewrite (Forall2_length _ _ _ Hout). }
  split; [exact Hupdated|]. split; [exact Hfailed|].
  intros h Hh.
  apply (Permutation_in _ (sortHot_permutation _)) in Hh.
  apply list_elem_of_In, list_elem_of_fmap in Hh as (r & -> & Hr).
  apply list_elem_of_In, filter_In in Hr as [Hr Hhot].
  unfold PulseBatchUpdateService.isHot in Hhot.
  apply andb_true_iff in Hhot as [Hsuccess Hscore].
  destruct (outcome_of_some_venue env venues results r Hout Hr)
    as (v & Hv & Hid & Hname & Hs).
  cbn [PulseBatchUpdateService.toHot PulseBatchUpdateService.hot_pulse
       PulseBatchUpdateService.hot_id PulseBatchUpdateService.hot_name].
  split.
  - destruct (Qgeb_spec (PulseBatchUpdateService.res_pulse r) 7);
      [assumption | discriminate].
  - exists v. repeat split; try congruence.
    rewrite Hsuccess in Hs. now destruct (evaluationFails env v).
Qed.

(** Twenty-three venues, enumerated by the table in three batches
    (23 15 19 11 7 21 13 17 9 5, then 3 22 14 18 10 6 20 12 16 8, then
    4 2 1).  The update of venue 14, in the second batch, fails: the
    three venues of the third batch still get their history rows.  In
    each batch the last member completes first, and the history rows
    land in that order. *)
Example updateAll_with_one_failure :
  exists summary s',
    Pulse.updateAll faultyEnv venues23 = (Ok summary, s')
    /\ PulseBatchUpdateService.total summary = 23%Z
    /\ PulseBatchUpdateService.updated summary = 22%Z
    /\ PulseBatchUpdateService.failed summary = 1%Z
    /\ console s' = [(10, 23); (20, 23); (23, 23)]%Z
    /\ hist_venue_id <$> pulse_history s'
       = [5; 9; 17; 13; 21; 7; 11; 19; 15; 23;
          8; 16; 12; 20; 6; 10; 18; 22; 3;
          1; 2; 4]%Z.
Proof. vm_compute. do 2 eexists. repeat split; reflexivity. Qed.



(** * Further properties *)

(** ** The calculator *)

Lemma calculateActivityScore_range (a : Q) :
  3 <= PulseCalculator.calculateActivityScore a <= 9.
Proof. unfold PulseCalculator.calculateActivityScore. qcases. Qed.

Lemma calculateMomentumBoost_range (t : CheckInTrend) :
  - 0.5 <= PulseCalculator.calculateMomentumBoost t <= 1.
Proof. destruct t; cbn; lra. Qed.

Lemma calculateVibeBoost_range (sentiment photoCount : Q) :
  0 <= PulseCalculator.calculateVibeBoost sentiment photoCount <= 1.
Proof.
  unfold PulseCalculator.calculateVibeBoost, Math_min. cbv zeta. qcases.
Qed.

Lemma calculateWaitTimeBoost_range (w : option Q) :
  0 <= PulseCalculator.calculateWaitTimeBoost w <= 2.
Proof.
  unfold PulseCalculator.calculateWaitTimeBoost. destruct w as [w|]; [|lra]. qcases.
Qed.

Lemma timeModifier_range (hour weekday : Q) :
  0.5 <= PulseCalculator.timeModifier hour weekday <= 1.15.
Proof.
  unfold PulseCalculator.timeModifier.
  repeat match goal with
         | |- context [if ?c then _ else _] => destruct c
         end; lra.
Qed.

Lemma Math_round_mono (x y : Q) : x <= y -> (Math_round x <= Math_round y)%Z.
Proof. intros H. unfold Math_round. apply Qfloor_resp_le. lra. Qed.

Lemma clamp_mono (lo hi x y : Q) :
  x <= y -> Math_min hi (Math_max lo x) <= Math_min hi (Math_max lo y).
Proof. intros H. unfold Math_min, Math_max. qcases. Qed.

Lemma roundedPulse_mono (p q : Q) :
  p <= q -> PulseCalculator.roundedPulse p <= PulseCalculator.roundedPulse q.
Proof.
  intros H. unfold PulseCalculator.roundedPulse. cbv zeta.
  assert (Hz : (Math_round (Math_min 10 (Math_max 0 p) * 10)
                <= Math_round (Math_min 10 (Math_max 0 q) * 10))%Z).
  { apply Math_round_mono. pose proof (clamp_mono 0 10 p q H). lra. }
  rewrite Zle_Qle in Hz. qlra.
Qed.

Lemma roundedPulse_at_least (p : Q) (k : Z) :
  inject_Z k - (1 # 2) <= p * 10 -> (k <= 100)%Z ->
  inject_Z k / 10 <= PulseCalculator.roundedPulse p.
Proof.
  intros Hp Hk. unfold PulseCalculator.roundedPulse. cbv zeta.
  assert (Hz : (k <= Math_round (Math_min 10 (Math_max 0 p) * 10))%Z).
  { unfold Math_round. rewrite <- (Qfloor_Z k). apply Qfloor_resp_le.
    rewrite Zle_Qle in Hk. change (inject_Z 100) with 100 in Hk.
    unfold Math_min, Math_max. qcases. }
  rewrite Zle_Qle in Hz. qlra.
Qed.

Lemma rawPulse_at_least (metrics : VenueMetrics) :
  1.25 <= PulseCalculator.rawPulse metrics.
Proof.
  unfold PulseCalculator.rawPulse, PulseCalculator.applyTimeModifiers. cbv zeta.
  pose proof (calculateActivityScore_range (activeCheckIns metrics)).
  pose proof (calculateMomentumBoost_range (checkInTrend metrics)).
  pose proof (calculateVibeBoost_range (recentSentiment metrics)
                (vibePhotosCount metrics)).
  pose proof (calculateWaitTimeBoost_range (reportedWaitTime metrics)).
  pose proof (timeModifier_range (hourOfDay metrics) (dayOfWeek metrics)).
  destruct (isSpecialEvent metrics); nra.
Qed.

(** X1.  The score of an onboarded venue is never below 1.3: the part
    before the modifiers is at least 2.5 and the smallest modifier is 0.5,
    so the clamp at 0 never acts. *)
Theorem calculateFromMetrics_at_least (metrics : VenueMetrics) :
  1.3 <= PulseCalculator.calculateFromMetrics metrics.
Proof.
  unfold PulseCalculator.calculateFromMetrics.
  pose proof (rawPulse_at_least metrics) as Hraw.
  pose proof (roundedPulse_at_least (PulseCalculator.rawPulse metrics) 13) as Hk.
  change (inject_Z 13) with 13 in Hk.
  assert (13 / 10 <= PulseCalculator.roundedPulse (PulseCalculator.rawPulse metrics))
    by (apply Hk; [lra | lia]).
  qlra.
Qed.

Lemma rawPulse_mono_activity (a b : Q) (metrics : VenueMetrics) :
  a <= b ->
  PulseCalculator.rawPulse (withActiveCheckIns a metrics)
  <= PulseCalculator.rawPulse (withActiveCheckIns b metrics).
Proof.
  intros Hab.
  unfold PulseCalculator.rawPulse, PulseCalculator.applyTimeModifiers. cbv zeta.
  cbn [activeCheckIns checkInTrend recentSentiment vibePhotosCount reportedWaitTime
       hourOfDay dayOfWeek isSpecialEvent withActiveCheckIns].
  pose proof (calculateActivityScore_mono a b Hab).
  pose proof (timeModifier_range (hourOfDay metrics) (dayOfWeek metrics)).
  destruct (isSpecialEvent metrics); nra.
Qed.

(** X2.  With everything else equal, more active check-ins never lower
    the score, and a special event never lowers it either. *)
Theorem calculateFromMetrics_monotone (a b : Q) (metrics : VenueMetrics) :
  a <= b ->
  PulseCalculator.calculateFromMetrics (withActiveCheckIns a metrics)
  <= PulseCalculator.calculateFromMetrics (withActiveCheckIns b metrics)
  /\ PulseCalculator.calculateFromMetrics (withSpecialEvent false metrics)
     <= PulseCalculator.calculateFromMetrics (withSpecialEvent true metrics).
Proof.
  intros Hab. unfold PulseCalculator.calculateFromMetrics. split.
  - apply roundedPulse_mono. now apply rawPulse_mono_activity.
  - apply roundedPulse_mono.
    unfold PulseCalculator.rawPulse, PulseCalculator.applyTimeModifiers. cbv zeta.
    cbn [activeCheckIns checkInTrend recentSentiment vibePhotosCount reportedWaitTime
         hourOfDay dayOfWeek isSpecialEvent withSpecialEvent].
    pose proof (calculateActivityScore_range (activeCheckIns metrics)).
    pose proof (calculateMomentumBoost_range (checkInTrend metrics)).
    pose proof (calculateVibeBoost_range (recentSentiment metrics)
                  (vibePhotosCount metrics)).
    pose proof (calculateWaitTimeBoost_range (reportedWaitTime metrics)).
    pose proof (timeModifier_range (hourOfDay metrics) (dayOfWeek metrics)).
    nra.
Qed.

Lemma calculateFromMetrics_monotone_witness :
  PulseCalculator.calculateFromMetrics (withActiveCheckIns 4 sampleMetrics)
  <= PulseCalculator.calculateFromMetrics (withActiveCheckIns 60 sampleMetrics).
Proof.
  assert (H : 4 <= 60) by lra.
  exact (proj1 (calculateFromMetrics_monotone 4 60 sampleMetrics H)).
Defined.

(** X3.  The wait boost grows with the reported wait, stays within 0 and
    2, and a wait of zero, a negative wait and no wait at all give no boost. *)
Theorem calculateWaitTimeBoost_monotone (a b : Q) :
  a <= b ->
  PulseCalculator.calculateWaitTimeBoost (Some a)
  <= PulseCalculator.calculateWaitTimeBoost (Some b)
  /\ 0 <= PulseCalculator.calculateWaitTimeBoost (Some a) <= 2
  /\ (a <= 0 ->
      PulseCalculator.calculateWaitTimeBoost (Some a)
      = PulseCalculator.calculateWaitTimeBoost None).
Proof.
  intros Hab. split; [|split].
  - unfold PulseCalculator.calculateWaitTimeBoost. qcases.
  - apply calculateWaitTimeBoost_range.
  - intros Ha. unfold PulseCalculator.calculateWaitTimeBoost. qcases; reflexivity.
Qed.

Lemma calculateWaitTimeBoost_monotone_witness :
  PulseCalculator.calculateWaitTimeBoost (Some 12)
  <= PulseCalculator.calculateWaitTimeBoost (Some 31).
Proof.
  assert (H : 12 <= 31) by lra.
  exact (proj1 (calculateWaitTimeBoost_monotone 12 31 H)).
Defined.

(** X4.  The weekday late-night reduction 0.9 applies exactly from Monday
    to Wednesday in the hour after midnight ([0 < hour <= 1]): at 23h and
    at 0h the evening rule comes first and the modifier is 1.1. *)
Theorem timeModifier_late_night (hour weekday : Q) :
  (PulseCalculator.timeModifier hour weekday == 0.9
   <-> 1 <= weekday <= 3 /\ 0 < hour <= 1)
  /\ (1 <= weekday <= 3 -> 23 <= hour \/ hour <= 0 ->
      PulseCalculator.timeModifier hour weekday == 1.1).
Proof.
  unfold PulseCalculator.timeModifier.
  repeat (qtest; cbn [andb orb]).
  all: split; [split; [intros Heq; try (exfalso; revert Heq; vm_compute; discriminate); lra
                      | intros [[? ?] [? ?]]; try reflexivity; exfalso; lra]
              | intros [? ?] [?|?]; try reflexivity; exfalso; lra].
Qed.

Lemma timeModifier_late_night_witness :
  PulseCalculator.timeModifier 1 2 == 0.9
  /\ PulseCalculator.timeModifier 23 2 == 1.1.
Proof.
  assert (Hday : 1 <= 2 <= 3) by (split; discriminate).
  assert (Hhour : 0 < 1 <= 1) by (split; [reflexivity | discriminate]).
  assert (Hlate : 23 <= 23 \/ 23 <= 0) by (left; discriminate).
  split.
  - exact (proj2 (proj1 (timeModifier_late_night 1 2)) (conj Hday Hhour)).
  - exact (proj2 (timeModifier_late_night 23 2) Hday Hlate).
Defined.

(** X5.  Whatever the level, the converted Google level lies between 3.0
    and 9.5. *)
Theorem convertGoogleToSpree_range (level : Q) :
  3 <= PulseCalculator.convertGoogleToSpree level <= 9.5.
Proof. unfold PulseCalculator.convertGoogleToSpree. qcases. Qed.

(** X6.  For the same volume and age of data the confidence of a Spree
    source is at least that of a community source, which is at least that
    of a Google source. *)
Theorem calculateConfidence_ranked (dataPoints dataAge : Q) :
  PulseCalculator.calculateConfidence dataPoints dataAge PulseCalculator.src_google
  <= PulseCalculator.calculateConfidence dataPoints dataAge PulseCalculator.src_community
  /\ PulseCalculator.calculateConfidence dataPoints dataAge PulseCalculator.src_community
     <= PulseCalculator.calculateConfidence dataPoints dataAge PulseCalculator.src_spree.
Proof.
  unfold PulseCalculator.calculateConfidence, PulseCalculator.freshnessAdjusted,
    PulseCalculator.quantityAdjusted, PulseCalculator.sourceConfidence,
    Math_min, Math_max.
  cbv zeta. split; qcases.
Qed.

(** X7.  The floor 0.1 of the clamp never acts: the confidence is the
    adjusted sum capped at 1.  It is never below 0.29 (the smallest sum,
    0.6 - 0.2 - 0.1, is 0.3 in exact arithmetic; the bound leaves room
    for the rounding of binary floating point), and the cap 1 is
    reached. *)
Theorem calculateConfidence_range
    (dataPoints dataAge : Q) (dataSource : PulseCalculator.ConfidenceSource) :
  let sum :=
    PulseCalculator.freshnessAdjusted
      (PulseCalculator.quantityAdjusted
         (PulseCalculator.sourceConfidence dataSource) dataPoints)
      dataAge in
  0.29 <= PulseCalculator.calculateConfidence dataPoints dataAge dataSource <= 1
  /\ PulseCalculator.calculateConfidence dataPoints dataAge dataSource
     = Math_min 1 sum
  /\ PulseCalculator.calculateConfidence 20 0 PulseCalculator.src_spree == 1.
Proof.
  cbv zeta. split; [|split; [|reflexivity]].
  - unfold PulseCalculator.calculateConfidence, PulseCalculator.freshnessAdjusted,
      PulseCalculator.quantityAdjusted, Math_min, Math_max.
    cbv zeta. destruct dataSource; cbn [PulseCalculator.sourceConfidence]; qcases.
  - unfold PulseCalculator.calculateConfidence. cbv zeta. f_equal.
    unfold Math_max.
    match goal with
    | |- (if 0.1 <=? ?x then _ else _) = _ =>
        destruct (Qleb_spec 0.1 x) as [|Hlow]; [reflexivity | exfalso; revert Hlow]
    end.
    unfold PulseCalculator.freshnessAdjusted, PulseCalculator.quantityAdjusted.
    destruct dataSource; cbn [PulseCalculator.sourceConfidence]; qcases.
Qed.

(** ** The community service *)

(** X8.  The weight of the community data lies between 0 and 0.6 and the
    adjustment between -2 and 2.  From three data points on the weight is
    at least 0.15; it exceeds 0.4 only with a consensus label backed by
    five labelled reports. *)
Theorem calculateInfluence_bounds (consensus : CommunityConsensus) :
  let i := CommunityDataService.calculateInfluence consensus in
  0 <= CommunityDataService.influence i <= 0.6
  /\ - 2 <= CommunityDataService.adjustment i <= 2
  /\ ((3 <= dataPoints consensus)%Z -> 0.15 <= CommunityDataService.influence i)
  /\ (0.4 < CommunityDataService.influence i ->
      consensusVibe consensus <> None /\ (5 <= vibeReports consensus)%Z).
Proof.
  cbv zeta. split; [|split; [|split]].
  - destruct (Z_lt_le_dec (dataPoints consensus) 3) as [Hlt|Hge].
    + unfold CommunityDataService.calculateInfluence.
      destruct (Z.ltb_spec (dataPoints consensus) 3); [cbn; lra | lia].
    + pose proof (calculateInfluence_weight consensus Hge). lra.
  - apply calculateInfluence_adjustment.
  - intros H. apply (calculateInfluence_weight consensus H).
  - unfold CommunityDataService.calculateInfluence.
    destruct (dataPoints consensus <? 3)%Z; cbn [CommunityDataService.influence].
    + intros H. exfalso. lra.
    + unfold Math_min. destruct (consensusVibe consensus).
      * destruct (Z.geb_spec (vibeReports consensus) 5).
        -- intros _. split; [discriminate | lia].
        -- qcases.
      * qcases.
Qed.

Lemma calculateInfluence_bounds_witness :
  0.15 <= CommunityDataService.influence
            (CommunityDataService.calculateInfluence
               (CommunityDataService.getConsensus
                  (quietEnv 60000 21 5) 7 60 packedStore)).
Proof.
  assert (H : (3 <= dataPoints
                      (CommunityDataService.getConsensus
                         (quietEnv 60000 21 5) 7 60 packedStore))%Z)
    by (vm_compute; discriminate).
  exact (proj1 (proj2 (proj2 (calculateInfluence_bounds _))) H).
Defined.

(** X9.  The community step moves an estimate on the scale in the
    direction of the adjustment, and by less than 1.25: with fewer than
    three data points it leaves the estimate as it is; from three on, a
    positive adjustment raises the base and a negative one lowers it (the
    move is the adjustment, at most 2 either way, times the weight, at
    most 0.6).  The Google level of the breakdown is left alone. *)
Theorem applyCommunity_shift
    (communityData : CommunityConsensus) (e : PulseEngine.Estimate) :
  0 <= PulseEngine.basePulse e <= 10 ->
  let e' := PulseEngine.applyCommunity communityData e in
  let i := CommunityDataService.calculateInfluence communityData in
  ((dataPoints communityData < 3)%Z -> e' = e)
  /\ ((3 <= dataPoints communityData)%Z ->
      0 < CommunityDataService.adjustment i ->
      PulseEngine.basePulse e < PulseEngine.basePulse e'
      /\ PulseEngine.basePulse e' < PulseEngine.basePulse e + 1.25)
  /\ ((3 <= dataPoints communityData)%Z ->
      CommunityDataService.adjustment i < 0 ->
      PulseEngine.basePulse e - 1.25 < PulseEngine.basePulse e'
      /\ PulseEngine.basePulse e' < PulseEngine.basePulse e)
  /\ PulseEngine.est_googleBusy e' = PulseEngine.est_googleBusy e.
Proof.
  intros Hbase. cbv zeta. unfold PulseEngine.applyCommunity.
  pose proof (calculateInfluence_adjustment communityData) as Hadj.
  destruct (Z.geb_spec (dataPoints communityData) 3) as [Hge|Hlt].
  - pose proof (calculateInfluence_weight communityData Hge) as Hw.
    destruct (Qgtb_spec
                (CommunityDataService.influence
                   (CommunityDataService.calculateInfluence communityData)) 0)
      as [Hpos|Hneg]; [|exfalso; lra].
    cbn [PulseEngine.basePulse PulseEngine.est_googleBusy].
    split; [intros Hfew; lia|].
    split; [intros _ Hup; split; nra|].
    split; [intros _ Hdown; split; nra | reflexivity].
  - split; [reflexivity|].
    split; [intros Hmany; lia|].
    split; [intros Hmany; lia | reflexivity].
Qed.

Lemma applyCommunity_shift_witness :
  PulseEngine.basePulse PulseEngine.initialEstimate
  < PulseEngine.basePulse
      (PulseEngine.applyCommunity
         (CommunityDataService.getConsensus (quietEnv 60000 21 5) 7 60 packedStore)
         PulseEngine.initialEstimate).
Proof.
  assert (Hbase : 0 <= PulseEngine.basePulse PulseEngine.initialEstimate <= 10)
    by (split; discriminate).
  assert (Hmany : (3 <= dataPoints
                         (CommunityDataService.getConsensus
                            (quietEnv 60000 21 5) 7 60 packedStore))%Z)
    by (vm_compute; discriminate).
  assert (Hup : 0 < CommunityDataService.adjustment
                      (CommunityDataService.calculateInfluence
                         (CommunityDataService.getConsensus
                            (quietEnv 60000 21 5) 7 60 packedStore)))
    by reflexivity.
  exact (proj1 (proj1 (proj2 (applyCommunity_shift _ _ Hbase)) Hmany Hup)).
Defined.

Lemma size_list_to_set_le (l : list string) :
  (size (list_to_set l : gset string) <= length l)%nat.
Proof.
  induction l as [|x l IH]; cbn [list_to_set length].
  - rewrite size_empty. lia.
  - rewrite size_union_alt, size_singleton.
    assert (size (list_to_set l ∖ {[x]} : gset string)
            <= size (list_to_set l : gset string))%nat
      by (apply subseteq_size; intros y Hy; apply elem_of_difference in Hy; tauto).
    lia.
Qed.

Lemma votes_app (vibe : VibeLevel) (l1 l2 : list VibeReportRow) :
  votes vibe (l1 ++ l2) = (votes vibe l1 + votes vibe l2)%Z.
Proof. unfold votes, Zlen. rewrite filter_app, length_app. lia. Qed.

Lemma votes_le_length (reports : list VibeReportRow) :
  (totalVotes reports <= Zlen reports)%Z.
Proof.
  unfold totalVotes. induction reports as [|r reports IH]; [reflexivity|].
  rewrite !votes_cons. unfold Zlen in *. cbn [length].
  repeat case_decide; try congruence; lia.
Qed.

Lemma getConsensus_vibeReports (env : Env) (venueId minutesBack : Z) (s : Store) :
  vibeReports (CommunityDataService.getConsensus env venueId minutesBack s)
  = totalVotes (reportsInWindow env venueId minutesBack s).
Proof.
  unfold CommunityDataService.getConsensus. cbn [vibeReports].
  fold (reportsInWindow env venueId minutesBack s).
  rewrite tally_scores_votes. unfold CommunityDataService.sumScores, totalVotes.
  cbn. lia.
Qed.

Lemma getConsensus_dataPoints (env : Env) (venueId minutesBack : Z) (s : Store) :
  dataPoints (CommunityDataService.getConsensus env venueId minutesBack s)
  = (totalVotes (reportsInWindow env venueId minutesBack s)
     + Zlen (pingsInWindow env venueId minutesBack s)
     + Zlen (signalsInWindow env venueId minutesBack s))%Z.
Proof.
  unfold CommunityDataService.getConsensus. cbn [dataPoints].
  fold (reportsInWindow env venueId minutesBack s).
  fold (pingsInWindow env venueId minutesBack s).
  fold (signalsInWindow env venueId minutesBack s).
  rewrite tally_scores_votes. unfold CommunityDataService.sumScores, totalVotes.
  cbn. lia.
Qed.

(** X10.  In a consensus the number of vibe reports is the number of
    reports of the window that carry a label, the unique devices are at
    most the pings, and the data points are the labelled reports plus the
    pings plus the social signals of the window. *)
Theorem getConsensus_counts (env : Env) (venueId minutesBack : Z) (s : Store) :
  let c := CommunityDataService.getConsensus env venueId minutesBack s in
  vibeReports c = totalVotes (reportsInWindow env venueId minutesBack s)
  /\ (vibeReports c <= Zlen (reportsInWindow env venueId minutesBack s))%Z
  /\ anonymousPings c = Zlen (pingsInWindow env venueId minutesBack s)
  /\ (0 <= uniqueDevices c <= anonymousPings c)%Z
  /\ dataPoints c
     = (totalVotes (reportsInWindow env venueId minutesBack s)
        + Zlen (pingsInWindow env venueId minutesBack s)
        + Zlen (signalsInWindow env venueId minutesBack s))%Z.
Proof.
  cbv zeta. rewrite getConsensus_vibeReports, getConsensus_dataPoints.
  split; [reflexivity|]. split; [apply votes_le_length|].
  unfold CommunityDataService.getConsensus. cbn [anonymousPings uniqueDevices].
  fold (pingsInWindow env venueId minutesBack s).
  split; [reflexivity|]. split; [|reflexivity].
  pose proof (size_list_to_set_le
                (map pr_device_id (pingsInWindow env venueId minutesBack s))) as H.
  rewrite length_map in H. unfold Zlen. lia.
Qed.

Lemma waitsOf_cons (r : VibeReportRow) (reports : list VibeReportRow) :
  waitsOf (r :: reports)
  = match row_wait_time_minutes r with
    | Some w => if (w =? 0)%Z then waitsOf reports else w :: waitsOf reports
    | None => waitsOf reports
    end.
Proof.
  unfold waitsOf. cbn [omap list_omap].
  destruct (row_wait_time_minutes r) as [w|]; [|reflexivity].
  rewrite filter_cons. destruct (Z.eqb_spec w 0); case_decide; try reflexivity; lia.
Qed.

Lemma tally_waits_from (reports : list VibeReportRow) :
  forall acc : CommunityDataService.Tally,
    let t := fold_left CommunityDataService.tallyReport reports acc in
    CommunityDataService.totalWaitTime t
    = (CommunityDataService.totalWaitTime acc + sumZ (waitsOf reports))%Z
    /\ CommunityDataService.waitTimeReports t
       = (CommunityDataService.waitTimeReports acc + Zlen (waitsOf reports))%Z.
Proof.
  induction reports as [|r reports IH]; intros acc; cbv zeta.
  - cbn. unfold Zlen. cbn. lia.
  - cbn [fold_left]. destruct (IH (CommunityDataService.tallyReport acc r)) as [Ht Hn].
    rewrite Ht, Hn, waitsOf_cons. unfold CommunityDataService.tallyReport.
    destruct (row_wait_time_minutes r) as [w|]; [destruct (w =? 0)%Z|];
      cbn [CommunityDataService.totalWaitTime CommunityDataService.waitTimeReports];
      unfold Zlen; cbn [sumZ foldr length]; fold (sumZ (waitsOf reports)); lia.
Qed.

Lemma sumZ_between (lo hi : Z) (l : list Z) :
  Forall (fun w => lo <= w <= hi)%Z l ->
  (lo * Zlen l <= sumZ l <= hi * Zlen l)%Z.
Proof.
  unfold Zlen. induction 1 as [|w l Hw _ IH]; cbn [sumZ foldr length].
  - lia.
  - fold (sumZ l). lia.
Qed.

Lemma getConsensus_averageWaitTime (env : Env) (venueId minutesBack : Z) (s : Store) :
  let waits := waitsOf (reportsInWindow env venueId minutesBack s) in
  averageWaitTime (CommunityDataService.getConsensus env venueId minutesBack s)
  = if (Zlen waits >? 0)%Z
    then Some (inject_Z (sumZ waits) / inject_Z (Zlen waits))
    else None.
Proof.
  cbv zeta. unfold CommunityDataService.getConsensus. cbn [averageWaitTime].
  fold (reportsInWindow env venueId minutesBack s).
  unfold CommunityDataService.tally.
  destruct (tally_waits_from (reportsInWindow env venueId minutesBack s)
              {| CommunityDataService.tally_scores := CommunityDataService.emptyScores;
                 CommunityDataService.totalWaitTime := 0;
                 CommunityDataService.waitTimeReports := 0 |}) as [Ht Hn].
  cbv zeta in Ht, Hn. rewrite Ht, Hn. cbn. reflexivity.
Qed.

(** X11.  The average wait of a consensus is the mean of the waits of
    the reports of the window that are given and not zero, their sum
    divided by their number: it is null exactly when there is none, and
    otherwise it lies between any bounds that hold for those waits. *)
Theorem averageWaitTime_between
    (env : Env) (venueId minutesBack : Z) (s : Store) (lo hi : Z) :
  let waits := waitsOf (reportsInWindow env venueId minutesBack s) in
  let average :=
    averageWaitTime (CommunityDataService.getConsensus env venueId minutesBack s) in
  Forall (fun w => lo <= w <= hi)%Z waits ->
  (average = None <-> waits = [])
  /\ (waits <> [] ->
      average = Some (inject_Z (sumZ waits) / inject_Z (Zlen waits)))
  /\ forall a, average = Some a -> inject_Z lo <= a <= inject_Z hi.
Proof.
  intros waits average Hbounds.
  subst average. rewrite getConsensus_averageWaitTime. fold waits.
  clearbody waits.
  pose proof (sumZ_between lo hi waits Hbounds) as [Hlo Hhi].
  destruct (Z.gtb_spec (Zlen waits) 0) as [Hpos|Hzero].
  - split; [|split; [reflexivity|]].
    + split; [discriminate|]. intros Hnil. rewrite Hnil in Hpos.
      unfold Zlen in Hpos. cbn in Hpos. lia.
    + intros a [= <-].
      assert (Hn : 0 < inject_Z (Zlen waits)).
      { change 0 with (inject_Z 0). rewrite <- Zlt_Qlt. lia. }
      rewrite Zle_Qle, inject_Z_mult in Hlo, Hhi.
      split.
      * apply Qle_shift_div_l; assumption.
      * apply Qle_shift_div_r; assumption.
  - assert (Hnil : waits = []).
    { destruct waits; [reflexivity|]. unfold Zlen in Hzero. cbn in Hzero. lia. }
    split; [split; [intros _; exact Hnil | reflexivity]|].
    split; [intros Hsome; contradiction | intros a [=]].
Qed.

(** Waits of 20 and 40 minutes, a wait of 0 and a missing wait: the mean
    is 30, that of the two waits that count. *)
Lemma averageWaitTime_between_witness :
  exists a,
    averageWaitTime
      (CommunityDataService.getConsensus (quietEnv 60000 21 5) 7 60 waitingStore)
    = Some a
    /\ a == 30
    /\ 20 <= a <= 40.
Proof.
  assert (H : Forall (fun w => 20 <= w <= 40)%Z
                (waitsOf (reportsInWindow (quietEnv 60000 21 5) 7 60 waitingStore)))
    by (vm_compute; repeat constructor; discriminate).
  destruct (averageWaitTime_between (quietEnv 60000 21 5) 7 60 waitingStore 20 40 H)
    as (_ & Hmean & Hbetween).
  eexists. split; [apply Hmean; vm_compute; discriminate|].
  split; [reflexivity|].
  apply Hbetween, Hmean. vm_compute. discriminate.
Defined.

(** X12.  In a table filled by submissions alone, at times that do not
    decrease, a participant has at most one report for a venue in any
    trailing hour that ends at or after the last submission. *)
Theorem reports_at_most_one_per_hour
    (t : Z) (s : Store) (venueId : Z) (userId : string) (current : Z) :
  submittedUpTo t s ->
  (t <= current)%Z ->
  (length (CommunityDataService.recentReportsBy venueId userId (current - 3600000) s)
   <= 1)%nat.
Proof.
  intros Hsub Ht.
  apply submittedUpTo_spaced, (spacedReports_later t current) in Hsub; [|exact Ht].
  destruct Hsub as [Hpast Hspaced].
  exact (recent_at_most_one _ venueId userId current Hpast Hspaced).
Qed.

(** Ana reports at 3 000 000 ms, is refused 59 minutes later, Ben
    reports, and Ana reports again 61 minutes after her first report:
    the table holds two reports of Ana and one of Ben, and at 7 000 000
    ms Ana has one report in the trailing hour. *)
Lemma reports_at_most_one_per_hour_witness :
  let s1 := afterReport (quietEnv 3000000 21 5) (sampleReport 1 "ana" busy) emptyStore in
  let s2 := afterReport (quietEnv 6600000 21 5) (sampleReport 1 "ben" chill) s1 in
  let s3 := afterReport (quietEnv 6660000 21 5) (sampleReport 1 "ana" packed) s2 in
  CommunityDataService.submitVibeReport
    (quietEnv 6540000 21 5) (sampleReport 1 "ana" dead) s1
  = (Throw RateLimited, s1)
  /\ length (community_vibe_reports s3) = 3%nat
  /\ (length (CommunityDataService.recentReportsBy 1 "ana" (7000000 - 3600000) s3)
      <= 1)%nat.
Proof.
  intros s1 s2 s3.
  assert (Hrefused :
            CommunityDataService.submitVibeReport
              (quietEnv 6540000 21 5) (sampleReport 1 "ana" dead) s1
            = (Throw RateLimited, s1)) by reflexivity.
  assert (H1 : submittedUpTo 3000000 s1).
  { apply (submitted_report 0 emptyStore s1 (quietEnv 3000000 21 5)
             (sampleReport 1 "ana" busy) (Ok tt)).
    - apply submitted_none. reflexivity.
    - cbn. lia.
    - reflexivity. }
  assert (H1' : submittedUpTo 6540000 s1).
  { apply (submitted_report 3000000 s1 s1 (quietEnv 6540000 21 5)
             (sampleReport 1 "ana" dead) (Throw RateLimited)).
    - exact H1.
    - cbn. lia.
    - exact Hrefused. }
  assert (H2 : submittedUpTo 6600000 s2).
  { apply (submitted_report 6540000 s1 s2 (quietEnv 6600000 21 5)
             (sampleReport 1 "ben" chill) (Ok tt)).
    - exact H1'.
    - cbn. lia.
    - reflexivity. }
  assert (H3 : submittedUpTo 6660000 s3).
  { apply (submitted_report 6600000 s2 s3 (quietEnv 6660000 21 5)
             (sampleReport 1 "ana" packed) (Ok tt)).
    - exact H2.
    - cbn. lia.
    - reflexivity. }
  split; [exact Hrefused|]. split; [reflexivity|].
  assert (Ht : (6660000 <= 7000000)%Z) by lia.
  exact (reports_at_most_one_per_hour 6660000 s3 1 "ana" 7000000 H3 Ht).
Defined.

(** X13.  An accepted report counts at once: the consensus of its venue,
    whatever the window, has one more vibe report and one more data point,
    and the consensus of every other venue is unchanged. *)
Theorem accepted_report_is_counted
    (env : Env) (report : QuickVibeReport) (s s' : Store) (venueId minutesBack : Z) :
  CommunityDataService.submitVibeReport env report s = (Ok tt, s') ->
  (0 <= minutesBack)%Z ->
  (venueId = venue_id report ->
   vibeReports (CommunityDataService.getConsensus env venueId minutesBack s')
   = (vibeReports (CommunityDataService.getConsensus env venueId minutesBack s) + 1)%Z
   /\ dataPoints (CommunityDataService.getConsensus env venueId minutesBack s')
      = (dataPoints (CommunityDataService.getConsensus env venueId minutesBack s) + 1)%Z)
  /\ (venueId <> venue_id report ->
      CommunityDataService.getConsensus env venueId minutesBack s'
      = CommunityDataService.getConsensus env venueId minutesBack s).
Proof.
  intros Hrun Hwindow.
  rewrite submitVibeReport_cases in Hrun. cbv zeta in Hrun.
  destruct (single _); [discriminate|].
  destruct (rejects env _); [discriminate|].
  injection Hrun as <-.
  assert (Hreports :
            reportsInWindow env venueId minutesBack (afterReport env report s)
            = reportsInWindow env venueId minutesBack s
              ++ (if decide (venueId = venue_id report)
                  then [CommunityDataService.vibeReportRow report (now env)]
                  else [])).
  { unfold reportsInWindow. cbn [community_vibe_reports afterReport
      CommunityDataService.insertUserPoints CommunityDataService.insertVibeReport].
    rewrite filter_app. f_equal.
    case_decide as Hv.
    - rewrite filter_cons_True; [reflexivity|]. cbn. split; [congruence | lia].
    - rewrite filter_cons_False; [reflexivity|]. cbn. intros [Heq _]. congruence. }
  split.
  - intros Hv.
    rewrite !getConsensus_vibeReports, !getConsensus_dataPoints, Hreports.
    rewrite decide_True by exact Hv.
    unfold totalVotes. rewrite !votes_app.
    unfold pingsInWindow, signalsInWindow. cbn [anonymous_pings social_signals afterReport
      CommunityDataService.insertUserPoints CommunityDataService.insertVibeReport].
    unfold votes, Zlen. cbn.
    split; destruct (vibe_level report); repeat case_decide; try congruence;
      cbn [length]; lia.
  - intros Hv.
    rewrite decide_False, app_nil_r in Hreports by exact Hv.
    unfold CommunityDataService.getConsensus.
    fold (reportsInWindow env venueId minutesBack (afterReport env report s)).
    fold (reportsInWindow env venueId minutesBack s).
    rewrite Hreports. reflexivity.
Qed.

Lemma accepted_report_is_counted_witness :
  dataPoints
    (CommunityDataService.getConsensus (quietEnv 0 21 5) 1 60
       (afterReport (quietEnv 0 21 5) (sampleReport 1 "ana" busy) emptyStore))
  = (dataPoints
       (CommunityDataService.getConsensus (quietEnv 0 21 5) 1 60 emptyStore) + 1)%Z.
Proof.
  assert (Hrun :
            CommunityDataService.submitVibeReport (quietEnv 0 21 5)
              (sampleReport 1 "ana" busy) emptyStore
            = (Ok tt, afterReport (quietEnv 0 21 5) (sampleReport 1 "ana" busy)
                        emptyStore)) by reflexivity.
  assert (Hwindow : (0 <= 60)%Z) by lia.
  exact (proj2 (proj1 (accepted_report_is_counted _ _ _ _ 1 60 Hrun Hwindow) eq_refl)).
Defined.

(** The outcomes of a ping: nothing when exactly one recent ping of the
    device is found, a new row otherwise; never an error. *)
Lemma submitAnonymousPing_cases (env : Env) (ping : AnonymousPing) (s : Store) :
  CommunityDataService.submitAnonymousPing env ping s
  = match single (CommunityDataService.recentPingsBy
                    (ping_venue_id ping) (device_id ping) (now env - 3600000) s) with
    | Some _ => (Ok tt, s)
    | None => (Ok tt, afterPing env ping s)
    end.
Proof.
  unfold CommunityDataService.submitAnonymousPing, bind, gets.
  change (60 * 60 * 1000)%Z with 3600000%Z.
  destruct (single _); reflexivity.
Qed.

Lemma recent_pings_at_most_one (rows : list PingRow) (venueId : Z) (deviceId : string)
    (t : Z) :
  Forall (fun r => (pr_created_at r <= t)%Z) rows ->
  ForallOrdPairs
    (fun r1 r2 => sameDevice r1 r2 -> (pr_created_at r1 + 3600000 < pr_created_at r2)%Z)
    rows ->
  (length
     (filter (fun r => pr_venue_id r = venueId /\ pr_device_id r = deviceId
                       /\ (t - 3600000 <= pr_created_at r)%Z) rows) <= 1)%nat.
Proof.
  intros Hpast Hspaced.
  induction Hspaced as [|r rows Hr Hrows IH]; [cbn; lia|].
  apply Forall_cons in Hpast as [Hrt Hpast].
  rewrite filter_cons. case_decide as Hin; [|now apply IH].
  rewrite filter_none; [cbn; lia|].
  intros r' Hr' (Hv & Hu & Ht).
  rewrite Forall_forall in Hr, Hpast.
  assert (pr_created_at r + 3600000 < pr_created_at r')%Z.
  { apply Hr; [exact Hr'|]. unfold sameDevice. destruct Hin as (-> & -> & _). auto. }
  specialize (Hpast r' Hr'). cbn in Hpast. lia.
Qed.

(** The invariant of the pings is kept by every ping sent when the clock
    has not gone back. *)
Lemma submitAnonymousPing_keeps_spacing
    (env : Env) (ping : AnonymousPing) (s s' : Store) (t : Z) (r : result unit) :
  spacedPings t s ->
  (t <= now env)%Z ->
  CommunityDataService.submitAnonymousPing env ping s = (r, s') ->
  spacedPings (now env) s'.
Proof.
  intros [Hpast Hspaced] Ht Hrun.
  assert (Hpast' : Forall (fun r => (pr_created_at r <= now env)%Z) (anonymous_pings s)).
  { eapply Forall_impl; [exact Hpast|]. cbn. intros; lia. }
  rewrite submitAnonymousPing_cases in Hrun.
  pose proof (recent_pings_at_most_one _ (ping_venue_id ping) (device_id ping) _
                Hpast' Hspaced) as Hlen.
  fold (CommunityDataService.recentPingsBy
          (ping_venue_id ping) (device_id ping) (now env - 3600000) s) in Hlen.
  destruct (CommunityDataService.recentPingsBy _ _ _ s) as [|p [|p' rest]] eqn:Hrecent.
  - cbn in Hrun. injection Hrun as _ <-. split; cbn.
    + apply Forall_app. split; [exact Hpast'|]. constructor; [cbn; lia | constructor].
    + apply ForallOrdPairs_snoc; [exact Hspaced|].
      rewrite Forall_forall. intros q Hq [Hv Hu]. cbn in Hv, Hu |- *.
      destruct (Z_lt_le_dec (pr_created_at q + 3600000) (now env)) as [|Hge];
        [assumption|exfalso].
      eapply (filter_nil_not_elem_of _ _ q Hrecent); [|exact Hq].
      cbn. repeat split; [assumption | assumption | lia].
  - cbn in Hrun. injection Hrun as _ <-. split; assumption.
  - cbn in Hlen. lia.
Qed.




(** ** The engine *)

Lemma applyGoogle_level (env : Env) (venue : VenueRecord) :
  PulseEngine.applyGoogle env venue PulseEngine.initialEstimate
  = match googleLevel env venue with
    | Some level =>
        {| PulseEngine.basePulse := PulseCalculator.convertGoogleToSpree level;
           PulseEngine.est_confidence := 0.6;
           PulseEngine.est_dataSource := GOOGLE;
           PulseEngine.est_googleBusy := level |}
    | None => PulseEngine.initialEstimate
    end.
Proof.
  unfold PulseEngine.applyGoogle, googleLevel.
  destruct (google_place_id venue) as [placeId|]; [|reflexivity].
  destruct (String.eqb placeId ""); [reflexivity|].
  destruct (getBusyness env placeId) as [[googleData|]|]; try reflexivity.
  destruct (currentBusyness googleData >? 0); reflexivity.
Qed.

Lemma applyCommunity_confidence
    (communityData : CommunityConsensus) (e : PulseEngine.Estimate) :
  0.5 <= PulseEngine.est_confidence e <= 0.6 ->
  0.5 <= PulseEngine.est_confidence (PulseEngine.applyCommunity communityData e) <= 0.8.
Proof.
  intros Hc. unfold PulseEngine.applyCommunity.
  destruct (Z.geb_spec (dataPoints communityData) 3) as [Hge|Hlt]; [|lra].
  pose proof (calculateInfluence_weight communityData Hge) as Hw.
  destruct (Qgtb_spec
              (CommunityDataService.influence
                 (CommunityDataService.calculateInfluence communityData)) 0);
    cbn [PulseEngine.est_confidence]; [|lra].
  unfold Math_min. qcases.
Qed.

Lemma applyGoogle_not_spree (env : Env) (venue : VenueRecord) :
  PulseEngine.est_dataSource
    (PulseEngine.applyGoogle env venue PulseEngine.initialEstimate) <> SPREE.
Proof.
  rewrite applyGoogle_level. destruct (googleLevel env venue); discriminate.
Qed.

Lemma applyCommunity_source
    (communityData : CommunityConsensus) (e : PulseEngine.Estimate) :
  PulseEngine.est_dataSource (PulseEngine.applyCommunity communityData e) = COMMUNITY
  \/ PulseEngine.est_dataSource (PulseEngine.applyCommunity communityData e)
     = PulseEngine.est_dataSource e.
Proof.
  unfold PulseEngine.applyCommunity.
  destruct (dataPoints communityData >=? 3)%Z; [|now right].
  destruct (_ >? 0); [|now right].
  cbn. destruct (dataPoints communityData >=? 10)%Z; [now left | now right].
Qed.

Lemma calculateNonPartnerPulse_result (env : Env) (venue : VenueRecord) (s : Store) :
  PulseEngine.calculateNonPartnerPulse env venue s
  = (Ok (PulseEngine.finishEstimate env
           (CommunityDataService.getConsensus env (rec_id venue) 60 s)
           (PulseEngine.applyCommunity
              (CommunityDataService.getConsensus env (rec_id venue) 60 s)
              (PulseEngine.applyGoogle env venue PulseEngine.initialEstimate))), s).
Proof. reflexivity. Qed.

(** The four outcomes of [calculatePulse]. *)
Lemma calculatePulse_cases (env : Env) (venueId : Z) (s : Store) :
  PulseEngine.calculatePulse env venueId s
  = match venues s !! venueId with
    | None => (Ok (PulseEngine.getDefaultPulse env), s)
    | Some venue =>
        if spree_onboarded venue then
          match getVenueMetrics env (rec_id venue) with
          | Ok metrics =>
              if throws env (InsertCalculationLog (rec_id venue))
              then (Ok (PulseEngine.getDefaultPulse env), s)
              else
                (Ok (spreePulseOf env metrics),
                 PulseEngine.insertCalculationLog
                   {| log_venue_id := rec_id venue;
                      calculated_pulse := PulseCalculator.calculateFromMetrics metrics;
                      log_data_source := SPREE;
                      log_confidence := 0.95;
                      log_metrics := Some metrics |} s)
          | Throw _ => (Ok (PulseEngine.getDefaultPulse env), s)
          end
        else PulseEngine.calculateNonPartnerPulse env venue s
    end.
Proof.
  unfold PulseEngine.calculatePulse, try_catch, bind, PulseEngine.getVenue, gets.
  destruct (venues s !! venueId) as [venue|]; [|reflexivity].
  destruct (spree_onboarded venue); [|rewrite calculateNonPartnerPulse_result; reflexivity].
  unfold PulseEngine.calculateSpreePulse, bind, lift.
  destruct (getVenueMetrics env (rec_id venue)) as [metrics|e]; [|reflexivity].
  unfold PulseEngine.logCalculation.
  destruct (throws env _); reflexivity.
Qed.

(** X15.  Whatever the venue id, the store and the outside world,
    [calculate] returns a score: its value is a number of tenths between
    0 and 10, its confidence lies between 0.3 and 0.95, and the source is
    SPREE only with confidence 0.95. *)
Theorem calculate_postcondition (env : Env) (venueId : Z) (s : Store) :
  exists pulse s',
    Pulse.calculate env venueId s = (Ok pulse, s')
    /\ 0 <= value pulse <= 10
    /\ (exists k : Z, value pulse == inject_Z k / 10)
    /\ 0.3 <= confidence pulse <= 0.95
    /\ (dataSource pulse = SPREE <-> confidence pulse == 0.95).
Proof.
  unfold Pulse.calculate. rewrite calculatePulse_cases.
  assert (Hdefault :
            0 <= value (PulseEngine.getDefaultPulse env) <= 10
            /\ (exists k : Z, value (PulseEngine.getDefaultPulse env) == inject_Z k / 10)
            /\ 0.3 <= confidence (PulseEngine.getDefaultPulse env) <= 0.95
            /\ (dataSource (PulseEngine.getDefaultPulse env) = SPREE
                <-> confidence (PulseEngine.getDefaultPulse env) == 0.95)).
  { cbn. split; [lra|]. split; [exists 50%Z; reflexivity|]. split; [lra|].
    split; [discriminate | intros H; exfalso; revert H; vm_compute; discriminate]. }
  destruct (venues s !! venueId) as [venue|]; [|eauto].
  destruct (spree_onboarded venue).
  - destruct (getVenueMetrics env (rec_id venue)) as [metrics|e]; [|eauto].
    destruct (throws env _); [eauto|].
    do 2 eexists. split; [reflexivity|].
    cbn [value confidence dataSource spreePulseOf].
    unfold PulseCalculator.calculateFromMetrics.
    split; [apply roundedPulse_bounds|].
    split.
    { destruct (roundedPulse_tenths (PulseCalculator.rawPulse metrics)) as (k & _ & Hk).
      exists k. rewrite Hk. reflexivity. }
    split; [lra|]. split; reflexivity.
  - rewrite calculateNonPartnerPulse_result.
    do 2 eexists. split; [reflexivity|].
    cbn [value confidence dataSource PulseEngine.finishEstimate].
    split; [apply roundedPulse_bounds|].
    split.
    { destruct (roundedPulse_tenths
                  (PulseCalculator.applyTimeModifiers
                     (PulseEngine.basePulse
                        (PulseEngine.applyCommunity
                           (CommunityDataService.getConsensus env (rec_id venue) 60 s)
                           (PulseEngine.applyGoogle env venue
                              PulseEngine.initialEstimate)))
                     (hours env) (day env))) as (k & _ & Hk).
      exists k. rewrite Hk. reflexivity. }
    pose proof (applyGoogle_initial env venue) as [Hsrc Hc]. cbv zeta in Hsrc, Hc.
    pose proof (applyCommunity_confidence
                  (CommunityDataService.getConsensus env (rec_id venue) 60 s)
                  (PulseEngine.applyGoogle env venue PulseEngine.initialEstimate)) as H.
    assert (Hrange : 0.5 <= PulseEngine.est_confidence
                              (PulseEngine.applyCommunity
                                 (CommunityDataService.getConsensus env (rec_id venue) 60 s)
                                 (PulseEngine.applyGoogle env venue
                                    PulseEngine.initialEstimate)) <= 0.8)
      by (destruct Hc as [Hc|Hc]; rewrite Hc in H; apply H; lra).
    split; [lra|]. split.
    + intros Hspree. exfalso.
      destruct (applyCommunity_source
                  (CommunityDataService.getConsensus env (rec_id venue) 60 s)
                  (PulseEngine.applyGoogle env venue PulseEngine.initialEstimate))
        as [Hs|Hs]; rewrite Hs in Hspree; [discriminate|].
      exact (applyGoogle_not_spree env venue Hspree).
    + intros Heq. exfalso. lra.
Qed.

Lemma calculate_only_logs (env : Env) (venueId : Z) (s s' : Store) (pulse : PulseData) :
  PulseEngine.calculatePulse env venueId s = (Ok pulse, s') -> sameButLog s s'.
Proof.
  rewrite calculatePulse_cases.
  assert (Hsame : sameButLog s s) by (repeat split).
  destruct (venues s !! venueId) as [venue|].
  2:{ intros [= _ <-]. exact Hsame. }
  destruct (spree_onboarded venue).
  - destruct (getVenueMetrics env (rec_id venue)) as [metrics|e].
    2:{ intros [= _ <-]. exact Hsame. }
    destruct (throws env _); intros [= _ <-]; [exact Hsame | repeat split].
  - rewrite calculateNonPartnerPulse_result. intros [= _ <-]. exact Hsame.
Qed.

(** X16.  [calculate] leaves the venues, the vibe reports, the pings,
    the social signals, the points and the pulse history as they are,
    and adds at most one row to the calculation log; that row is written
    for a score of source SPREE and carries the returned value.  (The
    busyness cache that [getBusyness] fills on a miss is a table of the
    busyness service, see [GoogleBusynessServiceCache].) *)
Theorem calculate_leaves_the_tables (env : Env) (venueId : Z) (s s' : Store)
    (pulse : PulseData) :
  Pulse.calculate env venueId s = (Ok pulse, s') ->
  venues s' = venues s
  /\ community_vibe_reports s' = community_vibe_reports s
  /\ anonymous_pings s' = anonymous_pings s
  /\ social_signals s' = social_signals s
  /\ user_points s' = user_points s
  /\ pulse_history s' = pulse_history s
  /\ (pulse_calculations_log s' = pulse_calculations_log s
      \/ exists row,
           pulse_calculations_log s' = pulse_calculations_log s ++ [row]
           /\ calculated_pulse row = value pulse
           /\ log_data_source row = SPREE
           /\ dataSource pulse = SPREE).
Proof.
  intros Hrun.
  pose proof (calculate_only_logs env venueId s s' pulse Hrun)
    as (Hv & Hr & Hp & Hs & Hu & Hh & _).
  do 6 (split; [assumption|]).
  revert Hrun. unfold Pulse.calculate. rewrite calculatePulse_cases.
  destruct (venues s !! venueId) as [venue|].
  2:{ intros [= _ <-]. auto. }
  destruct (spree_onboarded venue).
  - destruct (getVenueMetrics env (rec_id venue)) as [metrics|e].
    2:{ intros [= _ <-]. auto. }
    destruct (throws env _).
    + intros [= _ <-]. auto.
    + intros [= <- <-]. right. eexists. split; [reflexivity|]. repeat split.
  - rewrite calculateNonPartnerPulse_result. intros [= _ <-]. auto.
Qed.

Lemma calculate_leaves_the_tables_witness :
  exists row,
    pulse_calculations_log (snd (Pulse.calculate (partnerEnv false) 3 partnerStore))
    = pulse_calculations_log partnerStore ++ [row]
    /\ calculated_pulse row = value (spreePulseOf (partnerEnv false) sampleMetrics).
Proof.
  destruct (calculate_leaves_the_tables (partnerEnv false) 3 partnerStore
              (snd (Pulse.calculate (partnerEnv false) 3 partnerStore))
              (spreePulseOf (partnerEnv false) sampleMetrics) eq_refl)
    as (_ & _ & _ & _ & _ & _ & [Hsame | (row & Hrow & Hvalue & _)]).
  - exfalso. revert Hsame. vm_compute. discriminate.
  - exists row. split; [exact Hrow | exact Hvalue].
Defined.

(** X17.  For an onboarded venue whose metrics are available the score is
    the one computed from the metrics, with confidence 0.95 and source
    SPREE, and one row goes to the calculation log; when the insertion
    into the log throws, the computed score is lost and the default score
    is returned instead. *)
Theorem partner_score_and_its_log
    (env : Env) (venueId : Z) (s : Store) (venue : VenueRecord) (metrics : VenueMetrics) :
  venues s !! venueId = Some venue ->
  spree_onboarded venue = true ->
  getVenueMetrics env (rec_id venue) = Ok metrics ->
  (throws env (InsertCalculationLog (rec_id venue)) = false ->
   exists s',
     Pulse.calculate env venueId s = (Ok (spreePulseOf env metrics), s')
     /\ pulse_calculations_log s'
        = pulse_calculations_log s
          ++ [{| log_venue_id := rec_id venue;
                 calculated_pulse := PulseCalculator.calculateFromMetrics metrics;
                 log_data_source := SPREE;
                 log_confidence := 0.95;
                 log_metrics := Some metrics |}])
  /\ (throws env (InsertCalculationLog (rec_id venue)) = true ->
      Pulse.calculate env venueId s = (Ok (PulseEngine.getDefaultPulse env), s)).
Proof.
  intros Hvenue Hon Hmetrics.
  unfold Pulse.calculate. rewrite calculatePulse_cases, Hvenue, Hon, Hmetrics.
  split; intros ->; [|reflexivity].
  eexists. split; reflexivity.
Qed.

Lemma partner_score_and_its_log_witness :
  Pulse.calculate (partnerEnv true) 3 partnerStore
  = (Ok (PulseEngine.getDefaultPulse (partnerEnv true)), partnerStore).
Proof.
  exact (proj2 (partner_score_and_its_log (partnerEnv true) 3 partnerStore
                  (plainVenue 3 "Partner" true) sampleMetrics
                  eq_refl eq_refl eq_refl) eq_refl).
Defined.

(** X18.  For a venue that is not onboarded the source of the score is
    COMMUNITY when the consensus has ten data points or more, otherwise
    GOOGLE when a positive Google level was obtained, otherwise ESTIMATED;
    the breakdown carries that Google level (0 without one) and the
    number of data points; unlike the score of a partner, it leaves no
    row in the calculation log. *)
Theorem sparse_provenance (env : Env) (venueId : Z) (s : Store) (venue : VenueRecord) :
  venues s !! venueId = Some venue ->
  spree_onboarded venue = false ->
  let communityData := CommunityDataService.getConsensus env (rec_id venue) 60 s in
  exists pulse s',
    Pulse.calculate env venueId s = (Ok pulse, s')
    /\ pulse_calculations_log s' = pulse_calculations_log s
    /\ dataSource pulse
       = (if (dataPoints communityData >=? 10)%Z then COMMUNITY
          else match googleLevel env venue with
               | Some _ => GOOGLE
               | None => ESTIMATED
               end)
    /\ breakdown pulse
       = Some {| checkIns := None;
                 googleBusy := Some (default 0 (googleLevel env venue));
                 communityReports := Some (dataPoints communityData);
                 waitTime := None;
                 vibeScore := None |}.
Proof.
  intros Hvenue Hoff communityData.
  unfold Pulse.calculate.
  rewrite calculatePulse_cases, Hvenue, Hoff, calculateNonPartnerPulse_result.
  fold communityData. eexists. exists s. split; [reflexivity|].
  split; [reflexivity|].
  cbn [dataSource breakdown PulseEngine.finishEstimate].
  rewrite applyGoogle_level. unfold PulseEngine.applyCommunity.
  destruct (Z.geb_spec (dataPoints communityData) 3) as [Hge|Hlt].
  - pose proof (calculateInfluence_weight communityData Hge) as Hw.
    destruct (Qgtb_spec
                (CommunityDataService.influence
                   (CommunityDataService.calculateInfluence communityData)) 0)
      as [_|Hneg]; [|exfalso; lra].
    cbn [PulseEngine.est_dataSource PulseEngine.est_googleBusy].
    destruct (googleLevel env venue);
      destruct (dataPoints communityData >=? 10)%Z; split; reflexivity.
  - destruct (Z.geb_spec (dataPoints communityData) 10); [lia|].
    destruct (googleLevel env venue); split; reflexivity.
Qed.

Lemma sparse_provenance_witness :
  exists pulse s',
    Pulse.calculate (googleEnv 60000 21 5) 1 googleStore = (Ok pulse, s')
    /\ dataSource pulse = COMMUNITY
    /\ googleBusy <$> breakdown pulse = Some (Some 45).
Proof.
  destruct (sparse_provenance (googleEnv 60000 21 5) 1 googleStore googleVenue
              eq_refl eq_refl) as (pulse & s' & Hrun & _ & Hsource & Hbreakdown).
  exists pulse, s'. split; [exact Hrun|]. split; [exact Hsource|].
  rewrite Hbreakdown. reflexivity.
Defined.

Lemma roundedPulse_at_most (p : Q) (k : Z) :
  p * 10 < inject_Z k + (1 # 2) -> (0 <= k)%Z ->
  PulseCalculator.roundedPulse p <= inject_Z k / 10.
Proof.
  intros Hp Hk. unfold PulseCalculator.roundedPulse. cbv zeta.
  assert (Hz : (Math_round (Math_min 10 (Math_max 0 p) * 10) <= k)%Z).
  { unfold Math_round.
    destruct (Z_lt_le_dec k (Qfloor (Math_min 10 (Math_max 0 p) * 10 + (1 # 2))))
      as [Hgt|]; [exfalso|assumption].
    pose proof (Qfloor_le (Math_min 10 (Math_max 0 p) * 10 + (1 # 2))) as Hf.
    assert (inject_Z (k + 1)
            <= inject_Z (Qfloor (Math_min 10 (Math_max 0 p) * 10 + (1 # 2)))) as Hk1
      by (rewrite <- Zle_Qle; lia).
    rewrite inject_Z_plus in Hk1. change (inject_Z 1) with 1 in Hk1.
    rewrite Zle_Qle in Hk. change (inject_Z 0) with 0 in Hk.
    revert Hf Hk1. unfold Math_min, Math_max. qcases. }
  rewrite Zle_Qle in Hz. qlra.
Qed.

(** X19.  A venue that is not onboarded, without a usable Google level and
    with fewer than three community data points, gets the neutral base
    5.0 times the modifier of the hour: a value between 2.5 and 5.8 that
    depends on the clock alone, with confidence 0.5 and source ESTIMATED. *)
Theorem sparse_without_signal (env : Env) (venueId : Z) (s : Store) (venue : VenueRecord) :
  venues s !! venueId = Some venue ->
  spree_onboarded venue = false ->
  googleLevel env venue = None ->
  (dataPoints (CommunityDataService.getConsensus env (rec_id venue) 60 s) < 3)%Z ->
  exists pulse,
    Pulse.calculate env venueId s = (Ok pulse, s)
    /\ value pulse
       = PulseCalculator.roundedPulse
           (5.0 * PulseCalculator.timeModifier (hours env) (day env))
    /\ 2.5 <= value pulse <= 5.8
    /\ confidence pulse = 0.5
    /\ dataSource pulse = ESTIMATED.
Proof.
  intros Hvenue Hoff Hgoogle Hfew.
  unfold Pulse.calculate.
  rewrite calculatePulse_cases, Hvenue, Hoff, calculateNonPartnerPulse_result.
  eexists. split; [reflexivity|].
  rewrite applyGoogle_level, Hgoogle. unfold PulseEngine.applyCommunity.
  destruct (Z.geb_spec
              (dataPoints (CommunityDataService.getConsensus env (rec_id venue) 60 s)) 3);
    [lia|].
  cbn [value confidence dataSource PulseEngine.finishEstimate
       PulseEngine.basePulse PulseEngine.est_confidence PulseEngine.est_dataSource
       PulseEngine.initialEstimate].
  unfold PulseCalculator.applyTimeModifiers.
  split; [reflexivity|]. split; [|split; reflexivity].
  pose proof (timeModifier_range (hours env) (day env)) as Hm.
  pose proof (roundedPulse_at_least
                (5.0 * PulseCalculator.timeModifier (hours env) (day env)) 25) as Hlo.
  pose proof (roundedPulse_at_most
                (5.0 * PulseCalculator.timeModifier (hours env) (day env)) 58) as Hhi.
  change (inject_Z 25) with 25 in Hlo. change (inject_Z 58) with 58 in Hhi.
  assert (25 / 10 <= PulseCalculator.roundedPulse
                       (5.0 * PulseCalculator.timeModifier (hours env) (day env)))
    by (apply Hlo; [lra | lia]).
  assert (PulseCalculator.roundedPulse
            (5.0 * PulseCalculator.timeModifier (hours env) (day env)) <= 58 / 10)
    by (apply Hhi; [lra | lia]).
  qlra.
Qed.

Lemma sparse_without_signal_witness :
  exists pulse,
    Pulse.calculate (quietEnv 60000 21 5) 1
      (withVenues [plainVenue 1 "Venue 1" false] emptyStore)
    = (Ok pulse, withVenues [plainVenue 1 "Venue 1" false] emptyStore)
    /\ confidence pulse = 0.5.
Proof.
  assert (Hfew :
            (dataPoints
               (CommunityDataService.getConsensus (quietEnv 60000 21 5)
                  (rec_id (plainVenue 1 "Venue 1" false)) 60
                  (withVenues [plainVenue 1 "Venue 1" false] emptyStore)) < 3)%Z)
    by (vm_compute; reflexivity).
  destruct (sparse_without_signal (quietEnv 60000 21 5) 1
              (withVenues [plainVenue 1 "Venue 1" false] emptyStore)
              (plainVenue 1 "Venue 1" false) eq_refl eq_refl eq_refl Hfew)
    as (pulse & Hrun & _ & _ & Hc & _).
  exists pulse. split; [exact Hrun | exact Hc].
Defined.

(** ** The batch service *)

(** X20.  [updateVenue] stores the score it returns, which is the one
    that [calculate] returns: after a successful call the row of the
    venue carries the value in [pulse], the confidence, the source and
    the date of the score in their columns and keeps its other columns,
    a venue that has no row gets none, every other row is as before and
    no history row is added; when the update throws, the error reaches
    the caller and no row has changed. *)
Theorem updateVenue_stores_the_score (env : Env) (venueId : Z) (s : Store) :
  (throws env (UpdateVenuePulse venueId) = false ->
   exists score s',
     Pulse.updateVenue env venueId s = (Ok score, s')
     /\ fst (Pulse.calculate env venueId s) = Ok score
     /\ (forall row,
           venues s !! venueId = Some row ->
           exists row',
             venues s' !! venueId = Some row'
             /\ pulse row' = value score
             /\ pulse_confidence row' = Some (confidence score)
             /\ pulse_data_source row' = Some (dataSource score)
             /\ pulse_updated_at row' = Some (lastUpdated score)
             /\ staticOf row' = staticOf row)
     /\ (venues s !! venueId = None -> venues s' !! venueId = None)
     /\ (forall other, other <> venueId -> venues s' !! other = venues s !! other)
     /\ pulse_history s' = pulse_history s)
  /\ (throws env (UpdateVenuePulse venueId) = true ->
      exists s',
        Pulse.updateVenue env venueId s = (Throw DatabaseError, s')
        /\ venues s' = venues s).
Proof.
  unfold Pulse.updateVenue, Pulse.calculate, PulseBatchUpdateService.updateVenue, bind.
  destruct (PulseEngine.calculatePulse env venueId s) as [[score|e] s1] eqn:Hcalc.
  2:{ destruct (calculatePulse_never_throws env venueId s) as (p & s2 & Hp).
      congruence. }
  pose proof (calculate_only_logs env venueId s s1 score Hcalc)
    as (Hv & _ & _ & _ & _ & Hh & _).
  unfold PulseBatchUpdateService.updateVenuePulse.
  split; intros ->; cbn.
  - exists score. eexists. split; [reflexivity|]. split; [reflexivity|]. cbn.
    rewrite Hv, Hh. split; [|split; [|split; [|reflexivity]]].
    + intros row Hrow. eexists. rewrite lookup_alter_eq, Hrow. cbn.
      split; [reflexivity|]. repeat split.
    + intros Hnone. now rewrite lookup_alter_eq, Hnone.
    + intros other Hother. now apply lookup_alter_ne.
  - eexists. split; [reflexivity | exact Hv].
Qed.

Lemma updateVenue_stores_the_score_witness :
  exists score s' row',
    Pulse.updateVenue (quietEnv 60000 21 5) 1 communityStore = (Ok score, s')
    /\ venues s' !! 1%Z = Some row'
    /\ pulse row' = value score
    /\ pulse_data_source row' = Some (dataSource score).
Proof.
  destruct (proj1 (updateVenue_stores_the_score (quietEnv 60000 21 5) 1 communityStore)
              eq_refl) as (score & s' & Hrun & _ & Hrow & _).
  destruct (Hrow (plainVenue 1 "Venue 1" false) eq_refl)
    as (row' & Hrow' & Hvalue & _ & Hsource & _).
  exists score, s', row'. auto.
Defined.




(** The score of venue 1 of [googleStore] is 7.0 on a Friday at 23h: it
    is the one hot venue of a run over that store. *)
Example updateAll_hot_venue_of_googleStore :
  exists summary s',
    Pulse.updateAll (googleEnv 60000 23 5) googleStore = (Ok summary, s')
    /\ PulseBatchUpdateService.hotVenues summary
       = [ {| PulseBatchUpdateService.hot_id := 1;
              PulseBatchUpdateService.hot_name := "Venue 1";
              PulseBatchUpdateService.hot_pulse := 7.0 |} ].
Proof. vm_compute. do 2 eexists. split; reflexivity. Qed.

Lemma batchStarts_turns (fuel : nat) :
  forall j len : nat,
    (len - 10 * j <= fuel)%nat ->
    batchStarts fuel (10 * j) len
    = (fun k => (10 * k)%nat) <$> seq j ((len - 10 * j + 9) / 10).
Proof.
  induction fuel as [|fuel IH]; intros j len Hfuel; cbn [batchStarts].
  - replace (len - 10 * j)%nat with 0%nat by lia. reflexivity.
  - destruct (Nat.ltb_spec (10 * j) len) as [Hlt|Hge].
    + unfold PulseBatchUpdateService.batchSize.
      replace (10 * j + 10)%nat with (10 * S j)%nat by lia.
      rewrite IH by lia.
      assert (Hcount : ((len - 10 * j + 9) / 10
                        = S ((len - 10 * S j + 9) / 10))%nat).
      { destruct (le_lt_dec 10 (len - 10 * j)) as [Hbig|Hsmall].
        - replace (len - 10 * j + 9)%nat
            with (1 * 10 + (len - 10 * S j + 9))%nat by lia.
          rewrite Nat.div_add_l by lia. lia.
        - replace (len - 10 * S j)%nat with 0%nat by lia.
          change ((0 + 9) / 10)%nat with 0%nat.
          symmetry. apply Nat.div_unique with (r := (len - 10 * j - 1)%nat); lia. }
      rewrite Hcount. reflexivity.
    + replace (len - 10 * j)%nat with 0%nat by lia. reflexivity.
Qed.

Lemma progress_lines (n : nat) :
  progressLine n <$> batchStarts n 0 n = progressOfTurn n <$> seq 0 ((n + 9) / 10).
Proof.
  change (batchStarts n 0 n) with (batchStarts n (10 * 0) n).
  rewrite (batchStarts_turns n 0 n) by lia.
  replace (n - 10 * 0 + 9)%nat with (n + 9)%nat by lia.
  rewrite <- list_fmap_compose. apply list_fmap_ext. intros _ k _.
  unfold compose, progressLine, progressOfTurn, PulseBatchUpdateService.batchSize.
  f_equal. f_equal. lia.
Qed.

Lemma batchStarts_last (fuel : nat) :
  forall i len : nat,
    (len - i <= fuel)%nat -> (i < len)%nat ->
    last (progressLine len <$> batchStarts fuel i len)
    = Some (Z.of_nat len, Z.of_nat len).
Proof.
  induction fuel as [|fuel IH]; intros i len Hfuel Hlt; [lia|].
  cbn [batchStarts]. destruct (Nat.ltb_spec i len) as [_|]; [|lia].
  cbn [fmap list_fmap]. change (list_fmap ?f ?l) with (f <$> l).
  destruct (le_lt_dec len (i + PulseBatchUpdateService.batchSize)) as [Hend|Hmore].
  - destruct fuel as [|fuel']; cbn [batchStarts].
    + cbn. unfold progressLine. f_equal. f_equal. lia.
    + destruct (Nat.ltb_spec (i + PulseBatchUpdateService.batchSize) len); [lia|].
      cbn. unfold progressLine. f_equal. f_equal. lia.
  - specialize (IH (i + PulseBatchUpdateService.batchSize)%nat len).
    assert (Hrest : last (progressLine len
                          <$> batchStarts fuel (i + PulseBatchUpdateService.batchSize) len)
                    = Some (Z.of_nat len, Z.of_nat len))
      by (apply IH; [unfold PulseBatchUpdateService.batchSize in *; lia | lia]).
    destruct (progressLine len
              <$> batchStarts fuel (i + PulseBatchUpdateService.batchSize) len)
      as [|l ls] eqn:Hls; [discriminate|].
    rewrite last_cons, Hrest. reflexivity.
Qed.

(** X22.  A batch run over [n] venues writes one progress line per turn
    of its loop, [(n + 9) / 10] lines in all: the line of turn [k],
    counted from 0, reads [min (10 * (k + 1)) n] of [n], the number of
    venues processed so far; the last line reads [n] of [n]. *)
Theorem updateAll_progress (env : Env) (s : Store) :
  let n := length (PulseBatchUpdateService.selectActiveVenues s) in
  exists summary s',
    Pulse.updateAll env s = (Ok summary, s')
    /\ console s' = console s ++ (progressOfTurn n <$> seq 0 ((n + 9) / 10))
    /\ ((0 < n)%nat ->
        last (console s') = Some (Z.of_nat n, Z.of_nat n)).
Proof.
  intros n.
  destruct (updateAllVenues_run env s) as (s' & added & Hrun & _ & Hconsole & _).
  fold n in Hconsole.
  exists (PulseBatchUpdateService.summarize
            (PulseBatchUpdateService.selectActiveVenues s)
            (expectedResult env s <$> PulseBatchUpdateService.selectActiveVenues s)), s'.
  split; [exact Hrun|]. split; [rewrite Hconsole, progress_lines; reflexivity|].
  intros Hn. rewrite Hconsole.
  pose proof (batchStarts_last n 0 n ltac:(lia) Hn) as Hlast.
  destruct (progressLine n <$> batchStarts n 0 n) as [|l ls] eqn:Hlines;
    [discriminate|].
  rewrite last_app, Hlast. reflexivity.
Qed.

Lemma updateAll_progress_witness :
  exists summary s',
    Pulse.updateAll faultyEnv venues23 = (Ok summary, s')
    /\ console s' = console venues23 ++ [(10, 23); (20, 23); (23, 23)]%Z
    /\ last (console s') = Some (23, 23)%Z.
Proof.
  destruct (updateAll_progress faultyEnv venues23)
    as (summary & s' & Hrun & Hconsole & Hlast).
  exists summary, s'. split; [exact Hrun|]. split; [exact Hconsole|].
  apply Hlast. vm_compute. lia.
Defined.

(** X23.  A batch run adds no venue and removes none, changes no venue's
    id, name, place id, onboarding flag or activity flag, and leaves the
    reports, the pings, the social signals and the points as they are. *)
Theorem updateAll_keeps_venues (env : Env) (s : Store) :
  keepsVenues s (snd (Pulse.updateAll env s))
  /\ dom (venues (snd (Pulse.updateAll env s))) = dom (venues s).
Proof.
  destruct (updateAllVenues_run env s) as (s' & added & Hrun & Hkeep & _).
  unfold Pulse.updateAll. rewrite Hrun. cbn [snd].
  split; [exact Hkeep|].
  apply set_eq. intros venueId. rewrite !elem_of_dom.
  destruct Hkeep as (Hv & _). specialize (Hv venueId).
  destruct (venues s' !! venueId), (venues s !! venueId); cbn in Hv;
    try discriminate; split; intros [x Hx]; try discriminate; eauto.
Qed.

(** ** The busyness cache of [google-service.ts] *)

Lemma cache_age_test (t fetched : Z) :
  ((t - fetched >? cacheExpiry)%Z = false) <-> (t - fetched <= cacheExpiry)%Z.
Proof. rewrite Z.gtb_ltb, Z.ltb_ge. reflexivity. Qed.

(** X24.  Every sample answered by [getBusyness] is backed by the cache:
    after the call the cache holds it under the place id with an age of at
    most five minutes, and as long as the row is no older than that a
    further call answers the same sample without a request, whatever
    SerpAPI would answer then. *)
Theorem getBusyness_backed_by_cache
    (ctx : GoogleContext) (placeId : string)
    (st st' : GoogleBusynessServiceCache.State) (data : GoogleBusynessData) :
  GoogleBusynessServiceCache.getBusyness ctx placeId st = (Some data, st') ->
  exists row,
    GoogleBusynessServiceCache.google_busyness_cache st' !! placeId = Some row
    /\ busyness_data row = data
    /\ (clockNow ctx - fetched_at row <= cacheExpiry)%Z
    /\ (GoogleBusynessServiceCache.getCachedData ctx placeId st = None ->
        fetched_at row = clockNow ctx
        /\ GoogleBusynessServiceCache.requests st'
           = GoogleBusynessServiceCache.requests st ++ [placeId])
    /\ (forall other,
          other <> placeId ->
          GoogleBusynessServiceCache.google_busyness_cache st' !! other
          = GoogleBusynessServiceCache.google_busyness_cache st !! other)
    /\ forall ctx',
         (clockNow ctx' - fetched_at row <= cacheExpiry)%Z ->
         GoogleBusynessServiceCache.getBusyness ctx' placeId st' = (Some data, st').
Proof.
  unfold GoogleBusynessServiceCache.getBusyness.
  destruct (GoogleBusynessServiceCache.getCachedData ctx placeId st)
    as [cached|] eqn:Hcached.
  - intros [= -> <-].
    unfold GoogleBusynessServiceCache.getCachedData in Hcached.
    destruct (GoogleBusynessServiceCache.google_busyness_cache st !! placeId)
      as [row|] eqn:Hrow; [|discriminate].
    cbn zeta in Hcached.
    destruct (clockNow ctx - fetched_at row >? cacheExpiry)%Z eqn:Hage;
      [discriminate|].
    injection Hcached as <-. apply cache_age_test in Hage.
    exists row. repeat split; auto; try discriminate.
    intros ctx' Hage'. unfold GoogleBusynessServiceCache.getCachedData.
    rewrite Hrow. cbn zeta. apply cache_age_test in Hage'. now rewrite Hage'.
  - destruct (GoogleBusynessServiceCache.fetchFromSerpAPI ctx placeId)
      as [fresh|] eqn:Hfetch; [|discriminate].
    intros [= -> <-].
    assert (Hkey : String.eqb (apiKey ctx) "" = false).
    { unfold GoogleBusynessServiceCache.fetchFromSerpAPI in Hfetch.
      destruct (String.eqb (apiKey ctx) ""); [discriminate | reflexivity]. }
    unfold GoogleBusynessServiceCache.noteRequest. rewrite Hkey.
    eexists. cbn. split; [apply lookup_insert_eq|].
    cbn. split; [reflexivity|]. split; [unfold cacheExpiry; lia|].
    split; [auto|]. split.
    { intros other Hother. now apply lookup_insert_ne. }
    intros ctx' Hage'. unfold GoogleBusynessServiceCache.getCachedData. cbn.
    rewrite lookup_insert_eq. cbn. apply cache_age_test in Hage'. now rewrite Hage'.
Qed.

Lemma getBusyness_backed_by_cache_witness :
  exists data st',
    GoogleBusynessServiceCache.getBusyness
      (fridayNight 1000 (fridayAnswer (Some 72))) "place-1" emptyCache
    = (Some data, st')
    /\ GoogleBusynessServiceCache.getBusyness
         (fridayNight 301000 errorAnswer) "place-1" st'
       = (Some data, st').
Proof.
  eexists. eexists. split; [reflexivity|].
  destruct (getBusyness_backed_by_cache
              (fridayNight 1000 (fridayAnswer (Some 72))) "place-1" emptyCache _ _ eq_refl)
    as (row & _ & _ & _ & Hmiss & _ & Hagain).
  apply Hagain. rewrite (proj1 (Hmiss eq_refl)). vm_compute. discriminate.
Defined.

(** ** The two parsers of the SerpAPI answer *)

Lemma usualFor_nonzero (ctx : GoogleContext) (placeInfo : option PlaceResults) :
  ~ usualFor ctx placeInfo == 0.
Proof.
  unfold usualFor.
  repeat match goal with
         | |- context [match ?x with _ => _ end] => destruct x eqn:?
         end; try (intros H; vm_compute in H; discriminate).
  qtest; [intros H; vm_compute in H; discriminate | assumption].
Qed.

(** X25.  On one answer the two services read the same current level,
    usual level and confidence; the usual level is never 0, the
    confidence is 0.9 for a positive current level and 0.3 otherwise, and
    the relative levels agree when the usual level is positive.  The
    trends agree unless the current level is absent or 0: then the live
    service says stable, and the other one says decreasing as soon as the
    usual level exceeds 10. *)
Theorem services_parse_alike
    (ctx : GoogleContext) (placeId : string) (d : GoogleBusynessData) :
  GoogleBusynessServiceCache.fetchFromSerpAPI ctx placeId = Some d ->
  exists data,
    fetchJson ctx placeId = Ok data
    /\ has_error data = false
    /\ let d' := GoogleLiveBusynessFetch.parseBusyness ctx data in
       GoogleLiveBusynessFetch.fetchFromSerpAPI ctx placeId = Ok d'
       /\ currentBusyness d' = currentBusyness d
       /\ usualBusyness d' = usualBusyness d
       /\ sampleConfidence d' = sampleConfidence d
       /\ ~ usualBusyness d == 0
       /\ (0 < currentBusyness d /\ sampleConfidence d = 0.9
           \/ currentBusyness d <= 0 /\ sampleConfidence d = 0.3)
       /\ (0 < usualBusyness d -> relativeLevel d' = relativeLevel d)
       /\ (~ currentBusyness d == 0 -> trend d' = trend d)
       /\ (currentBusyness d == 0 ->
           trend d' = trend_stable
           /\ (10 < usualBusyness d -> trend d = trend_decreasing)).
Proof.
  unfold GoogleBusynessServiceCache.fetchFromSerpAPI,
    GoogleLiveBusynessFetch.fetchFromSerpAPI.
  destruct (String.eqb (apiKey ctx) ""); [discriminate|].
  destruct (fetchJson ctx placeId) as [data|e]; [|discriminate].
  destruct (has_error data) eqn:Herror; [discriminate|].
  destruct (place_results data) as [placeInfo|] eqn:Hplace; [|discriminate].
  intros [= <-]. exists data. split; [reflexivity|]. split; [exact Herror|].
  unfold GoogleLiveBusynessFetch.parseBusyness. rewrite Hplace.
  cbn [currentBusyness usualBusyness sampleConfidence relativeLevel trend].
  pose proof (usualFor_nonzero ctx (Some placeInfo)) as Husual.
  change (match populartimes placeInfo with
          | Some days => _
          | None => 50
          end) with (usualFor ctx (Some placeInfo)).
  generalize dependent (usualFor ctx (Some placeInfo)). intros usual Husual.
  split; [reflexivity|]. split; [reflexivity|]. split; [reflexivity|].
  split; [reflexivity|]. split; [exact Husual|]. split.
  { destruct (Qgtb_spec (orZero (current_popularity placeInfo)) 0);
      [left | right]; split; auto; lra. }
  split.
  { intros Hpos.
    unfold GoogleLiveBusynessService.getBusynessLevel,
      GoogleBusynessService.calculateRelativeLevel,
      GoogleBusynessService.relativeRatio.
    destruct (Qeqb_spec usual 0); [contradiction|].
    destruct (Qgtb_spec usual 0); [reflexivity | lra]. }
  unfold GoogleLiveBusynessFetch.calculateTrend, GoogleBusynessService.calculateTrend.
  destruct (current_popularity placeInfo) as [current|]; cbn [orZero].
  - destruct (Qeqb_spec current 0) as [Hzero|Hzero]; cbn [orb].
    + split; [contradiction|]. intros _. split; [reflexivity|].
      intros Hbig. repeat qtest; try reflexivity; lra.
    + destruct (Qeqb_spec usual 0); [contradiction|]. cbn [orb].
      split; [reflexivity | contradiction].
  - split; [intros H; exfalso; apply H; reflexivity|].
    intros _. split; [reflexivity|]. intros Hbig. repeat qtest; try reflexivity; lra.
Qed.

Lemma services_parse_alike_witness :
  exists d,
    GoogleBusynessServiceCache.fetchFromSerpAPI
      (fridayNight 1000 (fridayAnswer None)) "place-1" = Some d
    /\ trend d = trend_decreasing
    /\ trend (GoogleLiveBusynessFetch.parseBusyness
                (fridayNight 1000 (fridayAnswer None)) (fridayAnswer None))
       = trend_stable.
Proof.
  eexists. split; [reflexivity|].
  destruct (services_parse_alike (fridayNight 1000 (fridayAnswer None)) "place-1" _ eq_refl)
    as (data & Hdata & _ & _ & _ & _ & _ & _ & _ & _ & _ & Hzero).
  injection Hdata as <-.
  destruct (Hzero ltac:(reflexivity)) as [Hlive Hcache].
  split; [apply Hcache; reflexivity | exact Hlive].
Defined.

(** ** The live service and the enhanced pulse *)

Lemma getCachedBusyness_fresh
    (ctx : GoogleContext) (venueId : Z) (st : GoogleLiveBusynessFetch.State)
    (row : CacheRow) :
  GoogleLiveBusynessFetch.live_cache st !! venueId = Some row ->
  (clockNow ctx - fetched_at row <= cacheExpiry)%Z ->
  GoogleLiveBusynessFetch.getCachedBusyness ctx venueId st = Some (busyness_data row).
Proof.
  intros Hrow Hage. unfold GoogleLiveBusynessFetch.getCachedBusyness.
  rewrite Hrow. cbn zeta. apply cache_age_test in Hage. now rewrite Hage.
Qed.

Lemma enhance_unreliable (data : GoogleBusynessData) (spreePulse activeCheckIns : Q) :
  sampleConfidence data < 0.5 ->
  GoogleEnhancedPulse.enhance (Some data) spreePulse activeCheckIns
  = pureSpree spreePulse.
Proof.
  intros Hlow. unfold GoogleEnhancedPulse.enhance.
  destruct (Qltb_spec (sampleConfidence data) 0.5); [reflexivity | lra].
Qed.

Lemma calculateGoogleInfluence_range (data : GoogleBusynessData) (activeCheckIns : Q) :
  0.1 <= GoogleEnhancedPulse.calculateGoogleInfluence data activeCheckIns <= 0.5.
Proof.
  unfold GoogleEnhancedPulse.calculateGoogleInfluence. cbv zeta.
  destruct (Math_max_spec 0.1
              ((if activeCheckIns <? 10 then 0.3 + 0.2
                else if activeCheckIns >? 50 then 0.3 - 0.1 else 0.3)
               * sampleConfidence data)) as [[H1 ->]|[H1 ->]];
    match goal with
    | |- context [Math_min 0.5 ?x] =>
        destruct (Math_min_spec 0.5 x) as [[H2 ->]|[H2 ->]]
    end; lra.
Qed.

(** X26.  The live service keeps whatever SerpAPI answers: when the cache
    has no fresh row and the venue has a place id, every answer that
    arrives, even one that carries an error and no place, is parsed into
    a sample that is cached and logged with the stored pulse of the
    venue, and answered again without a request for five minutes.  A
    sample without a positive current level (that of an answer without
    place results is 0 against a usual 50) leaves the Spree pulse
    untouched; a positive one always weighs in. *)
Theorem live_answers_are_kept
    (ctx : GoogleContext) (venues : gmap Z VenueRecord) (venueId : Z)
    (st : GoogleLiveBusynessFetch.State) (venue : VenueRecord)
    (placeId : string) (data : SerpResponse) :
  GoogleLiveBusynessFetch.getCachedBusyness ctx venueId st = None ->
  venues !! venueId = Some venue ->
  google_place_id venue = Some placeId ->
  placeId <> ""%string ->
  fetchJson ctx placeId = Ok data ->
  let sample := GoogleLiveBusynessFetch.parseBusyness ctx data in
  exists st',
    GoogleLiveBusynessFetch.getLiveBusyness ctx venues venueId st = (Some sample, st')
    /\ GoogleLiveBusynessFetch.live_cache st' !! venueId
       = Some {| busyness_data := sample; fetched_at := clockNow ctx |}
    /\ GoogleLiveBusynessFetch.google_busyness_log st'
       = GoogleLiveBusynessFetch.google_busyness_log st
         ++ [GoogleLiveBusynessFetch.logged ctx venueId venue sample]
    /\ GoogleLiveBusynessFetch.live_requests st'
       = GoogleLiveBusynessFetch.live_requests st ++ [placeId]
    /\ (forall ctx' venues',
          (clockNow ctx' - clockNow ctx <= cacheExpiry)%Z ->
          GoogleLiveBusynessFetch.getLiveBusyness ctx' venues' venueId st'
          = (Some sample, st'))
    /\ (place_results data = None -> sample = blankSample ctx)
    /\ (forall spreePulse activeCheckIns,
          (currentBusyness sample <= 0 ->
           GoogleEnhancedPulse.enhance (Some sample) spreePulse activeCheckIns
           = pureSpree spreePulse)
          /\ (0 < currentBusyness sample ->
              0.1 <= GoogleEnhancedPulse.googleInfluence
                       (GoogleEnhancedPulse.enhance (Some sample) spreePulse
                                                    activeCheckIns))).
Proof.
  intros Hmiss Hvenue Hplace Hname Hfetch sample.
  assert (Henhance :
            forall spreePulse activeCheckIns,
              (currentBusyness sample <= 0 ->
               GoogleEnhancedPulse.enhance (Some sample) spreePulse activeCheckIns
               = pureSpree spreePulse)
              /\ (0 < currentBusyness sample ->
                  0.1 <= GoogleEnhancedPulse.googleInfluence
                           (GoogleEnhancedPulse.enhance (Some sample) spreePulse
                                                        activeCheckIns))).
  { intros spreePulse activeCheckIns.
    assert (Hconf : sampleConfidence sample
                    = if currentBusyness sample >? 0 then 0.9 else 0.3) by reflexivity.
    clearbody sample. split; intros Hlevel.
    - apply enhance_unreliable. rewrite Hconf.
      destruct (Qgtb_spec (currentBusyness sample) 0); lra.
    - unfold GoogleEnhancedPulse.enhance. rewrite Hconf.
      destruct (Qgtb_spec (currentBusyness sample) 0); [|lra].
      destruct (Qltb_spec 0.9 0.5); [lra|].
      cbn [GoogleEnhancedPulse.googleInfluence].
      apply calculateGoogleInfluence_range. }
  assert (Hblank : place_results data = None -> sample = blankSample ctx).
  { intros Hnone. unfold sample, GoogleLiveBusynessFetch.parseBusyness.
    rewrite Hnone. reflexivity. }
  assert (Hsample : GoogleLiveBusynessFetch.parseBusyness ctx data = sample)
    by reflexivity.
  clearbody sample.
  unfold GoogleLiveBusynessFetch.getLiveBusyness,
    GoogleLiveBusynessFetch.fetchFromSerpAPI.
  rewrite Hmiss, Hvenue, Hplace, Hfetch, Hsample.
  destruct (String.eqb_spec placeId ""); [contradiction|].
  eexists. split; [reflexivity|]. cbn.
  split; [apply lookup_insert_eq|]. split; [reflexivity|]. split; [reflexivity|].
  split; [|split; [exact Hblank | exact Henhance]].
  intros ctx' venues' Hage.
  unfold GoogleLiveBusynessFetch.getLiveBusyness.
  rewrite (getCachedBusyness_fresh ctx' venueId _
             {| busyness_data := sample; fetched_at := clockNow ctx |});
    [reflexivity | apply lookup_insert_eq | exact Hage].
Qed.

Lemma live_answers_are_kept_witness :
  exists st',
    GoogleLiveBusynessFetch.getLiveBusyness
      (fridayNight 1000 errorAnswer) (venues googleStore) 1 emptyLive
    = (Some (blankSample (fridayNight 1000 errorAnswer)), st')
    /\ GoogleLiveBusynessFetch.getLiveBusyness
         (fridayNight 301000 (fridayAnswer (Some 72))) (venues googleStore) 1 st'
       = (Some (blankSample (fridayNight 1000 errorAnswer)), st').
Proof.
  assert (Hname : "place-1"%string <> ""%string) by discriminate.
  destruct (live_answers_are_kept
              (fridayNight 1000 errorAnswer) (venues googleStore) 1 emptyLive
              googleVenue "place-1" errorAnswer
              eq_refl eq_refl eq_refl Hname eq_refl)
    as (st' & Hrun & _ & _ & _ & Hagain & Hblank & _).
  exists st'. rewrite <- (Hblank eq_refl).
  split; [exact Hrun|]. apply Hagain. vm_compute. discriminate.
Defined.

Lemma liveConvert_range (level : Q) :
  0 <= level <= 100 ->
  0 <= GoogleEnhancedPulse.convertGoogleToSpree level <= 10.
Proof. intros H. unfold GoogleEnhancedPulse.convertGoogleToSpree. qcases. Qed.

Lemma liveConvert_mono (a b : Q) :
  a <= b ->
  GoogleEnhancedPulse.convertGoogleToSpree a
  <= GoogleEnhancedPulse.convertGoogleToSpree b.
Proof. intros H. unfold GoogleEnhancedPulse.convertGoogleToSpree. qcases. Qed.

Lemma blend_between (s g i : Q) :
  0 <= i <= 1 ->
  Math_min s g <= s * (1 - i) + g * i <= Math_max s g.
Proof.
  intros Hi.
  destruct (Math_min_spec s g) as [[? ->]|[? ->]];
    destruct (Math_max_spec s g) as [[? ->]|[? ->]]; try lra; split; nra.
Qed.

(** X27.  The pulse enhanced with a Google sample stays on the scale and
    near its two sources: for a Spree pulse in [0, 10] the final pulse is
    in [0, 10]; the weight of Google is either 0, and then the Spree
    pulse is returned as it is, or between 0.1 and 0.5, and then the
    final pulse is at most 0.31 outside the interval spanned by the Spree
    pulse and the converted Google level (the trend moves it by 0.3), and
    within 0.01 of that interval when the trend is stable.  The
    converted level grows with the Google level and is in [0, 10] for a
    level in [0, 100]. *)
Theorem enhance_between_sources
    (googleData : option GoogleBusynessData) (spreePulse activeCheckIns : Q) :
  0 <= spreePulse <= 10 ->
  let e := GoogleEnhancedPulse.enhance googleData spreePulse activeCheckIns in
  0 <= GoogleEnhancedPulse.finalPulse e <= 10
  /\ (e = pureSpree spreePulse
      \/ exists data,
           googleData = Some data
           /\ 0.5 <= sampleConfidence data
           /\ 0.1 <= GoogleEnhancedPulse.googleInfluence e <= 0.5
           /\ let g := GoogleEnhancedPulse.convertGoogleToSpree (currentBusyness data) in
              Math_min spreePulse g - 0.31
              <= GoogleEnhancedPulse.finalPulse e
              <= Math_max spreePulse g + 0.31
              /\ (trend data = trend_stable ->
                  Math_min spreePulse g - 0.01
                  <= GoogleEnhancedPulse.finalPulse e
                  <= Math_max spreePulse g + 0.01))
  /\ (forall a b,
        a <= b ->
        GoogleEnhancedPulse.convertGoogleToSpree a
        <= GoogleEnhancedPulse.convertGoogleToSpree b)
  /\ (forall level,
        0 <= level <= 100 ->
        0 <= GoogleEnhancedPulse.convertGoogleToSpree level <= 10).
Proof.
  intros Hspree e.
  assert (Hcases :
            e = pureSpree spreePulse
            \/ exists data,
                 googleData = Some data
                 /\ 0.5 <= sampleConfidence data
                 /\ e = {| GoogleEnhancedPulse.finalPulse :=
                             GoogleEnhancedPulse.blendPulseScores
                               spreePulse data
                               (GoogleEnhancedPulse.calculateGoogleInfluence
                                  data activeCheckIns);
                           GoogleEnhancedPulse.googleInfluence :=
                             GoogleEnhancedPulse.calculateGoogleInfluence
                               data activeCheckIns;
                           GoogleEnhancedPulse.enhancedConfidence :=
                             GoogleEnhancedPulse.calculateCombinedConfidence
                               activeCheckIns data |}).
  { unfold e, GoogleEnhancedPulse.enhance.
    destruct googleData as [data|]; [|left; reflexivity].
    destruct (Qltb_spec (sampleConfidence data) 0.5); [left; reflexivity|].
    right. exists data. split; [reflexivity|]. split; [lra | reflexivity]. }
  assert (Hblend :
            forall data i,
              0.1 <= i <= 0.5 ->
              let g := GoogleEnhancedPulse.convertGoogleToSpree (currentBusyness data) in
              let f := GoogleEnhancedPulse.blendPulseScores spreePulse data i in
              0 <= f <= 10
              /\ Math_min spreePulse g - 0.31 <= f <= Math_max spreePulse g + 0.31
              /\ (trend data = trend_stable ->
                  Math_min spreePulse g - 0.01 <= f <= Math_max spreePulse g + 0.01)).
  { intros data i Hi g f. unfold f, GoogleEnhancedPulse.blendPulseScores.
    cbv zeta. fold g.
    pose proof (blend_between spreePulse g i ltac:(lra)) as Hb.
    set (blended := spreePulse * (1 - i) + g * i) in *. clearbody blended.
    assert (Hmin : Math_min spreePulse g <= spreePulse)
      by (destruct (Math_min_spec spreePulse g) as [[? ->]|[? ->]]; lra).
    assert (Hmax : spreePulse <= Math_max spreePulse g)
      by (destruct (Math_max_spec spreePulse g) as [[? ->]|[? ->]]; lra).
    set (lo := Math_min spreePulse g) in *. set (hi := Math_max spreePulse g) in *.
    clearbody lo hi.
    destruct (trend data);
      match goal with
      | |- context [Math_max 0 ?x] =>
          destruct (Math_max_spec 0 x) as [[? ->]|[? ->]]
      end;
      match goal with
      | |- context [Math_min 10 ?x] =>
          destruct (Math_min_spec 10 x) as [[? ->]|[? ->]]
      end;
      (split; [lra|]; split; [lra|]; intros Hstable; (discriminate || lra)). }
  split; [|split; [|split; [exact liveConvert_mono | exact liveConvert_range]]].
  - destruct Hcases as [-> | (data & _ & _ & ->)]; [exact Hspree|].
    apply (Hblend data), calculateGoogleInfluence_range.
  - destruct Hcases as [-> | (data & Hdata & Hconf & ->)]; [left; reflexivity|].
    right. exists data. split; [exact Hdata|]. split; [exact Hconf|].
    split; [apply calculateGoogleInfluence_range|].
    apply (Hblend data), calculateGoogleInfluence_range.
Qed.

(** A live sample of 72 against a Spree pulse of 4 with 12 check-ins:
    the weight is 0.27 and the final pulse 5.134 plus 0.3 for the rising
    trend. *)
Lemma enhance_between_sources_witness :
  let e :=
    GoogleEnhancedPulse.enhance
      (Some (GoogleLiveBusynessFetch.parseBusyness
               (fridayNight 1000 (fridayAnswer (Some 72)))
               (fridayAnswer (Some 72))))
      4 12 in
  0 <= GoogleEnhancedPulse.finalPulse e <= 10
  /\ GoogleEnhancedPulse.googleInfluence e == 0.27
  /\ GoogleEnhancedPulse.finalPulse e == 5.434.
Proof.
  assert (H : 0 <= 4 <= 10) by (split; discriminate).
  split; [|split; reflexivity].
  exact (proj1 (enhance_between_sources
                  (Some (GoogleLiveBusynessFetch.parseBusyness
                           (fridayNight 1000 (fridayAnswer (Some 72)))
                           (fridayAnswer (Some 72))))
                  4 12 H)).
Defined.

Lemma calculateCombinedConfidence_mono (data : GoogleBusynessData) (a b : Q) :
  a <= b ->
  GoogleEnhancedPulse.calculateCombinedConfidence a data
  <= GoogleEnhancedPulse.calculateCombinedConfidence b data.
Proof.
  intros Hab. unfold GoogleEnhancedPulse.calculateCombinedConfidence. cbv zeta.
  destruct (Math_min_spec 0.9 (a / 30)) as [[? ->]|[? ->]];
    destruct (Math_min_spec 0.9 (b / 30)) as [[? ->]|[? ->]]; qlra.
Qed.

(** X28.  With a Google sample of confidence 0.9 the combined confidence
    grows with the active check-ins, from 0.36 on, and stays below 1.  Up
    to 16 active check-ins it is below 0.7, the confidence answered
    without any Google sample, and from 17 on it is at least 0.7: for a
    quiet venue a reliable Google sample lowers the confidence that is
    reported. *)
Theorem enhanced_confidence_against_fallback
    (data : GoogleBusynessData) (spreePulse activeCheckIns : Q) :
  sampleConfidence data == 0.9 ->
  0 <= activeCheckIns ->
  let confidenceWith a :=
    GoogleEnhancedPulse.enhancedConfidence
      (GoogleEnhancedPulse.enhance (Some data) spreePulse a) in
  let fallback := GoogleEnhancedPulse.enhancedConfidence (pureSpree spreePulse) in
  0.36 <= confidenceWith activeCheckIns < 1
  /\ (activeCheckIns <= 16 -> confidenceWith activeCheckIns < fallback)
  /\ (17 <= activeCheckIns -> fallback <= confidenceWith activeCheckIns)
  /\ (forall more, activeCheckIns <= more ->
                   confidenceWith activeCheckIns <= confidenceWith more).
Proof.
  intros Hconf Hactive. cbv beta zeta.
  assert (Hwith : forall a,
             GoogleEnhancedPulse.enhancedConfidence
               (GoogleEnhancedPulse.enhance (Some data) spreePulse a)
             = GoogleEnhancedPulse.calculateCombinedConfidence a data).
  { intros a. unfold GoogleEnhancedPulse.enhance.
    destruct (Qltb_spec (sampleConfidence data) 0.5); [lra | reflexivity]. }
  rewrite Hwith. cbn [GoogleEnhancedPulse.enhancedConfidence pureSpree].
  split; [|split; [|split]].
  - unfold GoogleEnhancedPulse.calculateCombinedConfidence. cbv zeta.
    destruct (Math_min_spec 0.9 (activeCheckIns / 30)) as [[Hm ->]|[Hm ->]];
      split; qlra.
  - intros Hfew. unfold GoogleEnhancedPulse.calculateCombinedConfidence. cbv zeta.
    destruct (Math_min_spec 0.9 (activeCheckIns / 30)) as [[Hm ->]|[Hm ->]]; qlra.
  - intros Hmany. unfold GoogleEnhancedPulse.calculateCombinedConfidence. cbv zeta.
    destruct (Math_min_spec 0.9 (activeCheckIns / 30)) as [[Hm ->]|[Hm ->]]; qlra.
  - intros more Hmore. rewrite Hwith. now apply calculateCombinedConfidence_mono.
Qed.

(** With five active check-ins the combined confidence is 0.46. *)
Lemma enhanced_confidence_against_fallback_witness :
  let sample :=
    GoogleLiveBusynessFetch.parseBusyness
      (fridayNight 1000 (fridayAnswer (Some 72))) (fridayAnswer (Some 72)) in
  GoogleEnhancedPulse.enhancedConfidence (GoogleEnhancedPulse.enhance (Some sample) 4 5)
  == 0.46
  /\ GoogleEnhancedPulse.enhancedConfidence (GoogleEnhancedPulse.enhance (Some sample) 4 5)
     < GoogleEnhancedPulse.enhancedConfidence (pureSpree 4).
Proof.
  intros sample.
  assert (Hconf : sampleConfidence sample == 0.9) by reflexivity.
  assert (Hactive : 0 <= 5) by discriminate.
  assert (Hfew : 5 <= 16) by discriminate.
  split; [reflexivity|].
  exact (proj1 (proj2 (enhanced_confidence_against_fallback sample 4 5 Hconf Hactive))
           Hfew).
Defined.

(** ** The metrics read from the telemetry tables *)

Lemma filter_length_le {A} (P : A -> Prop) `{!forall x, Decision (P x)} (l : list A) :
  (length (filter P l) <= length l)%nat.
Proof.
  induction l as [|x l IH]; [reflexivity|].
  rewrite filter_cons. case_decide; cbn [length]; lia.
Qed.

Lemma Zlen_filter_bounds {A} (P : A -> Prop) `{!forall x, Decision (P x)} (l : list A) :
  0 <= inject_Z (Zlen (filter P l)) <= inject_Z (Zlen l).
Proof.
  pose proof (filter_length_le P l). unfold Zlen.
  split; [change 0 with (inject_Z 0)|]; rewrite <- Zle_Qle; lia.
Qed.

Lemma Zlen_filter_impl {A} (P R : A -> Prop)
    `{!forall x, Decision (P x)} `{!forall x, Decision (R x)} (l : list A) :
  (forall x, P x -> R x) ->
  inject_Z (Zlen (filter P l)) <= inject_Z (Zlen (filter R l)).
Proof.
  intros Himpl. unfold Zlen. rewrite <- Zle_Qle. apply inj_le.
  induction l as [|x l IH]; [reflexivity|].
  rewrite !filter_cons. repeat case_decide; cbn [length]; try lia.
  exfalso; auto.
Qed.

Ltac not_inherited :=
  unfold PulseEngineMetrics.inheritedMembers;
  rewrite !not_elem_of_cons;
  repeat split; (discriminate || apply not_elem_of_nil).

Lemma sentimentOf_range (vibeCheck : option string) (x : Q) :
  PulseEngineMetrics.sentimentOf vibeCheck = Some x -> - (1) <= x <= 1.
Proof.
  unfold PulseEngineMetrics.sentimentOf. cbv zeta.
  repeat match goal with
         | |- context [String.eqb ?a ?b] => destruct (String.eqb a b)
         end;
    try (destruct (bool_decide _)); intros [= <-]; lra.
Qed.

Lemma sumSentiment_lost (ratings : list RatingRow) :
  fold_left PulseEngineMetrics.addSentiment ratings None = None.
Proof. induction ratings as [|r ratings IH]; [reflexivity | exact IH]. Qed.

(** The sum is a number exactly when every term is one, and then it is
    within the number of ratings of where it started. *)
Lemma sumSentiment_from (ratings : list RatingRow) :
  forall acc : Q,
    match fold_left PulseEngineMetrics.addSentiment ratings (Some acc) with
    | Some sum =>
        Forall (fun r => is_Some (PulseEngineMetrics.sentimentOf (vibe_check r))) ratings
        /\ acc - inject_Z (Zlen ratings) <= sum <= acc + inject_Z (Zlen ratings)
    | None =>
        Exists (fun r => PulseEngineMetrics.sentimentOf (vibe_check r) = None) ratings
    end.
Proof.
  induction ratings as [|r ratings IH]; intros acc.
  - cbn. split; [constructor|]. change (inject_Z (Zlen [])) with 0. lra.
  - cbn [fold_left]. unfold PulseEngineMetrics.addSentiment at 2.
    destruct (PulseEngineMetrics.sentimentOf (vibe_check r)) as [x|] eqn:Hx.
    + specialize (IH (acc + x)).
      pose proof (sentimentOf_range _ _ Hx) as Hrange.
      destruct (fold_left PulseEngineMetrics.addSentiment ratings (Some (acc + x))) as [sum|].
      * destruct IH as [Hall Hsum]. split.
        -- constructor; [rewrite Hx; eexists; reflexivity | exact Hall].
        -- assert (Hlen : inject_Z (Zlen (r :: ratings))
                          == inject_Z (Zlen ratings) + 1).
           { unfold Zlen. cbn [length].
             rewrite Nat2Z.inj_succ, <- Z.add_1_r, inject_Z_plus. reflexivity. }
           rewrite Hlen. lra.
      * now apply Exists_cons_tl.
    + rewrite sumSentiment_lost. now apply Exists_cons_hd.
Qed.

Lemma meanSentiment_cases (ratings : list RatingRow) :
  match PulseEngineMetrics.meanSentiment ratings with
  | Some mean =>
      Forall (fun r => is_Some (PulseEngineMetrics.sentimentOf (vibe_check r))) ratings
      /\ - (1) <= mean <= 1
  | None =>
      Exists (fun r => PulseEngineMetrics.sentimentOf (vibe_check r) = None) ratings
  end.
Proof.
  unfold PulseEngineMetrics.meanSentiment, PulseEngineMetrics.sumSentiment.
  destruct ratings as [|r ratings]; [split; [constructor | lra]|].
  pose proof (sumSentiment_from (r :: ratings) 0) as Hsum.
  destruct (fold_left PulseEngineMetrics.addSentiment (r :: ratings) (Some 0)) as [sum|]; [|exact Hsum].
  destruct Hsum as [Hall Hrange]. split; [exact Hall|].
  assert (Hpos : 0 < inject_Z (Zlen (r :: ratings))).
  { change 0 with (inject_Z 0). rewrite <- Zlt_Qlt. unfold Zlen. cbn [length]. lia. }
  split.
  - apply Qle_shift_div_l; [exact Hpos | lra].
  - apply Qle_shift_div_r; [exact Hpos | lra].
Qed.

(** X29.  The metrics read from the tables are coherent: the check-ins
    of the last 30 minutes are among those of the last hour, which are
    among those of the last two hours, as are the active ones; the trend
    is never surging without a check-in in the last 30 minutes, always
    surging when the last hour's check-ins all fall in the last 30
    minutes, and stable when the venue had no check-in for two hours.
    The mean sentiment of the ratings of the last hour is a number
    exactly when none of their labels names a member that every object
    inherits (such a label turns the sum into a string and the mean into
    NaN); when it is a number, it is the sentiment of the metrics and
    lies between -1 and 1. *)
Theorem getVenueMetrics_coherent (env : Env) (db : Telemetry) (venueId : Z) :
  let m := PulseEngineMetrics.getVenueMetrics env db venueId in
  let window := inject_Z (Zlen (recentCheckIns env db venueId)) in
  let ratings := recentRatingsOf env db venueId in
  0 <= checkInsLast30Min m <= checkInsLastHour m
  /\ checkInsLastHour m <= window
  /\ 0 <= activeCheckIns m <= window
  /\ (checkInsLast30Min m == 0 -> checkInTrend m <> surging)
  /\ (0 < checkInsLastHour m -> checkInsLast30Min m == checkInsLastHour m ->
      checkInTrend m = surging)
  /\ (window == 0 -> checkInTrend m = stable /\ activeCheckIns m == 0)
  /\ (is_Some (PulseEngineMetrics.meanSentiment ratings)
      <-> Forall (fun r => match vibe_check r with
                           | Some label => label ∉ PulseEngineMetrics.inheritedMembers
                           | None => True
                           end) ratings)
  /\ (forall mean,
        PulseEngineMetrics.meanSentiment ratings = Some mean ->
        recentSentiment m = mean /\ - (1) <= mean <= 1).
Proof.
  intros m window ratings.
  set (rows := recentCheckIns env db venueId).
  set (last30 := inject_Z (Zlen (filter (fun c => (now env - 30 * 60 * 1000
                                                   <= checkin_created_at c)%Z) rows))).
  set (lastHour := inject_Z (Zlen (filter (fun c => (now env - 60 * 60 * 1000
                                                     <= checkin_created_at c)%Z) rows))).
  set (previous := inject_Z (Zlen (filter (fun c => (checkin_created_at c
                                                     < now env - 60 * 60 * 1000)%Z) rows))).
  set (active := inject_Z (Zlen (filter (fun c => checked_out_at c = None) rows))).
  assert (H30 : 0 <= last30 <= lastHour).
  { split; [apply Zlen_filter_bounds|]. apply Zlen_filter_impl. intros c. lia. }
  assert (Hhour : 0 <= lastHour <= window) by apply Zlen_filter_bounds.
  assert (Hprevious : 0 <= previous <= window) by apply Zlen_filter_bounds.
  assert (Hactive : 0 <= active <= window) by apply Zlen_filter_bounds.
  assert (Htrend : checkInTrend m = PulseEngineMetrics.trendOf last30 lastHour previous)
    by reflexivity.
  assert (Hsentiment : recentSentiment m
                       = default 0 (PulseEngineMetrics.meanSentiment ratings))
    by reflexivity.
  change (checkInsLast30Min m) with last30.
  change (checkInsLastHour m) with lastHour.
  change (activeCheckIns m) with active.
  rewrite Htrend, Hsentiment.
  clearbody last30 lastHour previous active window ratings.
  split; [exact H30|]. split; [apply Hhour|]. split; [exact Hactive|].
  unfold PulseEngineMetrics.trendOf.
  split; [|split; [|split; [|split]]].
  - intros Hnone. destruct (Qgtb_spec last30 (lastHour * 0.6)); [lra | qcases; discriminate].
  - intros Hsome Hall. destruct (Qgtb_spec last30 (lastHour * 0.6)); [reflexivity | lra].
  - intros Hquiet. split; [|lra].
    destruct (Qgtb_spec last30 (lastHour * 0.6)); [lra|].
    destruct (Qgtb_spec lastHour (previous * 1.2)); [lra|].
    destruct (Qltb_spec lastHour (previous * 0.8)); [lra | reflexivity].
  - pose proof (meanSentiment_cases ratings) as Hmean.
    assert (Hlabel : forall r,
               is_Some (PulseEngineMetrics.sentimentOf (vibe_check r))
               <-> match vibe_check r with
                   | Some label => label ∉ PulseEngineMetrics.inheritedMembers
                   | None => True
                   end).
    { intros r. unfold PulseEngineMetrics.sentimentOf. cbv zeta.
      destruct (vibe_check r) as [label|]; [|split; [auto | eexists; reflexivity]].
      destruct (String.eqb_spec label "") as [->|Hempty].
      { split; [intros _; not_inherited | eexists; reflexivity]. }
      destruct (String.eqb_spec label "fire") as [->|_].
      { split; [intros _; not_inherited | eexists; reflexivity]. }
      destruct (String.eqb_spec label "good") as [->|_].
      { split; [intros _; not_inherited | eexists; reflexivity]. }
      destruct (String.eqb_spec label "mid") as [->|_].
      { split; [intros _; not_inherited | eexists; reflexivity]. }
      destruct (String.eqb_spec label "dead") as [->|_].
      { split; [intros _; not_inherited | eexists; reflexivity]. }
      case_bool_decide as Hin.
      - split; [intros [x [=]] | contradiction].
      - split; [auto | eexists; reflexivity]. }
    destruct (PulseEngineMetrics.meanSentiment ratings) as [mean|].
    + destruct Hmean as [Hall _]. split; [intros _ | eexists; reflexivity].
      eapply Forall_impl; [exact Hall|]. intros r. apply Hlabel.
    + split; [intros [x [=]]|]. intros Hall. exfalso.
      apply Exists_exists in Hmean as (r & Hr & Hnone).
      rewrite Forall_forall in Hall. apply Hall, Hlabel in Hr as [x Hx]. congruence.
  - intros mean Hmean. pose proof (meanSentiment_cases ratings) as Hcases.
    rewrite Hmean in Hcases. cbn [default]. rewrite Hmean. cbn.
    split; [reflexivity | apply Hcases].
Qed.

(** Three ratings of venue 3 in the last hour, fire, good and dead: the
    mean sentiment is 1/6.  The rating of venue 4 is labelled
    "constructor": its mean is not a number. *)
Example meanSentiment_samples :
  (exists mean,
     PulseEngineMetrics.meanSentiment
       (recentRatingsOf (quietEnv 3600000 21 5) sampleTelemetry 3) = Some mean
     /\ mean == 1 # 6)
  /\ PulseEngineMetrics.meanSentiment
       (recentRatingsOf (quietEnv 3600000 21 5) sampleTelemetry 4) = None.
Proof. split; [eexists; split; reflexivity | reflexivity]. Qed.

Lemma latestLog_latest (rows : list StatusLogRow) :
  match PulseEngineMetrics.latestLog rows with
  | Some l =>
      l ∈ rows
      /\ forall l', l' ∈ rows -> (status_created_at l' <= status_created_at l)%Z
  | None => rows = []
  end.
Proof.
  induction rows as [|r rows IH]; [reflexivity|].
  cbn [PulseEngineMetrics.latestLog].
  destruct (PulseEngineMetrics.latestLog rows) as [r'|].
  - destruct IH as [Hin Hmax].
    destruct (Z.ltb_spec (status_created_at r) (status_created_at r')).
    + split; [now apply list_elem_of_further|].
      intros l' [->|Hl']%elem_of_cons; [lia | auto].
    + split; [apply list_elem_of_here|].
      intros l' [->|Hl']%elem_of_cons; [lia|]. specialize (Hmax l' Hl'). lia.
  - subst rows. split; [apply list_elem_of_here|].
    intros l' [->|Hl']%elem_of_cons; [lia|]. inversion Hl'.
Qed.

(** What a status log contributes: its wait when it has one that is not 0. *)
Lemma reportedWaitTime_latest (env : Env) (db : Telemetry) (venueId : Z) :
  reportedWaitTime (PulseEngineMetrics.getVenueMetrics env db venueId)
  = match PulseEngineMetrics.latestLog (recentLogs env db venueId) with
    | Some l =>
        match line_time_minutes l with
        | Some w => if (w =? 0)%Z then None else Some (inject_Z w)
        | None => None
        end
    | None => None
    end.
Proof. reflexivity. Qed.

(** X30.  The wait time of the metrics is the one of the most recent
    status log of the venue in the last hour: it is absent when there is
    no such log; when it is present it is not 0, it is the wait of a log
    of the last hour and no log of the last hour is more recent; and when
    one log is strictly the most recent, its wait alone counts, so an
    older log's wait is never reported in its place. *)
Theorem getVenueMetrics_wait (env : Env) (db : Telemetry) (venueId : Z) :
  let m := PulseEngineMetrics.getVenueMetrics env db venueId in
  let logs := recentLogs env db venueId in
  (logs = [] -> reportedWaitTime m = None)
  /\ (forall w,
        reportedWaitTime m = Some w ->
        ~ w == 0
        /\ exists l minutes,
             l ∈ logs
             /\ line_time_minutes l = Some minutes
             /\ w = inject_Z minutes
             /\ forall l', l' ∈ logs ->
                           (status_created_at l' <= status_created_at l)%Z)
  /\ (forall l,
        l ∈ logs ->
        (forall l', l' ∈ logs ->
                    (status_created_at l <= status_created_at l')%Z -> l' = l) ->
        reportedWaitTime m
        = match line_time_minutes l with
          | Some minutes =>
              if (minutes =? 0)%Z then None else Some (inject_Z minutes)
          | None => None
          end).
Proof.
  intros m logs. unfold m. rewrite reportedWaitTime_latest. fold logs.
  pose proof (latestLog_latest logs) as Hlatest.
  destruct (PulseEngineMetrics.latestLog logs) as [l0|].
  - destruct Hlatest as [Hin Hmax]. split; [|split].
    + intros Hnone. rewrite Hnone in Hin. inversion Hin.
    + intros w Hw.
      destruct (line_time_minutes l0) as [minutes|] eqn:Hminutes; [|discriminate].
      destruct (Z.eqb_spec minutes 0) as [|Hnonzero]; [discriminate|].
      injection Hw as <-. split.
      * change 0 with (inject_Z 0). rewrite inject_Z_injective. exact Hnonzero.
      * exists l0, minutes. auto.
    + intros l Hl Hstrict.
      rewrite (Hstrict l0 Hin (Hmax l Hl)). reflexivity.
  - split; [reflexivity|]. split; [discriminate|].
    intros l Hl _. rewrite Hlatest in Hl. inversion Hl.
Qed.

Lemma getVenueMetrics_wait_witness :
  exists l,
    l ∈ recentLogs (quietEnv 3600000 21 5) sampleTelemetry 3
    /\ line_time_minutes l = Some 45%Z.
Proof.
  destruct (proj1 (proj2 (getVenueMetrics_wait (quietEnv 3600000 21 5) sampleTelemetry 3))
              45 eq_refl)
    as (_ & l & minutes & Hl & Hminutes & Hw & _).
  exists l. split; [exact Hl|]. rewrite Hminutes. f_equal.
  apply inject_Z_injective. rewrite <- Hw. reflexivity.
Defined.
